(** * MoviAgent: a shallow embedding of the domain store, the generic query
      gate, the history reformatting and the decision loop.

    The development follows the three source modules:
    - [Db]        embeds [db.py]       (tables, creation, assignment, removal,
                                        the generic query operation);
    - [MoviAgent] embeds [movi_agent.py] (graph state, agent node, tool node,
                                        the compiled graph and its run);
    - [App]       embeds [app.py]      (history reformatting, one chat turn).

    Modelling conventions.
    - A Python [str] is a [string] (a sequence of bytes, UTF-8 for the
      non-ASCII arrow used in messages).  [str.lower] and [str.strip] are
      embedded on the ASCII range, which is where every keyword tested by
      the code lives.
    - An SQLite table is the list of its rows in rowid order together with
      the AUTOINCREMENT high-water mark kept in [sqlite_sequence].
    - A nullable column is an [option]; a REAL column is a rational.
    - A [sqlite3.Connection] works on a private copy of the database;
      [conn.commit()] publishes the copy, closing without commit drops it.
    - The SQL engine behind the generic query operation, the reasoning
      capability and the rendering of floats are parameters; small
      stand-ins for them are defined for the concrete examples. *)

From Stdlib Require Import List String Ascii ZArith QArith Bool Lia.
From Stdlib Require Import DecimalString.
From Stdlib Require Import Sorted Permutation.
Import ListNotations.

Open Scope string_scope.
Open Scope Z_scope.
Open Scope list_scope.

(* ================================================================== *)
(** * Python strings *)
(* ================================================================== *)

Module Py.

  (** An f-string is the concatenation of its literal and interpolated
      pieces. *)
Definition fstr (pieces : list string) : string := String.concat "" pieces.

  (** [sep.join(items)] *)
Definition join (sep : string) (items : list string) : string :=
    String.concat sep items.

  (** [str(n)] for an integer. *)
Definition str_int (n : Z) : string := NilZero.string_of_int (Z.to_int n).

  (** [str(x)] / f-string rendering of a nullable text column: SQL NULL is
      Python [None]. *)
Definition str_opt (x : option string) : string :=
    match x with Some s => s | None => "None" end.

Definition is_upper (c : ascii) : bool :=
    let n := nat_of_ascii c in (65 <=? n)%nat && (n <=? 90)%nat.

Definition lower_char (c : ascii) : ascii :=
    if is_upper c then ascii_of_nat (nat_of_ascii c + 32) else c.

  (** [s.lower()] *)
Fixpoint lower (s : string) : string :=
    match s with
    | EmptyString => EmptyString
    | String c r => String (lower_char c) (lower r)
    end.

  (** The characters [str.strip()] removes: tab, line feed, vertical tab,
      form feed, carriage return, the four separators 28..31 and space. *)
Definition isspace (c : ascii) : bool :=
    let n := nat_of_ascii c in
    ((9 <=? n)%nat && (n <=? 13)%nat) || ((28 <=? n)%nat && (n <=? 32)%nat).

Fixpoint lstrip (s : string) : string :=
    match s with
    | EmptyString => EmptyString
    | String c r => if isspace c then lstrip r else s
    end.

Fixpoint rstrip (s : string) : string :=
    match s with
    | EmptyString => EmptyString
    | String c r =>
        match rstrip r with
        | EmptyString => if isspace c then EmptyString else String c EmptyString
        | r' => String c r'
        end
    end.

  (** [s.strip()] *)
Definition strip (s : string) : string := rstrip (lstrip s).

  (** [s.startswith(p)] *)
Definition startswith (s p : string) : bool := String.prefix p s.

  (** [needle in hay] for strings. *)
Fixpoint contains (needle hay : string) : bool :=
    String.prefix needle hay ||
    match hay with
    | EmptyString => false
    | String _ r => contains needle r
    end.

  (** [x or default] on a nullable REAL: [None] and [0.0] are falsy. *)
Definition real_or (x : option Q) (default : Q) : Q :=
    match x with
    | None => default
    | Some q => if Qeq_bool q 0%Q then default else q
    end.

  (** [x > 0] on floats. *)
Definition gt0 (q : Q) : bool := negb (Qle_bool q 0%Q).

  (** Truthiness of an optional string ([None] and [""] are falsy). *)
Definition truthy (x : option string) : bool :=
    match x with
    | None => false
    | Some s => negb (s =? "")%string
    end.

End Py.

(* ================================================================== *)
(** * db.py *)
(* ================================================================== *)

(** ** Rows of the eight tables created by [init_db] *)

Module Stops.
Record row := mk
    { stop_id : Z; name : string; latitude : option Q; longitude : option Q }.
End Stops.

Module Paths.
Record row := mk { path_id : Z; path_name : string }.
End Paths.

Module PathStops.
Record row := mk { id : Z; path_id : Z; stop_id : Z; seq : Z }.
End PathStops.

Module Routes.
Record row := mk
    { route_id : Z; path_id : Z; route_display_name : string;
      shift_time : string; direction : string;
      start_point : string; end_point : string; status : string }.
End Routes.

Module Vehicles.
Record row := mk
    { vehicle_id : Z; license_plate : string; type : string; capacity : Z }.
End Vehicles.

Module Drivers.
Record row := mk
    { driver_id : Z; name : string; phone_number : option string }.
End Drivers.

Module DailyTrips.
Record row := mk
    { trip_id : Z; route_id : Z; display_name : string;
      booking_status_percentage : option Q; live_status : option string }.
End DailyTrips.

Module Deployments.
Record row := mk
    { deployment_id : Z; trip_id : Z;
      vehicle_id : option Z; driver_id : option Z }.
End Deployments.

(** ** Tables and the database *)

(** A table: its rows in rowid order and the AUTOINCREMENT counter SQLite
    keeps for it in [sqlite_sequence]. *)
Record Table (A : Type) := mkTable { rows : list A; sqlite_sequence : Z }.
Arguments mkTable {A} _ _.
Arguments rows {A} _.
Arguments sqlite_sequence {A} _.

Record DB := mkDB
  { stops : Table Stops.row;
    paths : Table Paths.row;
    path_stops : Table PathStops.row;
    routes : Table Routes.row;
    vehicles : Table Vehicles.row;
    drivers : Table Drivers.row;
    daily_trips : Table DailyTrips.row;
    deployments : Table Deployments.row }.

Module Db.

  (** *** SQLite primitives *)

Definition max_rowid {A} (key : A -> Z) (l : list A) : Z :=
    fold_right Z.max 0 (map key l).

  (** INTEGER PRIMARY KEY AUTOINCREMENT: one more than the largest rowid the
      table has ever held. *)
Definition next_rowid {A} (key : A -> Z) (t : Table A) : Z :=
    Z.max (sqlite_sequence t) (max_rowid key (rows t)) + 1.

  (** Appending a row under AUTOINCREMENT. *)
Definition append_row {A} (t : Table A) (id : Z) (r : A) : Table A :=
    mkTable (rows t ++ [r]) id.

  (** A statement either completes or raises [sqlite3.IntegrityError]. *)
Inductive sqlite (A : Type) : Type :=
| Done (a : A)
| IntegrityError.
Arguments Done {A} _.
Arguments IntegrityError {A}.

Definition bind {A B} (m : sqlite A) (k : A -> sqlite B) : sqlite B :=
    match m with
    | Done a => k a
    | IntegrityError => IntegrityError
    end.

Notation "x <- m ;; k" := (bind m (fun x => k))
    (at level 61, m at next level, right associativity).
Notation "' p <- m ;; k" := (bind m (fun x => let p := x in k))
    (at level 61, p pattern, m at next level, right associativity).

  (** [cur.fetchone()]: the first row of the result set, or [None]. *)
Definition fetchone {A} (result_set : list A) : option A := hd_error result_set.

(** [SELECT ... FROM t WHERE p], rows in rowid order. *)
Definition select_where {A} (p : A -> bool) (t : Table A) : list A :=
  filter p (rows t).

(** [a JOIN b ON on]: nested loop, outer table first. *)
Definition join_on {A B} (on : A -> B -> bool) (l : list A) (r : list B)
    : list (A * B) :=
  flat_map (fun a => map (fun b => (a, b)) (filter (on a) r)) l.

(** [a LEFT JOIN b ON on]: an outer row without a partner is kept, padded
    with NULL. *)
Definition partners {A B} (on : A -> B -> bool) (r : list B) (a : A)
    : list (A * option B) :=
  match filter (on a) r with
  | [] => [(a, None)]
  | ms => map (fun b => (a, Some b)) ms
  end.

Definition left_join_on {A B} (on : A -> B -> bool) (l : list A) (r : list B)
    : list (A * option B) :=
  flat_map (partners on r) l.

(** [ORDER BY key ASC]: rows with equal keys keep their scan order. *)
Fixpoint insert_sorted {A} (le : A -> A -> bool) (x : A) (l : list A)
    : list A :=
  match l with
  | [] => [x]
  | y :: r => if le x y then x :: l else y :: insert_sorted le x r
  end.

Definition order_by {A} (le : A -> A -> bool) (l : list A) : list A :=
  fold_right (insert_sorted le) [] l.

(** [x = y] where [y] is a nullable column: NULL matches nothing. *)
Definition eq_nullable (x : Z) (y : option Z) : bool :=
  match y with
  | Some v => x =? v
  | None => false
  end.

Definition set_stops (db : DB) (t : Table Stops.row) : DB :=
    mkDB t (paths db) (path_stops db) (routes db) (vehicles db) (drivers db)
         (daily_trips db) (deployments db).
Definition set_paths (db : DB) (t : Table Paths.row) : DB :=
    mkDB (stops db) t (path_stops db) (routes db) (vehicles db) (drivers db)
         (daily_trips db) (deployments db).
Definition set_path_stops (db : DB) (t : Table PathStops.row) : DB :=
    mkDB (stops db) (paths db) t (routes db) (vehicles db) (drivers db)
         (daily_trips db) (deployments db).
Definition set_routes (db : DB) (t : Table Routes.row) : DB :=
    mkDB (stops db) (paths db) (path_stops db) t (vehicles db) (drivers db)
         (daily_trips db) (deployments db).
Definition set_deployments (db : DB) (t : Table Deployments.row) : DB :=
    mkDB (stops db) (paths db) (path_stops db) (routes db) (vehicles db)
         (drivers db) (daily_trips db) t.

  (** [INSERT INTO stops (name, latitude, longitude) VALUES (?, ?, ?)];
      [name] is UNIQUE.  Returns [cur.lastrowid]. *)
Definition insert_stop (name : string) (latitude longitude : option Q)
      (db : DB) : sqlite (Z * DB) :=
    if existsb (fun s => (Stops.name s =? name)%string) (rows (stops db))
    then IntegrityError
    else
      let id := next_rowid Stops.stop_id (stops db) in
      Done (id, set_stops db
                  (append_row (stops db) id
                     (Stops.mk id name latitude longitude))).

  (** [create_stop], lines 492-506. *)
Definition create_stop (name : string) (latitude longitude : option Q)
      (db : DB) : string * DB :=
    match insert_stop name latitude longitude db with
    | Done (_, db') => (Py.fstr ["Created new stop '"; name; "'."], db')
    | IntegrityError => (Py.fstr ["Stop '"; name; "' already exists."], db)
    end.

(** [INSERT INTO paths (path_name) VALUES (?)]; [path_name] is UNIQUE. *)
Definition insert_path (path_name : string) (db : DB) : sqlite (Z * DB) :=
  if existsb (fun p => (Paths.path_name p =? path_name)%string)
       (rows (paths db))
  then IntegrityError
  else
    let id := next_rowid Paths.path_id (paths db) in
    Done (id, set_paths db
                (append_row (paths db) id (Paths.mk id path_name))).

(** [INSERT INTO path_stops (path_id, stop_id, seq) VALUES (?, ?, ?)]; the
    table has no uniqueness constraint, and foreign keys are not enforced on
    the connections opened by [get_connection]. *)
Definition insert_path_stop (path_id stop_id seq : Z) (db : DB)
    : sqlite (Z * DB) :=
  let id := next_rowid PathStops.id (path_stops db) in
  Done (id, set_path_stops db
              (append_row (path_stops db) id
                 (PathStops.mk id path_id stop_id seq))).

(** [INSERT INTO routes (...) VALUES (...)]; [route_display_name] is UNIQUE
    and [status] is CHECKed to be 'active' or 'deactivated'. *)
Definition insert_route (path_id : Z)
    (route_display_name shift_time direction start_point end_point
       status : string) (db : DB) : sqlite (Z * DB) :=
  if existsb (fun r => (Routes.route_display_name r =? route_display_name)%string)
       (rows (routes db))
     || negb ((status =? "active")%string || (status =? "deactivated")%string)
  then IntegrityError
  else
    let id := next_rowid Routes.route_id (routes db) in
    Done (id, set_routes db
                (append_row (routes db) id
                   (Routes.mk id path_id route_display_name shift_time
                      direction start_point end_point status))).

(** [INSERT INTO deployments (trip_id, vehicle_id, driver_id) VALUES (?,?,?)];
    [trip_id] is UNIQUE. *)
Definition insert_deployment (trip_id : Z) (vehicle_id driver_id : option Z)
    (db : DB) : sqlite (Z * DB) :=
  if existsb (fun d => Deployments.trip_id d =? trip_id)
       (rows (deployments db))
  then IntegrityError
  else
    let id := next_rowid Deployments.deployment_id (deployments db) in
    Done (id, set_deployments db
                (append_row (deployments db) id
                   (Deployments.mk id trip_id vehicle_id driver_id))).

(** [UPDATE deployments SET vehicle_id = ?, driver_id = ?
     WHERE deployment_id = ?] *)
Definition update_deployment (vehicle_id driver_id : option Z)
    (deployment_id : Z) (db : DB) : DB :=
  set_deployments db
    (mkTable
       (map (fun d =>
               if Deployments.deployment_id d =? deployment_id
               then Deployments.mk (Deployments.deployment_id d)
                      (Deployments.trip_id d) vehicle_id driver_id
               else d)
          (rows (deployments db)))
       (sqlite_sequence (deployments db))).

(** [DELETE FROM deployments WHERE deployment_id = ?] *)
Definition delete_deployment (deployment_id : Z) (db : DB) : DB :=
  set_deployments db
    (mkTable
       (filter (fun d => negb (Deployments.deployment_id d =? deployment_id))
          (rows (deployments db)))
       (sqlite_sequence (deployments db))).

(** The query shared by [list_stops_for_path], [create_route] and the seed:
    [SELECT s.name FROM path_stops ps JOIN stops s ON s.stop_id = ps.stop_id
     WHERE ps.path_id = ? ORDER BY ps.seq ASC]. *)
Definition select_stop_names (path_id : Z) (db : DB) : list string :=
  map (fun r => Stops.name (snd r))
    (order_by (fun a b => PathStops.seq (fst a) <=? PathStops.seq (fst b))
       (join_on (fun ps s => Stops.stop_id s =? PathStops.stop_id ps)
          (filter (fun ps => PathStops.path_id ps =? path_id)
             (rows (path_stops db)))
          (rows (stops db)))).

Definition arrow : string := " → ".

Definition newline : string := String "010"%char EmptyString.

(** [list_stops_for_path], lines 424-445. *)
Definition list_stops_for_path (path_name : string) (db : DB) : string :=
  match fetchone (select_where
                    (fun p => (Paths.path_name p =? path_name)%string)
                    (paths db)) with
  | None => Py.fstr ["Path '"; path_name; "' not found."]
  | Some p =>
      match select_stop_names (Paths.path_id p) db with
      | [] => Py.fstr ["Path '"; path_name; "' has no stops configured."]
      | stops =>
          (Py.fstr ["Stops on "; path_name; ": "] ++ Py.join arrow stops)%string
      end
  end.

(** One line of [list_active_routes]. *)
Definition active_route_line (r : Routes.row) : string :=
  Py.fstr ["- "; Routes.route_display_name r; " ("; Routes.direction r;
           " @ "; Routes.shift_time r; ")"].

(** [list_active_routes], lines 474-489. *)
Definition list_active_routes (db : DB) : string :=
  match order_by (fun a b => String.leb (Routes.shift_time a)
                                        (Routes.shift_time b))
          (select_where (fun r => (Routes.status r =? "active")%string)
             (routes db)) with
  | [] => "There are no active routes."
  | rows =>
      ("Active routes:" ++ newline ++
       Py.join newline (map active_route_line rows))%string
  end.

(** [enumerate(items, start)] *)
Fixpoint enumerate {A} (start : Z) (items : list A) : list (Z * A) :=
  match items with
  | [] => []
  | x :: rest => (start, x) :: enumerate (start + 1) rest
  end.

(** The [for seq, s_name in enumerate(stop_names, start=1)] loop of
    [create_path], lines 522-536. *)
Fixpoint insert_stops_of_path (path_id : Z) (items : list (Z * string))
    (db : DB) : sqlite DB :=
  match items with
  | [] => Done db
  | (seq, s_name) :: rest =>
      ' (stop_id, db1) <-
        match fetchone (select_where
                          (fun s => (Stops.name s =? s_name)%string)
                          (stops db)) with
        | None => insert_stop s_name None None db
        | Some row => Done (Stops.stop_id row, db)
        end ;;
      ' (_, db2) <- insert_path_stop path_id stop_id seq db1 ;;
      insert_stops_of_path path_id rest db2
  end.

(** [create_path], lines 509-543.  The whole [try] block runs in one
    transaction: an [IntegrityError] anywhere in it leaves the database as
    it was. *)
Definition create_path (path_name : string) (stop_names : list string)
    (db : DB) : string * DB :=
  match stop_names with
  | [] => ("Need at least one stop to create a path.", db)
  | _ =>
      match ' (path_id, db1) <- insert_path path_name db ;;
            insert_stops_of_path path_id (enumerate 1 stop_names) db1 with
      | Done db' =>
          ((Py.fstr ["Created path '"; path_name; "' with stops: "] ++
            Py.join arrow stop_names)%string, db')
      | IntegrityError =>
          (Py.fstr ["Path '"; path_name; "' already exists."], db)
      end
  end.

(** [create_route], lines 546-593. *)
Definition create_route (path_name shift_time direction : string) (db : DB)
    : string * DB :=
  match fetchone (select_where
                    (fun p => (Paths.path_name p =? path_name)%string)
                    (paths db)) with
  | None =>
      (Py.fstr ["Path '"; path_name; "' not found, cannot create route."], db)
  | Some p =>
      let path_id := Paths.path_id p in
      match select_stop_names path_id db with
      | [] =>
          (Py.fstr ["Path '"; path_name;
                    "' has no stops configured, cannot create route."], db)
      | first :: _ as names =>
          let start_point := first in
          let end_point := last names first in
          let route_display_name := Py.fstr [path_name; " - "; shift_time] in
          match insert_route path_id route_display_name shift_time direction
                  start_point end_point "active" db with
          | Done (_, db') =>
              (Py.fstr ["Created route '"; route_display_name; "' (";
                        direction; ") from "; start_point; " to ";
                        end_point; "."], db')
          | IntegrityError =>
              (Py.fstr ["Route '"; route_display_name; "' already exists."],
               db)
          end
      end
  end.

(** [assign_vehicle_and_driver], lines 596-636.  The function has no
    [try]: an [IntegrityError] raised by its INSERT would reach the
    caller. *)
Definition assign_vehicle_and_driver
    (trip_display_name vehicle_plate driver_name : string) (db : DB)
    : sqlite (string * DB) :=
  match fetchone (select_where
                    (fun t => (DailyTrips.display_name t =? trip_display_name)%string)
                    (daily_trips db)) with
  | None => Done (Py.fstr ["Trip '"; trip_display_name; "' not found."], db)
  | Some trip =>
  match fetchone (select_where
                    (fun v => (Vehicles.license_plate v =? vehicle_plate)%string)
                    (vehicles db)) with
  | None => Done (Py.fstr ["Vehicle '"; vehicle_plate; "' not found."], db)
  | Some vehicle =>
  match fetchone (select_where
                    (fun d => (Drivers.name d =? driver_name)%string)
                    (drivers db)) with
  | None => Done (Py.fstr ["Driver '"; driver_name; "' not found."], db)
  | Some driver =>
  match fetchone (select_where
                    (fun d => Deployments.trip_id d =? DailyTrips.trip_id trip)
                    (deployments db)) with
  | Some existing =>
      Done (Py.fstr ["Updated deployment: trip '"; trip_display_name;
                     "' now uses vehicle "; vehicle_plate; " with driver ";
                     driver_name; "."],
            update_deployment (Some (Vehicles.vehicle_id vehicle))
              (Some (Drivers.driver_id driver))
              (Deployments.deployment_id existing) db)
  | None =>
      ' (_, db') <- insert_deployment (DailyTrips.trip_id trip)
                      (Some (Vehicles.vehicle_id vehicle))
                      (Some (Drivers.driver_id driver)) db ;;
      Done (Py.fstr ["Assigned vehicle "; vehicle_plate; " and driver ";
                     driver_name; " to trip '"; trip_display_name; "'."],
            db')
  end end end end.

(** *** Removing a vehicle from a trip *)

Section Removal.

(** [str(x)] of a Python float, used when a booking percentage is
    interpolated into a message. *)
Variable float_repr : Q -> string.

(** [SELECT t.trip_id, t.display_name, t.booking_status_percentage,
            r.route_display_name
     FROM daily_trips t JOIN routes r ON r.route_id = t.route_id
     WHERE t.display_name = ?] *)
Definition select_trip (trip_display_name : string) (db : DB)
    : list (DailyTrips.row * Routes.row) :=
  filter (fun tr => (DailyTrips.display_name (fst tr) =? trip_display_name)%string)
    (join_on (fun t r => Routes.route_id r =? DailyTrips.route_id t)
       (rows (daily_trips db)) (rows (routes db))).

(** [SELECT dep.deployment_id, v.license_plate, d.name AS driver_name
     FROM deployments dep
     LEFT JOIN vehicles v ON v.vehicle_id = dep.vehicle_id
     LEFT JOIN drivers d ON d.driver_id = dep.driver_id
     WHERE dep.trip_id = ?] *)
Definition select_deployment (trip_id : Z) (db : DB)
    : list (Z * option string * option string) :=
  map (fun x =>
         match x with
         | (dep, v, d) =>
             (Deployments.deployment_id dep,
              option_map Vehicles.license_plate v,
              option_map Drivers.name d)
         end)
    (filter (fun x => Deployments.trip_id (fst (fst x)) =? trip_id)
       (left_join_on
          (fun dv d =>
             eq_nullable (Drivers.driver_id d)
               (Deployments.driver_id (fst dv)))
          (left_join_on
             (fun dep v =>
                eq_nullable (Vehicles.vehicle_id v)
                  (Deployments.vehicle_id dep))
             (rows (deployments db)) (rows (vehicles db)))
          (rows (drivers db)))).

Definition warning_message (display_name route_display_name : string)
    (booking : Q) : string :=
  ("WARNING: " ++
   Py.fstr ["Trip '"; display_name; "' on route '"; route_display_name;
            "' is already ~"; float_repr booking; "% booked. "] ++
   "Removing the vehicle will cancel these bookings and the trip-sheet will fail to generate. " ++
   "Ask the user for a yes/no confirmation. If they confirm, call this again with force=true.")%string.

(** [remove_vehicle_from_trip], lines 639-691. *)
Definition remove_vehicle_from_trip (trip_display_name : string)
    (force : bool) (db : DB) : string * DB :=
  match fetchone (select_trip trip_display_name db) with
  | None => (Py.fstr ["Trip '"; trip_display_name; "' not found."], db)
  | Some (trip, route) =>
      match fetchone (select_deployment (DailyTrips.trip_id trip) db) with
      | None =>
          (Py.fstr ["No vehicle is currently assigned to trip '";
                    trip_display_name; "'."], db)
      | Some (deployment_id, license_plate, driver_name) =>
          let booking :=
            Py.real_or (DailyTrips.booking_status_percentage trip) 0%Q in
          if Py.gt0 booking && negb force
          then
            (warning_message (DailyTrips.display_name trip)
               (Routes.route_display_name route) booking, db)
          else
            (Py.fstr ["Removed vehicle '"; Py.str_opt license_plate;
                      "' and driver '"; Py.str_opt driver_name;
                      "' from trip '"; trip_display_name; "'."],
             delete_deployment deployment_id db)
      end
  end.

End Removal.

(** *** The generic query operation *)

Section GenericQuery.

(** The operation talks to the SQL engine through [cur.execute]; the engine
    is a parameter.  [Database] is whatever the engine stores, [Value] the
    type of a cell of a fetched row. *)
Context {Database Value : Type}.

(** What a completed [cur.execute] leaves behind: the column names of the
    result ([row.keys()]), the fetched rows and [cur.rowcount]. *)
Record cursor := mkCursor
  { keys : list string; fetchall : list (list Value); rowcount : Z }.

Inductive executed : Type :=
| Completed (cur : cursor) (db' : Database)
| Raised (e : string).

Variable sqlite_execute : string -> Database -> executed.

(** [str(x)] of a cell. *)
Variable str_value : Value -> string.

(** What a call returns and does: the returned text, the database it
    leaves, and the statements it handed to [cur.execute]. *)
Record outcome := mkOutcome
  { message : string; database : Database; executed_statements : list string }.

Definition banned : list string :=
  ["drop "; "alter "; "pragma"; "attach"; "detach"].

(** ["-" * n] *)
Fixpoint dashes (n : nat) : string :=
  match n with
  | O => EmptyString
  | S k => String "-"%char (dashes k)
  end.

(** [dynamic_run_sql_query], lines 695-741. *)
Definition dynamic_run_sql_query (query mode : string) (db : Database)
    : outcome :=
  let q_lower := Py.lower (Py.strip query) in
  if existsb (fun b => Py.contains b q_lower) banned
  then mkOutcome "Unsafe SQL command blocked." db []
  else if (mode =? "read")%string && negb (Py.startswith q_lower "select")
  then mkOutcome "Only SELECT queries allowed in read mode." db []
  else
    match sqlite_execute query db with
    | Raised e => mkOutcome (Py.fstr ["SQL error: "; e]) db [query]
    | Completed cur db' =>
        if Py.startswith q_lower "select"
        then
          match fetchall cur with
          | [] => mkOutcome "Query executed. No rows returned." db [query]
          | rows =>
              let header := Py.join " | " (keys cur) in
              let lines :=
                header :: dashes (String.length header) ::
                map (fun r => Py.join " | " (map str_value r)) rows in
              mkOutcome (Py.join newline lines) db [query]
          end
        else
          mkOutcome
            (Py.fstr ["Query executed successfully (";
                      Py.str_int (rowcount cur); " rows affected)."])
            db' [query]
    end.

End GenericQuery.

(** *** Read-only operations *)

(** [SELECT ... FROM vehicles v WHERE NOT EXISTS
     (SELECT 1 FROM deployments d WHERE d.vehicle_id = v.vehicle_id)] *)
Definition select_unassigned_vehicles (db : DB) : list Vehicles.row :=
  filter
    (fun v =>
       negb (existsb
               (fun d => eq_nullable (Vehicles.vehicle_id v)
                           (Deployments.vehicle_id d))
               (rows (deployments db))))
    (rows (vehicles db)).

(** [count_unassigned_vehicles], lines 348-360. *)
Definition count_unassigned_vehicles (db : DB) : string :=
  let c := Z.of_nat (List.length (select_unassigned_vehicles db)) in
  Py.fstr ["There are "; Py.str_int c;
           " vehicles not assigned to any trip right now."].

(** [SELECT ... FROM drivers d WHERE NOT EXISTS
     (SELECT 1 FROM deployments dep WHERE dep.driver_id = d.driver_id)] *)
Definition select_unassigned_drivers (db : DB) : list Drivers.row :=
  filter
    (fun d =>
       negb (existsb
               (fun dep => eq_nullable (Drivers.driver_id d)
                             (Deployments.driver_id dep))
               (rows (deployments db))))
    (rows (drivers db)).

(** [list_unassigned_drivers], lines 363-384: a count query, then the
    names [ORDER BY d.name]. *)
Definition list_unassigned_drivers (db : DB) : string :=
  let total := Z.of_nat (List.length (select_unassigned_drivers db)) in
  let names :=
    map Drivers.name
      (order_by (fun a b => String.leb (Drivers.name a) (Drivers.name b))
         (select_unassigned_drivers db)) in
  match names with
  | [] => "All drivers are currently assigned."
  | _ =>
      (Py.fstr ["Unassigned drivers ("; Py.str_int total; "): "] ++
       Py.join ", " names)%string
  end.

(** One line of [list_routes_for_path]. *)
Definition path_route_line (r : Routes.row) : string :=
  Py.fstr ["- "; Routes.route_display_name r; " ("; Routes.direction r;
           " @ "; Routes.shift_time r; ", "; Routes.status r; ")"].

(** [list_routes_for_path], lines 448-471. *)
Definition list_routes_for_path (path_name : string) (db : DB) : string :=
  match fetchone (select_where
                    (fun p => (Paths.path_name p =? path_name)%string)
                    (paths db)) with
  | None => Py.fstr ["Path '"; path_name; "' not found."]
  | Some p =>
      match order_by (fun a b => String.leb (Routes.shift_time a)
                                            (Routes.shift_time b))
              (select_where (fun r => Routes.path_id r =? Paths.path_id p)
                 (routes db)) with
      | [] => Py.fstr ["No routes use path '"; path_name; "'."]
      | rows =>
          (Py.fstr ["Routes using path '"; path_name; "':"] ++ newline ++
           Py.join newline (map path_route_line rows))%string
      end
  end.

(** A row of the trip query shared by [fetch_bus_dashboard_data] and
    [get_trip_status]: the trip, its route, and the deployment, vehicle and
    driver the LEFT JOINs found for it. *)
Definition TripRow : Type :=
  DailyTrips.row * Routes.row * option Deployments.row
  * option Vehicles.row * option Drivers.row.

(** [FROM daily_trips t
     JOIN routes r ON r.route_id = t.route_id
     LEFT JOIN deployments dep ON dep.trip_id = t.trip_id
     LEFT JOIN vehicles v ON v.vehicle_id = dep.vehicle_id
     LEFT JOIN drivers d ON d.driver_id = dep.driver_id] *)
Definition trip_rows (db : DB) : list TripRow :=
  left_join_on
    (fun x d =>
       match snd (fst x) with
       | Some dep => eq_nullable (Drivers.driver_id d) (Deployments.driver_id dep)
       | None => false
       end)
    (left_join_on
       (fun x v =>
          match snd x with
          | Some dep =>
              eq_nullable (Vehicles.vehicle_id v) (Deployments.vehicle_id dep)
          | None => false
          end)
       (left_join_on
          (fun tr dep => Deployments.trip_id dep =? DailyTrips.trip_id (fst tr))
          (join_on (fun t r => Routes.route_id r =? DailyTrips.route_id t)
             (rows (daily_trips db)) (rows (routes db)))
          (rows (deployments db)))
       (rows (vehicles db)))
    (rows (drivers db)).

Definition trip_of (x : TripRow) : DailyTrips.row := fst (fst (fst (fst x))).
Definition route_of (x : TripRow) : Routes.row := snd (fst (fst (fst x))).
Definition license_plate_of (x : TripRow) : option string :=
  option_map Vehicles.license_plate (snd (fst x)).
Definition driver_name_of (x : TripRow) : option string :=
  option_map Drivers.name (snd x).

(** [fetch_bus_dashboard_data], lines 296-319: the rows
    [ORDER BY t.display_name]. *)
Definition fetch_bus_dashboard_data (db : DB) : list TripRow :=
  order_by
    (fun a b => String.leb (DailyTrips.display_name (trip_of a))
                           (DailyTrips.display_name (trip_of b)))
    (trip_rows db).

(** [fetch_routes_data], lines 322-343:
    [FROM routes r JOIN paths p ON p.path_id = r.path_id
     ORDER BY p.path_name, r.shift_time]. *)
Definition fetch_routes_data (db : DB) : list (Routes.row * Paths.row) :=
  order_by
    (fun a b =>
       String.ltb (Paths.path_name (snd a)) (Paths.path_name (snd b))
       || ((Paths.path_name (snd a) =? Paths.path_name (snd b))%string
           && String.leb (Routes.shift_time (fst a))
                         (Routes.shift_time (fst b))))
    (join_on (fun r p => Paths.path_id p =? Routes.path_id r)
       (rows (routes db)) (rows (paths db))).

Section TripStatus.

Variable float_repr : Q -> string.

(** How an f-string renders a nullable REAL. *)
Definition real_str (x : option Q) : string :=
  match x with
  | Some q => float_repr q
  | None => "None"
  end.

(** [get_trip_status], lines 387-421. *)
Definition get_trip_status (trip_display_name : string) (db : DB) : string :=
  match fetchone
          (filter
             (fun x => (DailyTrips.display_name (trip_of x)
                        =? trip_display_name)%string)
             (trip_rows db)) with
  | None => Py.fstr ["Trip '"; trip_display_name; "' not found."]
  | Some row =>
      let assigned :=
        if Py.truthy (license_plate_of row)
        then Py.fstr ["Vehicle "; Py.str_opt (license_plate_of row);
                      " with driver "; Py.str_opt (driver_name_of row)]
        else "No vehicle/driver assigned" in
      Py.fstr ["Trip '"; DailyTrips.display_name (trip_of row);
               "' is on route '"; Routes.route_display_name (route_of row);
               "', booking status ~";
               real_str (DailyTrips.booking_status_percentage (trip_of row));
               "%, live status '";
               Py.str_opt (DailyTrips.live_status (trip_of row));
               "'. "; assigned; "."]
  end.

End TripStatus.

End Db.

(** ** The demo data *)

(** The database [_seed_if_empty] commits on a fresh file (lines 137-291):
    five stops, two paths of three stops each, three active routes, three
    vehicles, three drivers, three trips and two deployments
    ('Bulk - 00:02' is left unassigned). *)
Definition seed_db : DB :=
  mkDB
    (mkTable
       [ Stops.mk 1 "Gavipuram" (Some 12.942%Q) (Some 77.566%Q);
         Stops.mk 2 "Temple" (Some 12.945%Q) (Some 77.568%Q);
         Stops.mk 3 "Peenya" (Some 13.020%Q) (Some 77.515%Q);
         Stops.mk 4 "Majestic" (Some 12.978%Q) (Some 77.572%Q);
         Stops.mk 5 "Tech Park" (Some 12.997%Q) (Some 77.700%Q) ] 5)
    (mkTable [ Paths.mk 1 "Path-1"; Paths.mk 2 "Path-2" ] 2)
    (mkTable
       [ PathStops.mk 1 1 1 1; PathStops.mk 2 1 2 2; PathStops.mk 3 1 3 3;
         PathStops.mk 4 2 3 1; PathStops.mk 5 2 4 2; PathStops.mk 6 2 5 3 ] 6)
    (mkTable
       [ Routes.mk 1 1 "Path-1 - 08:30" "08:30" "IN" "Gavipuram" "Peenya"
           "active";
         Routes.mk 2 1 "Path-1 - 19:45" "19:45" "OUT" "Gavipuram" "Peenya"
           "active";
         Routes.mk 3 2 "Path-2 - 19:45" "19:45" "IN" "Peenya" "Tech Park"
           "active" ] 3)
    (mkTable
       [ Vehicles.mk 1 "KA-01-1111" "Bus" 40;
         Vehicles.mk 2 "MH-12-3456" "Bus" 40;
         Vehicles.mk 3 "KA-05-9999" "Cab" 4 ] 3)
    (mkTable
       [ Drivers.mk 1 "Amit" (Some "9999990001");
         Drivers.mk 2 "Rahul" (Some "9999990002");
         Drivers.mk 3 "Sneha" (Some "9999990003") ] 3)
    (mkTable
       [ DailyTrips.mk 1 1 "Bulk - 00:01" (Some 25.0%Q) (Some "00:01 IN");
         DailyTrips.mk 2 1 "Bulk - 00:02" (Some 0.0%Q) (Some "00:02 IN");
         DailyTrips.mk 3 3 "Path Path - 00:02" (Some 10.0%Q)
           (Some "00:02 OUT") ] 3)
    (mkTable
       [ Deployments.mk 1 1 (Some 1) (Some 1);
         Deployments.mk 2 3 (Some 2) (Some 2) ] 2).

(** The demo data after 'Bulk - 00:02' was given the cab and the third
    driver and its booking percentage was stored as NULL. *)
Definition null_booking_db : DB :=
  mkDB (stops seed_db) (paths seed_db) (path_stops seed_db) (routes seed_db)
    (vehicles seed_db) (drivers seed_db)
    (mkTable
       [ DailyTrips.mk 1 1 "Bulk - 00:01" (Some 25.0%Q) (Some "00:01 IN");
         DailyTrips.mk 2 1 "Bulk - 00:02" None (Some "00:02 IN");
         DailyTrips.mk 3 3 "Path Path - 00:02" (Some 10.0%Q)
           (Some "00:02 OUT") ] 3)
    (mkTable
       [ Deployments.mk 1 1 (Some 1) (Some 1);
         Deployments.mk 2 3 (Some 2) (Some 2);
         Deployments.mk 3 2 (Some 3) (Some 3) ] 3).

(** A stand-in for the SQL engine that knows one statement: the UPDATE of
    the denylist example, which sets every capacity to 0 and counts the
    rows it touched.  Anything else is a syntax error to it. *)
Definition capacity_engine (query : string) (db : DB)
    : @Db.executed DB string :=
  if (query =? "update vehicles set capacity=0")%string
  then
    Db.Completed
      (Db.mkCursor [] [] (Z.of_nat (List.length (rows (vehicles db)))))
      (mkDB (stops db) (paths db) (path_stops db) (routes db)
         (mkTable
            (map (fun v => Vehicles.mk (Vehicles.vehicle_id v)
                             (Vehicles.license_plate v) (Vehicles.type v) 0)
               (rows (vehicles db)))
            (sqlite_sequence (vehicles db)))
         (drivers db) (daily_trips db) (deployments db))
  else Db.Raised "syntax error".

(* ================================================================== *)
(** * Chat messages (the message classes both modules exchange) *)
(* ================================================================== *)

Module Messages.

(** One block of a multimodal content list. *)
Inductive ContentPart : Type :=
| TextPart (text : string)
| ImageUrlPart (url : string).

(** [content]: a plain string or a list of blocks. *)
Inductive Content : Type :=
| Text (s : string)
| Parts (blocks : list ContentPart).

(** The dict form [{"type": ..., "content": ...}] built by the UI. *)
Record MessageDict := mkDict { type : string; content : Content }.

(** Whether a dict carries an image block. *)
Definition has_image (d : MessageDict) : bool :=
  match content d with
  | Text _ => false
  | Parts blocks =>
      existsb (fun b => match b with ImageUrlPart _ => true | _ => false end)
        blocks
  end.

Section WithArgs.

Context {Args : Type}.

(** A requested operation invocation. *)
Record ToolCall := mkToolCall { name : string; args : Args; id : string }.

Inductive Message : Type :=
| SystemMessage (content : string)
| HumanMessage (content : Content)
| AIMessage (content : Content) (tool_calls : list ToolCall)
| ToolMessage (content : string) (tool_call_id : string).

(** Coercion of a dict to a message object, as the [add_messages] reducer
    does on the graph input; the UI only produces the types "human" and
    "ai". *)
Definition convert_to_message (d : MessageDict) : option Message :=
  if (type d =? "human")%string then Some (HumanMessage (content d))
  else if (type d =? "ai")%string then Some (AIMessage (content d) [])
  else None.

(** All dicts of a list, or [None] when one of them has an unknown type
    (the conversion raises). *)
Fixpoint convert_to_messages (ds : list MessageDict) : option (list Message) :=
  match ds with
  | [] => Some []
  | d :: rest =>
      match convert_to_message d, convert_to_messages rest with
      | Some m, Some ms => Some (m :: ms)
      | _, _ => None
      end
  end.

(** The [add_messages] reducer on fresh messages: append. *)
Definition add_messages (left right : list Message) : list Message :=
  left ++ right.

End WithArgs.

Arguments ToolCall : clear implicits.
Arguments Message : clear implicits.

End Messages.

(* ================================================================== *)
(** * movi_agent.py *)
(* ================================================================== *)

Module MoviAgent.

Import Messages.

(** [class MoviState(TypedDict)]; [current_page] may be missing from the
    dict. *)
Record MoviState (Args : Type) := mkState
  { messages : list (Message Args); current_page : option string }.
Arguments mkState {Args} _ _.
Arguments messages {Args} _.
Arguments current_page {Args} _.

Definition dq : string := String "034"%char EmptyString.

(** [_build_system_prompt], lines 131-167, given the text returned by
    [_get_db_schema]. *)
Definition _build_system_prompt (schema_text current_page : string) : string :=
  Py.fstr [
"
You are Movi, the transport manager assistant for MoveInSync Shuttle.

You manage a SQLite database with this schema:
"; schema_text; "

You know the relationships:
- Stops → Paths (ordered stops) → Routes (Path + time + direction + status)
- Routes → DailyTrips (per-day trip instances)
- DailyTrips → Deployments (vehicle + driver assigned)

Current UI Page: "; current_page; "

GENERAL BEHAVIOUR
- Speak like a helpful backend engineer.
- Use structured tools first for known operations.
- If no structured tool fits the user request, generate a valid SQL query based on the schema
  and execute it using the tool_run_dynamic_quries tool.
- Always use exact table and column names from the schema.
- Prefer SELECT queries unless user explicitly requests data changes.
- Never use unsafe commands (DROP, ALTER, PRAGMA, ATTACH, DETACH).

PAGE CONTEXT
- If current_page == "; dq; "manageRoute"; dq; ": focus on paths, stops, and routes.
- If current_page == "; dq; "busDashboard"; dq; ": focus on trips, drivers, and vehicles.

TRIBAL KNOWLEDGE
- Removing a vehicle from a trip may break bookings; always confirm before force removal.

Be concise, factual, and data-grounded.
"].

(** Nodes of the graph and targets of its edges. *)
Inductive Node : Type := agent | tools.

Inductive Target : Type := To (n : Node) | END.

Definition Node_eqb (a b : Node) : bool :=
  match a, b with
  | agent, agent | tools, tools => true
  | _, _ => false
  end.

Section Graph.

(** The collaborators of the loop.  [World] is everything the operations
    act on (the database file); [Reasoner] is the state of the reasoning
    capability behind [LLM.bind_tools(TOOLS).invoke]. *)
Context {Args World Reasoner : Type}.

(** [llm_with_tools.invoke(messages)]: the content and the requested
    invocations of the returned AI message. *)
Variable llm_invoke :
  Reasoner -> list (Message Args) -> (Content * list (ToolCall Args)) * Reasoner.

(** Running one operation of [TOOLS] by name on decoded arguments; the tool
    node turns a failing call into an error text, so a call always yields a
    text. *)
Variable invoke_tool : string -> Args -> World -> string * World.

(** [_get_db_schema], lines 24-42. *)
Variable _get_db_schema : World -> string.

(** What the nodes act on besides the graph state; [dispatched] records the
    invocations handed to the operations, oldest first. *)
Record Env := mkEnv
  { world : World; reasoner : Reasoner; dispatched : list (ToolCall Args) }.

(** [_agent_node], lines 171-176: the update it returns. *)
Definition _agent_node (state : MoviState Args) (env : Env)
    : list (Message Args) * Env :=
  let sys_msg :=
    SystemMessage
      (_build_system_prompt (_get_db_schema (world env))
         (match current_page state with Some p => p | None => "unknown" end)) in
  let '(result, reasoner') :=
    llm_invoke (reasoner env) (sys_msg :: messages state) in
  ([AIMessage (fst result) (snd result)],
   mkEnv (world env) reasoner' (dispatched env)).

(** One invocation of the tool node: run the operation, answer with a tool
    message tagged with the invocation's identifier. *)
Definition run_one (call : ToolCall Args) (env : Env)
    : Message Args * Env :=
  let '(output, world') := invoke_tool (name call) (args call) (world env) in
  (ToolMessage output (id call),
   mkEnv world' (reasoner env) (dispatched env ++ [call])).

Fixpoint run_calls (calls : list (ToolCall Args)) (env : Env)
    : list (Message Args) * Env :=
  match calls with
  | [] => ([], env)
  | call :: rest =>
      let '(m, env1) := run_one call env in
      let '(ms, env2) := run_calls rest env1 in
      (m :: ms, env2)
  end.

(** [ToolNode(TOOLS)]: the invocations of the last message, which must be
    an AI message, in the order requested. *)
Definition tool_node (state : MoviState Args) (env : Env)
    : option (list (Message Args) * Env) :=
  match last (map Some (messages state)) None with
  | Some (AIMessage _ tool_calls) => Some (run_calls tool_calls env)
  | _ => None
  end.

(** [tools_condition]: route to the tool node when the last message is an
    AI message that requests invocations, to the end otherwise. *)
Definition tools_condition (state : MoviState Args) : option Target :=
  match last (map Some (messages state)) None with
  | None => None
  | Some (AIMessage _ (_ :: _)) => Some (To tools)
  | Some _ => Some END
  end.

(** A [StateGraph]: entry nodes, plain edges, conditional edges and the
    node functions. *)
Record StateGraph := mkGraph
  { start_edges : list Node;
    edges : Node -> list Target;
    conditional_edges : Node -> list (MoviState Args -> option Target);
    node_fun : Node -> MoviState Args -> Env
               -> option (list (Message Args) * Env) }.

(** [build_movi_graph], lines 180-190. *)
Definition build_movi_graph : StateGraph :=
  mkGraph
    [agent]
    (fun n => match n with agent => [END] | tools => [To agent] end)
    (fun n => match n with agent => [tools_condition] | tools => [] end)
    (fun n state env =>
       match n with
       | agent => Some (_agent_node state env)
       | tools => tool_node state env
       end).

(** *** Running a compiled graph

    The run follows the graph library: execution proceeds in supersteps;
    a node is triggered by an edge into it; an edge into [END] triggers
    nothing; the run is over when no node is triggered, and is abandoned
    with [GraphRecursionError] when the bound on supersteps is reached
    first.  The tool node is modelled as running the invocations of one
    message one after the other, in the order requested. *)

Inductive Run : Type :=
| Finished (state : MoviState Args) (env : Env)
| NodeError
| GraphRecursionError.

Fixpoint add_node (n : Node) (l : list Node) : list Node :=
  match l with
  | [] => [n]
  | m :: r => if Node_eqb n m then l else m :: add_node n r
  end.

Definition add_target (l : list Node) (t : Target) : list Node :=
  match t with
  | To n => add_node n l
  | END => l
  end.

(** The branches of a node read the state with the node's own update
    applied. *)
Fixpoint route (branches : list (MoviState Args -> option Target))
    (state : MoviState Args) : option (list Target) :=
  match branches with
  | [] => Some []
  | b :: rest =>
      match b state, route rest state with
      | Some t, Some ts => Some (t :: ts)
      | _, _ => None
      end
  end.

(** One superstep: every triggered node runs on the state of the previous
    step; the updates are merged by the reducer of [messages]; the nodes
    triggered next are the targets of the plain and conditional edges. *)
Fixpoint superstep (g : StateGraph) (triggered : list Node)
    (snapshot : MoviState Args) (env : Env)
    : option (list (Message Args) * list Node * Env) :=
  match triggered with
  | [] => Some ([], [], env)
  | n :: rest =>
      match node_fun g n snapshot env with
      | None => None
      | Some (update, env1) =>
          let local :=
            mkState (add_messages (messages snapshot) update)
              (current_page snapshot) in
          match route (conditional_edges g n) local,
                superstep g rest snapshot env1 with
          | Some branch_targets, Some (updates, next, env2) =>
              Some (update ++ updates,
                    fold_left add_target (edges g n ++ branch_targets) next,
                    env2)
          | _, _ => None
          end
      end
  end.

Fixpoint run (g : StateGraph) (steps : nat) (triggered : list Node)
    (state : MoviState Args) (env : Env) : Run :=
  match triggered with
  | [] => Finished state env
  | _ =>
      match steps with
      | O => GraphRecursionError
      | S k =>
          match superstep g triggered state env with
          | None => NodeError
          | Some (updates, next, env') =>
              run g k next
                (mkState (add_messages (messages state) updates)
                   (current_page state)) env'
          end
      end
  end.

(** [graph.invoke(input)] with a bound on the number of supersteps. *)
Definition invoke (g : StateGraph) (recursion_limit : nat)
    (input_messages : list MessageDict) (page : string) (env : Env) : Run :=
  match convert_to_messages input_messages with
  | None => NodeError
  | Some ms =>
      run g recursion_limit (start_edges g) (mkState ms (Some page)) env
  end.

End Graph.

(** The bound [graph.invoke] applies when the caller passes none. *)
Definition default_recursion_limit : nat := 25.

End MoviAgent.

(* ================================================================== *)
(** * app.py *)
(* ================================================================== *)

Module App.

Import Messages.

(** One entry of [st.session_state["chat_history"]]. *)
Record Turn := mkTurn { role : string; content : string }.

(** The body of the loop of [_history_to_graph_messages], lines 98-122:
    the dict appended for one entry. *)
Definition graph_message (is_last : bool) (last_image_b64 : option string)
    (msg : Turn) : MessageDict :=
  if (role msg =? "user")%string
  then
    if is_last && Py.truthy last_image_b64
    then
      mkDict "human"
        (Parts
           [ TextPart (content msg);
             ImageUrlPart
               (Py.fstr ["data:image/png;base64,";
                         Py.str_opt last_image_b64]) ])
    else mkDict "human" (Text (content msg))
  else mkDict "ai" (Text (content msg)).

(** The loop from index [i] on; [n] is [len(history)].  The body only runs
    when [n >= 1], where [n - 1] on naturals is the Python difference. *)
Fixpoint history_loop (i n : nat) (history : list Turn)
    (last_image_b64 : option string) : list MessageDict :=
  match history with
  | [] => []
  | msg :: rest =>
      graph_message (Nat.eqb i (n - 1)) last_image_b64 msg
      :: history_loop (S i) n rest last_image_b64
  end.

(** [_history_to_graph_messages], lines 86-123. *)
Definition _history_to_graph_messages (history : list Turn)
    (last_image_b64 : option string) : list MessageDict :=
  history_loop 0 (List.length history) history last_image_b64.

Section Main.

Context {Args World Reasoner : Type}.
Variable llm_invoke :
  Reasoner -> list (Message Args) -> (Content * list (ToolCall Args)) * Reasoner.
Variable invoke_tool : string -> Args -> World -> string * World.
Variable _get_db_schema : World -> string.

(** [str(content)] of a content that is not a string. *)
Variable str_blocks : list ContentPart -> string.

(** [graph = get_movi_graph()] *)
Definition graph : MoviAgent.StateGraph :=
  MoviAgent.build_movi_graph llm_invoke invoke_tool _get_db_schema.

(** The content of the last message of a list. *)
Definition last_content (ms : list (Message Args)) : option Content :=
  match last (map Some ms) None with
  | Some (AIMessage c _) => Some c
  | Some (HumanMessage c) => Some c
  | Some (SystemMessage s) => Some (Text s)
  | Some (ToolMessage s _) => Some (Text s)
  | None => None
  end.

(** The [if user_input:] block of [main], lines 178-220: what one submitted
    input does to the chat history and to the environment.  [image_b64] is
    the encoded upload of this turn, if any.  [None] stands for an
    exception escaping the block. *)
Definition submit (page user_input : string) (image_b64 : option string)
    (chat_history : list Turn) (env : MoviAgent.Env)
    : option (list Turn * MoviAgent.Env) :=
  if (user_input =? "")%string then Some (chat_history, env)
  else
    let chat_history1 := chat_history ++ [mkTurn "user" user_input] in
    let graph_messages :=
      _history_to_graph_messages chat_history1 image_b64 in
    match MoviAgent.invoke graph MoviAgent.default_recursion_limit
            graph_messages page env with
    | MoviAgent.Finished result_state env' =>
        match last_content (MoviAgent.messages result_state) with
        | None => None
        | Some c =>
            let reply_text :=
              match c with
              | Text s => s
              | Parts blocks => str_blocks blocks
              end in
            Some (chat_history1 ++ [mkTurn "assistant" reply_text], env')
        end
    | _ => None
    end.

End Main.

End App.

(* ================================================================== *)
(** * Stand-ins for the external collaborators *)
(* ================================================================== *)

Module Stub.

Import Messages.

(** A reasoning capability that plays a script: each call answers with
    the next entry, whatever it is asked. *)
Definition Script : Type := list (Content * list (ToolCall string)).

Definition scripted_llm (script : Script) (msgs : list (Message string))
    : (Content * list (ToolCall string)) * Script :=
  match script with
  | [] => ((Text "", []), [])
  | answer :: rest => (answer, rest)
  end.

(** Two of the registered operations, on the database model, with the
    single text argument they take. *)
Definition two_tools (name : string) (arg : string) (db : DB)
    : string * DB :=
  if (name =? "tool_list_stops_for_path")%string
  then (Db.list_stops_for_path arg db, db)
  else if (name =? "tool_list_active_routes")%string
  then (Db.list_active_routes db, db)
  else (Py.fstr ["Error: "; name; " is not a valid tool"], db).

End Stub.

(* ================================================================== *)
(** * The constraints declared by the schema *)
(* ================================================================== *)

Module Schema.

(** PRIMARY KEY and UNIQUE columns of [init_db]: SQLite enforces them on
    every connection. *)
Record keys (db : DB) : Prop := mkKeys
  { stops_pk : NoDup (map Stops.stop_id (rows (stops db)));
    stops_name : NoDup (map Stops.name (rows (stops db)));
    paths_pk : NoDup (map Paths.path_id (rows (paths db)));
    paths_name : NoDup (map Paths.path_name (rows (paths db)));
    routes_pk : NoDup (map Routes.route_id (rows (routes db)));
    routes_name : NoDup (map Routes.route_display_name (rows (routes db)));
    vehicles_pk : NoDup (map Vehicles.vehicle_id (rows (vehicles db)));
    vehicles_plate : NoDup (map Vehicles.license_plate (rows (vehicles db)));
    drivers_pk : NoDup (map Drivers.driver_id (rows (drivers db)));
    drivers_name : NoDup (map Drivers.name (rows (drivers db)));
    trips_pk : NoDup (map DailyTrips.trip_id (rows (daily_trips db)));
    trips_name : NoDup (map DailyTrips.display_name (rows (daily_trips db)));
    deployments_pk :
      NoDup (map Deployments.deployment_id (rows (deployments db)));
    deployments_trip :
      NoDup (map Deployments.trip_id (rows (deployments db))) }.

(** The FOREIGN KEY clauses on NOT NULL columns.  [init_db] switches their
    enforcement on for its own connection only; the seed satisfies them and
    the named operations keep them. *)
Record references (db : DB) : Prop := mkReferences
  { path_stops_path :
      forall ps, In ps (rows (path_stops db)) ->
        In (PathStops.path_id ps) (map Paths.path_id (rows (paths db)));
    path_stops_stop :
      forall ps, In ps (rows (path_stops db)) ->
        In (PathStops.stop_id ps) (map Stops.stop_id (rows (stops db)));
    routes_path :
      forall r, In r (rows (routes db)) ->
        In (Routes.path_id r) (map Paths.path_id (rows (paths db)));
    trips_route :
      forall t, In t (rows (daily_trips db)) ->
        In (DailyTrips.route_id t) (map Routes.route_id (rows (routes db)));
    deployments_trip_ref :
      forall d, In d (rows (deployments db)) ->
        In (Deployments.trip_id d)
           (map DailyTrips.trip_id (rows (daily_trips db))) }.

(** The trip named [n]. *)
Definition trip_named (db : DB) (n : string) (t : DailyTrips.row) : Prop :=
  In t (rows (daily_trips db)) /\ DailyTrips.display_name t = n.

(** The deployment rows of a trip. *)
Definition deployments_of (db : DB) (trip_id : Z) : list Deployments.row :=
  filter (fun d => Deployments.trip_id d =? trip_id) (rows (deployments db)).

(** The license plate and the driver name a deployment row refers to (NULL
    when the reference is NULL or dangling). *)
(** A path that [create_route] accepts: it exists and has stops. *)
Definition path_with_stops (db : DB) (path_name : string) : Prop :=
  exists p,
    Db.fetchone
      (Db.select_where (fun p => (Paths.path_name p =? path_name)%string)
         (paths db)) = Some p /\
    Db.select_stop_names (Paths.path_id p) db <> [].

(** The tables [create_stop] and [create_path] never write. *)
Definition same_operations (db db' : DB) : Prop :=
  routes db' = routes db /\ vehicles db' = vehicles db /\
  drivers db' = drivers db /\ daily_trips db' = daily_trips db /\
  deployments db' = deployments db.

(** The name of the stop a [path_stops] row refers to. *)
Definition stop_name_of (db : DB) (ps : PathStops.row) : option string :=
  option_map Stops.name
    (find (fun s => Stops.stop_id s =? PathStops.stop_id ps)
       (rows (stops db))).

(** How many rows of a table carry a given name. *)
Definition count_named {A} (name : A -> string) (n : string) (t : Table A)
    : nat :=
  List.length (filter (fun r => (name r =? n)%string) (rows t)).

Definition plate_of (db : DB) (d : Deployments.row) : option string :=
  option_map Vehicles.license_plate
    (find (fun v => Db.eq_nullable (Vehicles.vehicle_id v)
                      (Deployments.vehicle_id d))
       (rows (vehicles db))).

Definition driver_of (db : DB) (d : Deployments.row) : option string :=
  option_map Drivers.name
    (find (fun x => Db.eq_nullable (Drivers.driver_id x)
                      (Deployments.driver_id d))
       (rows (drivers db))).

End Schema.

(* ================================================================== *)
(** * audio_utils.py *)
(* ================================================================== *)

Module AudioUtils.

(** A call to the hosted audio service either returns or raises. *)
Inductive api (A : Type) : Type :=
| Returned (a : A)
| Failed.
Arguments Returned {A} _.
Arguments Failed {A}.

Section Client.

(** [client.audio.transcriptions.create(model="whisper-1", file=...)]: the
    [text] attribute of the response, which may be [None]. *)
Variable transcriptions_create : string -> api (option string).

(** [client.audio.speech.create(...)] followed by [resp.read()]. *)
Variable speech_create : string -> api string.

(** [speech_to_text], lines 14-41.  [uploaded_audio] is [None] or the bytes
    [getvalue()] returns. *)
Definition speech_to_text (uploaded_audio : option string) : option string :=
  match uploaded_audio with
  | None => None
  | Some raw_bytes =>
      if (raw_bytes =? "")%string then None
      else
        match transcriptions_create raw_bytes with
        | Failed => None
        | Returned resp_text =>
            let text :=
              Py.strip (match resp_text with Some t => t | None => "" end) in
            if (text =? "")%string then None else Some text
        end
  end.

(** [text_to_speech], lines 44-63. *)
Definition text_to_speech (text : string) : option string :=
  let text := Py.strip text in
  if (text =? "")%string then None
  else
    match speech_create text with
    | Failed => None
    | Returned audio_bytes => Some audio_bytes
    end.

End Client.

End AudioUtils.

(* ================================================================== *)
(** * AUTOINCREMENT high-water marks *)
(* ================================================================== *)

Module Counters.

(** No key of a table exceeds the counter SQLite keeps for it: the state
    of every AUTOINCREMENT table that was only ever written by INSERTs
    without an explicit key. *)
Definition high_water {A} (key : A -> Z) (t : Table A) : Prop :=
  forall r, In r (rows t) -> key r <= sqlite_sequence t.

Record consistent (db : DB) : Prop := mkConsistent
  { stops_mark : high_water Stops.stop_id (stops db);
    paths_mark : high_water Paths.path_id (paths db);
    path_stops_mark : high_water PathStops.id (path_stops db);
    routes_mark : high_water Routes.route_id (routes db);
    deployments_mark : high_water Deployments.deployment_id (deployments db) }.

End Counters.

(* ================================================================== *)
(** * Facts about strings *)
(* ================================================================== *)

Lemma append_assoc (a b c : string) :
  ((a ++ b) ++ c = a ++ (b ++ c))%string.
Proof. induction a as [|x a IH]; simpl; [reflexivity|now rewrite IH]. Qed.

Lemma append_nil_r (a : string) : (a ++ "" = a)%string.
Proof. induction a as [|x a IH]; simpl; [reflexivity|now rewrite IH]. Qed.

(* ================================================================== *)
(** * Facts about the SQLite primitives *)
(* ================================================================== *)

Lemma fetchone_filter {A : Type} (p : A -> bool) (l : list A) :
  Db.fetchone (filter p l) = find p l.
Proof.
  induction l as [|x l IH]; simpl; [reflexivity|].
  destruct (p x); simpl; auto.
Qed.

Lemma find_unique {A K : Type} (key : A -> K) (p : A -> bool) (l : list A) a :
  NoDup (map key l) -> In a l -> p a = true ->
  (forall x, In x l -> p x = true -> key x = key a) ->
  find p l = Some a.
Proof.
  induction l as [|x l IH]; simpl; intros ND Hin Hp Hk; [contradiction|].
  inversion ND as [|? ? Hnot ND']; subst.
  destruct Hin as [->|Hin]; [now rewrite Hp|].
  destruct (p x) eqn:Hx.
  - exfalso. apply Hnot. rewrite (Hk x (or_introl eq_refl) Hx).
    now apply in_map.
  - apply IH; auto.
Qed.

Lemma find_none_iff {A : Type} (p : A -> bool) (l : list A) :
  find p l = None <-> forall x, In x l -> p x = false.
Proof.
  split.
  - intros H x Hx. now apply (find_none p l H).
  - induction l as [|y l IH]; simpl; intros H; [reflexivity|].
    rewrite (H y (or_introl eq_refl)). apply IH. intros; apply H; now right.
Qed.

Lemma find_in {A : Type} (p : A -> bool) (l : list A) a :
  In a l -> p a = true -> exists b, find p l = Some b /\ In b l /\ p b = true.
Proof.
  intros Hin Hp. destruct (find p l) as [b|] eqn:E.
  - exists b. destruct (find_some _ _ E). auto.
  - rewrite (find_none _ _ E a Hin) in Hp. discriminate.
Qed.

Section JoinFacts.

Context {A B : Type}.

Lemma filter_same_left {C : Type} (p : A -> bool) (a : A)
    (l : list (A * C)) :
  (forall x, In x l -> fst x = a) ->
  filter (fun x => p (fst x)) l = if p a then l else [].
Proof.
  induction l as [|x l IH]; simpl; intros H; [now destruct (p a)|].
  rewrite (H x (or_introl eq_refl)), IH by (intros; apply H; now right).
  now destruct (p a).
Qed.

Lemma partners_left (on : A -> B -> bool) r a x :
  In x (Db.partners on r a) -> fst x = a.
Proof.
  unfold Db.partners. destruct (filter (on a) r) as [|b bs].
  - simpl. intros [<-|[]]. reflexivity.
  - intros H. apply in_map_iff in H. destruct H as (c & <- & _). reflexivity.
Qed.

Lemma partners_first (on : A -> B -> bool) r a :
  Db.fetchone (Db.partners on r a) = Some (a, find (on a) r).
Proof.
  unfold Db.partners. rewrite <- fetchone_filter.
  destruct (filter (on a) r); reflexivity.
Qed.

(** The first row of [l LEFT JOIN r] whose left part satisfies [p]. *)
Lemma fetchone_left_join (on : A -> B -> bool) (p : A -> bool) l r :
  Db.fetchone (filter (fun x => p (fst x)) (Db.left_join_on on l r)) =
  match find p l with
  | Some a => Some (a, find (on a) r)
  | None => None
  end.
Proof.
  unfold Db.left_join_on.
  induction l as [|a l IH]; simpl; [reflexivity|].
  rewrite filter_app, (filter_same_left p a) by apply partners_left.
  destruct (p a) eqn:Hp; [|exact IH].
  pose proof (partners_first on r a) as F.
  destruct (Db.partners on r a); [discriminate|exact F].
Qed.

(** The rows of [l JOIN r] whose left part satisfies [p], when exactly the
    row [a] of [l] does. *)
Lemma join_on_unique (on : A -> B -> bool) (p : A -> bool) l r a l1 l2 :
  l = l1 ++ a :: l2 -> p a = true ->
  (forall x, In x l1 -> p x = false) ->
  (forall x, In x l2 -> p x = false) ->
  filter (fun x => p (fst x)) (Db.join_on on l r) =
  map (fun b => (a, b)) (filter (on a) r).
Proof.
  intros -> Hp H1 H2. unfold Db.join_on.
  assert (Hnil : forall l', (forall x, In x l' -> p x = false) ->
            filter (fun x : A * B => p (fst x))
              (flat_map (fun a0 => map (fun b => (a0, b)) (filter (on a0) r)) l')
            = []).
  { induction l' as [|x l' IH]; simpl; intros H; [reflexivity|].
    rewrite filter_app, IH by (intros; apply H; now right).
    rewrite app_nil_r.
    assert (Hx := H x (or_introl eq_refl)).
    induction (filter (on x) r) as [|b bs IHb]; simpl; [reflexivity|].
    now rewrite Hx. }
  rewrite flat_map_app, filter_app. simpl. rewrite filter_app.
  rewrite (Hnil l1 H1), (Hnil l2 H2), app_nil_r. simpl.
  induction (filter (on a) r) as [|b bs IHb]; simpl; [reflexivity|].
  rewrite Hp. now f_equal.
Qed.

End JoinFacts.

Lemma NoDup_map_split {A K : Type} (key : A -> K) (l : list A) a :
  NoDup (map key l) -> In a l ->
  exists l1 l2, l = l1 ++ a :: l2 /\
    (forall x, In x l1 -> key x <> key a) /\
    (forall x, In x l2 -> key x <> key a).
Proof.
  intros ND Hin. destruct (in_split _ _ Hin) as (l1 & l2 & ->).
  exists l1, l2. split; [reflexivity|].
  rewrite map_app in ND. simpl in ND.
  pose proof (NoDup_remove_2 _ _ _ ND) as Hnot.
  split; intros x Hx E; apply Hnot; rewrite <- E; apply in_or_app;
    [left|right]; now apply in_map.
Qed.

Lemma in_map_key {A : Type} (key : A -> Z) (l : list A) k :
  In k (map key l) -> exists a, In a l /\ key a = k.
Proof.
  intros H. apply in_map_iff in H. destruct H as (a & E & Hin). eauto.
Qed.

(* ================================================================== *)
(** * The demo data satisfies the schema *)
(* ================================================================== *)

Ltac distinct_keys :=
  repeat (constructor; [simpl; intuition (discriminate || congruence)|]);
  constructor.

Ltac reference_holds :=
  simpl; intros ? H;
  repeat (destruct H as [<-|H]; [simpl; tauto|]); contradiction.

Lemma seed_keys : Schema.keys seed_db.
Proof. constructor; simpl; distinct_keys. Qed.

Lemma seed_references : Schema.references seed_db.
Proof. constructor; reference_holds. Qed.

Lemma null_booking_keys : Schema.keys null_booking_db.
Proof. constructor; simpl; distinct_keys. Qed.

Lemma null_booking_references : Schema.references null_booking_db.
Proof. constructor; reference_holds. Qed.

(* ================================================================== *)
(** * Removing a vehicle from a trip (the safety gate) *)
(* ================================================================== *)

Lemma fetchone_map {A B : Type} (f : A -> B) (l : list A) :
  Db.fetchone (map f l) = option_map f (Db.fetchone l).
Proof. destruct l; reflexivity. Qed.

Lemma gt0_true (q : Q) : Py.gt0 q = true <-> (0 < q)%Q.
Proof.
  unfold Py.gt0. rewrite negb_true_iff. split; intros H.
  - apply Qnot_le_lt. intros L. apply Qle_bool_iff in L. congruence.
  - destruct (Qle_bool q 0) eqn:E; [|reflexivity].
    apply Qle_bool_iff in E. exfalso. exact (Qlt_not_le _ _ H E).
Qed.

Lemma real_or_positive (q : Q) : (0 < q)%Q -> Py.real_or (Some q) 0%Q = q.
Proof.
  intros H. simpl. destruct (Qeq_bool q 0) eqn:E; [|reflexivity].
  apply Qeq_bool_iff in E. rewrite E in H. exfalso. exact (Qlt_irrefl _ H).
Qed.

Lemma real_or_zero (q : Q) : (q == 0)%Q -> Py.real_or (Some q) 0%Q = 0%Q.
Proof.
  intros H. simpl. apply Qeq_bool_iff in H. now rewrite H.
Qed.

Lemma gt0_real_or (x : option Q) :
  Py.gt0 (Py.real_or x 0%Q) = true -> exists q, x = Some q /\ (0 < q)%Q.
Proof.
  destruct x as [q|]; simpl; [|discriminate].
  destruct (Qeq_bool q 0); [discriminate|].
  intros H. exists q. split; [reflexivity|]. now apply gt0_true.
Qed.

Section RemovalFacts.

Variable float_repr : Q -> string.

(** With unique display names and every trip on an existing route, the trip
    query returns the trip with its route. *)
Lemma select_trip_found db n t :
  Schema.keys db -> Schema.references db -> Schema.trip_named db n t ->
  exists r, Db.fetchone (Db.select_trip n db) = Some (t, r)
            /\ In r (rows (routes db))
            /\ Routes.route_id r = DailyTrips.route_id t.
Proof.
  intros K R [Hin Hn].
  destruct (NoDup_map_split DailyTrips.display_name _ t
              (Schema.trips_name db K) Hin) as (l1 & l2 & E & H1 & H2).
  unfold Db.select_trip.
  rewrite (join_on_unique _
             (fun t' => (DailyTrips.display_name t' =? n)%string)
             _ _ t l1 l2 E).
  - destruct (in_map_key _ _ _ (Schema.trips_route db R t Hin))
      as (r & Hr & Er).
    destruct (find_in (fun r0 => Routes.route_id r0 =? DailyTrips.route_id t)
                _ r Hr) as (r' & F & Hr' & Er').
    { now apply Z.eqb_eq. }
    exists r'. rewrite fetchone_map, fetchone_filter, F.
    repeat split; auto. now apply Z.eqb_eq.
  - now apply String.eqb_eq.
  - intros x Hx. apply String.eqb_neq. rewrite <- Hn. now apply H1.
  - intros x Hx. apply String.eqb_neq. rewrite <- Hn. now apply H2.
Qed.

(** The deployment query returns the first deployment row of the trip,
    with the plate and the driver name it refers to. *)
Lemma select_deployment_first db trip_id :
  Db.fetchone (Db.select_deployment trip_id db) =
  option_map
    (fun d => (Deployments.deployment_id d,
               Schema.plate_of db d, Schema.driver_of db d))
    (find (fun d => Deployments.trip_id d =? trip_id)
       (rows (deployments db))).
Proof.
  unfold Db.select_deployment. rewrite fetchone_map.
  rewrite (fetchone_left_join _
             (fun dv : Deployments.row * option Vehicles.row =>
                Deployments.trip_id (fst dv) =? trip_id)).
  rewrite <- fetchone_filter.
  rewrite (fetchone_left_join _
             (fun d : Deployments.row => Deployments.trip_id d =? trip_id)).
  destruct (find _ (rows (deployments db))) as [d|]; reflexivity.
Qed.

Lemma deployment_of_trip db d :
  Schema.keys db -> In d (rows (deployments db)) ->
  find (fun d' => Deployments.trip_id d' =? Deployments.trip_id d)
    (rows (deployments db)) = Some d.
Proof.
  intros K Hin.
  apply (find_unique Deployments.trip_id); auto.
  - exact (Schema.deployments_trip db K).
  - apply Z.eqb_refl.
  - intros x _ Hx. now apply Z.eqb_eq.
Qed.

(** What a call does once the trip and its deployment are known. *)
Lemma remove_vehicle_from_trip_found db n force t d :
  Schema.keys db -> Schema.references db -> Schema.trip_named db n t ->
  In d (rows (deployments db)) ->
  Deployments.trip_id d = DailyTrips.trip_id t ->
  exists r,
    In r (rows (routes db)) /\ Routes.route_id r = DailyTrips.route_id t /\
    Db.remove_vehicle_from_trip float_repr n force db =
    let booking :=
      Py.real_or (DailyTrips.booking_status_percentage t) 0%Q in
    if Py.gt0 booking && negb force
    then (Db.warning_message float_repr (DailyTrips.display_name t)
            (Routes.route_display_name r) booking, db)
    else (Py.fstr ["Removed vehicle '"; Py.str_opt (Schema.plate_of db d);
                   "' and driver '"; Py.str_opt (Schema.driver_of db d);
                   "' from trip '"; n; "'."],
          Db.delete_deployment (Deployments.deployment_id d) db).
Proof.
  intros K R T Hd Et.
  destruct (select_trip_found db n t K R T) as (r & F & Hr & Er).
  exists r. split; [exact Hr|]. split; [exact Er|].
  unfold Db.remove_vehicle_from_trip. rewrite F.
  rewrite select_deployment_first, <- Et, (deployment_of_trip db d K Hd).
  reflexivity.
Qed.

(** Deleting by primary key removes exactly that row. *)
Lemma delete_deployment_rows db d :
  Schema.keys db -> In d (rows (deployments db)) ->
  let db' := Db.delete_deployment (Deployments.deployment_id d) db in
  ~ In d (rows (deployments db')) /\
  (forall d', In d' (rows (deployments db)) -> d' <> d ->
              In d' (rows (deployments db'))) /\
  (forall d', In d' (rows (deployments db')) ->
              In d' (rows (deployments db))) /\
  Schema.deployments_of db' (Deployments.trip_id d) = [].
Proof.
  intros K Hin. simpl.
  assert (Hpk : forall x, In x (rows (deployments db)) ->
            Deployments.deployment_id x = Deployments.deployment_id d -> x = d).
  { intros x Hx E.
    destruct (NoDup_map_split Deployments.deployment_id _ d
                (Schema.deployments_pk db K) Hin) as (l1 & l2 & El & H1 & H2).
    rewrite El in Hx. apply in_app_or in Hx.
    destruct Hx as [Hx|[Hx|Hx]]; auto.
    - elim (H1 x Hx E).
    - elim (H2 x Hx E). }
  assert (Htr : forall x, In x (rows (deployments db)) ->
            Deployments.trip_id x = Deployments.trip_id d -> x = d).
  { intros x Hx E.
    destruct (NoDup_map_split Deployments.trip_id _ d
                (Schema.deployments_trip db K) Hin) as (l1 & l2 & El & H1 & H2).
    rewrite El in Hx. apply in_app_or in Hx.
    destruct Hx as [Hx|[Hx|Hx]]; auto.
    - elim (H1 x Hx E).
    - elim (H2 x Hx E). }
  repeat split.
  - intros H. apply filter_In in H. destruct H as [_ H].
    rewrite Z.eqb_refl in H. discriminate.
  - intros d' Hd' Hne. apply filter_In. split; [exact Hd'|].
    apply negb_true_iff, Z.eqb_neq. intros E. apply Hne. now apply Hpk.
  - intros d' H. apply filter_In in H. tauto.
  - unfold Schema.deployments_of. simpl.
    destruct (filter _ (filter _ _)) as [|x xs] eqn:E; [reflexivity|].
    assert (Hx : In x (x :: xs)) by now left.
    rewrite <- E in Hx. apply filter_In in Hx. destruct Hx as [Hx Ex].
    apply filter_In in Hx. destruct Hx as [Hx Nx].
    apply Z.eqb_eq in Ex. rewrite (Htr x Hx Ex), Z.eqb_refl in Nx.
    discriminate.
Qed.

End RemovalFacts.

Section SafetyGate.

Variable float_repr : Q -> string.

(** C1.  For a trip that exists, has a deployment and has a booking
    percentage above 0, [remove_vehicle_from_trip] with [force = False]
    changes nothing in the database and returns a text that contains
    "WARNING" and ends with the instruction to ask the user for a yes/no
    confirmation and to call again with [force=true]. *)
Theorem remove_booked_trip_warns db n t d q :
  Schema.keys db -> Schema.references db -> Schema.trip_named db n t ->
  In d (rows (deployments db)) ->
  Deployments.trip_id d = DailyTrips.trip_id t ->
  DailyTrips.booking_status_percentage t = Some q -> (0 < q)%Q ->
  let out := Db.remove_vehicle_from_trip float_repr n false db in
  snd out = db /\
  Py.contains "WARNING" (fst out) = true /\
  exists body,
    fst out =
    ("WARNING: " ++ body ++
     "Ask the user for a yes/no confirmation. If they confirm, call this again with force=true.")%string.
Proof.
  intros K R T Hd Et Eb Hq.
  destruct (remove_vehicle_from_trip_found float_repr db n false t d K R T Hd Et)
    as (r & _ & _ & E).
  cbv zeta in E. rewrite Eb, (real_or_positive q Hq) in E.
  rewrite (proj2 (gt0_true q) Hq) in E. simpl in E.
  cbv zeta. rewrite E. simpl fst. simpl snd.
  split; [reflexivity|]. split; [reflexivity|].
  unfold Db.warning_message.
  eexists. rewrite append_assoc. reflexivity.
Qed.

(** C2.  For a trip that exists and has a deployment, when the booking
    percentage is 0 or [force] is set, [remove_vehicle_from_trip] deletes
    exactly the deployment row of the trip and returns the confirmation
    naming the removed vehicle and driver; the text is not a warning, also
    with booking 0 and [force = False]. *)
Theorem remove_unbooked_or_forced_deletes db n t d force :
  Schema.keys db -> Schema.references db -> Schema.trip_named db n t ->
  In d (rows (deployments db)) ->
  Deployments.trip_id d = DailyTrips.trip_id t ->
  (exists q, DailyTrips.booking_status_percentage t = Some q /\ (q == 0)%Q)
  \/ force = true ->
  let out := Db.remove_vehicle_from_trip float_repr n force db in
  fst out =
    Py.fstr ["Removed vehicle '"; Py.str_opt (Schema.plate_of db d);
             "' and driver '"; Py.str_opt (Schema.driver_of db d);
             "' from trip '"; n; "'."] /\
  Py.startswith (fst out) "WARNING" = false /\
  snd out = Db.delete_deployment (Deployments.deployment_id d) db /\
  ~ In d (rows (deployments (snd out))) /\
  Schema.deployments_of (snd out) (DailyTrips.trip_id t) = [] /\
  (forall d', In d' (rows (deployments db)) -> d' <> d ->
              In d' (rows (deployments (snd out)))).
Proof.
  intros K R T Hd Et Hc.
  destruct (remove_vehicle_from_trip_found float_repr db n force t d K R T Hd Et)
    as (r & _ & _ & E).
  assert (G : Py.gt0 (Py.real_or (DailyTrips.booking_status_percentage t) 0%Q)
              && negb force = false).
  { destruct Hc as [(q & Eb & Hq)| ->].
    - rewrite Eb, (real_or_zero q Hq). reflexivity.
    - apply andb_false_r. }
  cbv zeta in E. rewrite G in E. cbv zeta. rewrite E.
  destruct (delete_deployment_rows db d K Hd) as (H1 & H2 & _ & H4).
  rewrite <- Et. simpl fst. simpl snd.
  repeat split; auto.
Qed.

(** C9.  A stored NULL booking percentage counts as 0: with a deployment
    and [force = False] the deployment is deleted at once and the text is
    not a warning.  Whatever the database and the flag, a warning is only
    returned when the stored percentage is a number above 0 (and the flag
    is not set), and then nothing is changed. *)
Theorem remove_null_booking_deletes db n t d :
  Schema.keys db -> Schema.references db -> Schema.trip_named db n t ->
  In d (rows (deployments db)) ->
  Deployments.trip_id d = DailyTrips.trip_id t ->
  DailyTrips.booking_status_percentage t = None ->
  (let out := Db.remove_vehicle_from_trip float_repr n false db in
   fst out =
     Py.fstr ["Removed vehicle '"; Py.str_opt (Schema.plate_of db d);
              "' and driver '"; Py.str_opt (Schema.driver_of db d);
              "' from trip '"; n; "'."] /\
   Py.startswith (fst out) "WARNING" = false /\
   snd out = Db.delete_deployment (Deployments.deployment_id d) db /\
   Schema.deployments_of (snd out) (DailyTrips.trip_id t) = []) /\
  (forall db0 n0 force0,
     let out := Db.remove_vehicle_from_trip float_repr n0 force0 db0 in
     Py.startswith (fst out) "WARNING" = true ->
     force0 = false /\ snd out = db0 /\
     exists t0 r0 q,
       Db.fetchone (Db.select_trip n0 db0) = Some (t0, r0) /\
       DailyTrips.booking_status_percentage t0 = Some q /\ (0 < q)%Q).
Proof.
  intros K R T Hd Et Eb. split.
  - destruct (remove_vehicle_from_trip_found float_repr db n false t d
                K R T Hd Et) as (r & _ & _ & E).
    rewrite Eb in E. simpl in E. cbv zeta. rewrite E.
    destruct (delete_deployment_rows db d K Hd) as (_ & _ & _ & H4).
    rewrite <- Et. simpl fst. simpl snd. repeat split; auto.
  - intros db0 n0 force0. cbv zeta.
    unfold Db.remove_vehicle_from_trip.
    destruct (Db.fetchone (Db.select_trip n0 db0)) as [[t0 r0]|];
      [|simpl; discriminate].
    destruct (Db.fetchone (Db.select_deployment _ db0)) as [[[i p] dn]|];
      [|simpl; discriminate].
    destruct (Py.gt0 _) eqn:G; [|simpl; discriminate].
    destruct force0; [simpl; discriminate|].
    simpl. intros _. split; [reflexivity|]. split; [reflexivity|].
    destruct (gt0_real_or _ G) as (q & Eq & Hq).
    exists t0, r0, q. auto.
Qed.

End SafetyGate.

(** The safety gate on the demo data: 'Bulk - 00:01' is 25% booked and
    carries vehicle KA-01-1111. *)
Lemma remove_booked_trip_warns_witness :
  Schema.trip_named seed_db "Bulk - 00:01"
    (DailyTrips.mk 1 1 "Bulk - 00:01" (Some 25.0%Q) (Some "00:01 IN")) /\
  let out :=
    Db.remove_vehicle_from_trip (fun _ => "25.0") "Bulk - 00:01" false
      seed_db in
  snd out = seed_db /\
  Py.contains "WARNING" (fst out) = true /\
  exists body,
    fst out =
    ("WARNING: " ++ body ++
     "Ask the user for a yes/no confirmation. If they confirm, call this again with force=true.")%string.
Proof.
  assert (T : Schema.trip_named seed_db "Bulk - 00:01"
                (DailyTrips.mk 1 1 "Bulk - 00:01" (Some 25.0%Q)
                   (Some "00:01 IN"))).
  { split; [simpl; tauto|reflexivity]. }
  split; [exact T|].
  apply (remove_booked_trip_warns (fun _ => "25.0") seed_db "Bulk - 00:01"
           (DailyTrips.mk 1 1 "Bulk - 00:01" (Some 25.0%Q) (Some "00:01 IN"))
           (Deployments.mk 1 1 (Some 1) (Some 1)) 25.0%Q
           seed_keys seed_references T).
  - simpl; tauto.
  - reflexivity.
  - reflexivity.
  - reflexivity.
Defined.

(** Forced removal on the same trip. *)
Lemma remove_unbooked_or_forced_deletes_witness :
  let out :=
    Db.remove_vehicle_from_trip (fun _ => "25.0") "Bulk - 00:01" true
      seed_db in
  fst out =
    "Removed vehicle 'KA-01-1111' and driver 'Amit' from trip 'Bulk - 00:01'."
  /\ rows (deployments (snd out)) = [Deployments.mk 2 3 (Some 2) (Some 2)].
Proof.
  destruct (remove_unbooked_or_forced_deletes (fun _ => "25.0") seed_db
              "Bulk - 00:01"
              (DailyTrips.mk 1 1 "Bulk - 00:01" (Some 25.0%Q) (Some "00:01 IN"))
              (Deployments.mk 1 1 (Some 1) (Some 1)) true
              seed_keys seed_references)
    as (E1 & _ & E2 & _).
  - split; [simpl; tauto|reflexivity].
  - simpl; tauto.
  - reflexivity.
  - right; reflexivity.
  - cbv zeta. rewrite E1, E2. split; reflexivity.
Defined.

(** A NULL booking on 'Bulk - 00:02'. *)
Lemma remove_null_booking_deletes_witness :
  let out :=
    Db.remove_vehicle_from_trip (fun _ => "0.0") "Bulk - 00:02" false
      null_booking_db in
  fst out =
    "Removed vehicle 'KA-05-9999' and driver 'Sneha' from trip 'Bulk - 00:02'."
  /\ Schema.deployments_of (snd out) 2 = [].
Proof.
  destruct (remove_null_booking_deletes (fun _ => "0.0") null_booking_db
              "Bulk - 00:02"
              (DailyTrips.mk 2 1 "Bulk - 00:02" None (Some "00:02 IN"))
              (Deployments.mk 3 2 (Some 3) (Some 3))
              null_booking_keys null_booking_references)
    as ((E1 & _ & _ & E2) & _).
  - split; [simpl; tauto|reflexivity].
  - simpl; tauto.
  - reflexivity.
  - reflexivity.
  - cbv zeta. rewrite E1. split; [reflexivity|exact E2].
Defined.

(* ================================================================== *)
(** * Reformatting the history *)
(* ================================================================== *)

Lemma history_loop_nth history img : forall i n k,
  nth_error (App.history_loop i n history img) k =
  option_map (App.graph_message (Nat.eqb (i + k) (n - 1)) img)
    (nth_error history k).
Proof.
  induction history as [|msg rest IH]; intros i n k.
  - destruct k; reflexivity.
  - destruct k as [|k]; simpl.
    + now rewrite Nat.add_0_r.
    + rewrite IH. now rewrite Nat.add_succ_r.
Qed.

Lemma history_loop_length history img : forall i n,
  List.length (App.history_loop i n history img) = List.length history.
Proof.
  induction history as [|msg rest IH]; intros i n; simpl;
    [reflexivity|now rewrite IH].
Qed.

Lemma graph_message_has_image is_last img msg :
  Messages.has_image (App.graph_message is_last img msg) =
  (App.role msg =? "user")%string && (is_last && Py.truthy img).
Proof.
  unfold App.graph_message.
  destruct (App.role msg =? "user")%string; simpl; [|reflexivity].
  destruct (is_last && Py.truthy img); reflexivity.
Qed.

(** C8.  For every history and optional image payload, the reformatted
    list has one dict per turn; the dict at a position carries an image
    exactly when the position is the last one, the turn there is a user
    turn and a (non-empty) payload was given, and then it consists of the
    turn's text followed by that payload as a PNG data URL.  So no dict
    before the last ever carries an attachment. *)
Theorem image_only_on_last_user_turn (history : list App.Turn)
    (last_image_b64 : option string) :
  let out := App._history_to_graph_messages history last_image_b64 in
  List.length out = List.length history /\
  forall i turn, nth_error history i = Some turn ->
    exists d, nth_error out i = Some d /\
      (Messages.has_image d = true <->
         S i = List.length history /\ App.role turn = "user" /\
         Py.truthy last_image_b64 = true) /\
      (Messages.has_image d = true ->
         d = Messages.mkDict "human"
               (Messages.Parts
                  [ Messages.TextPart (App.content turn);
                    Messages.ImageUrlPart
                      (Py.fstr ["data:image/png;base64,";
                                Py.str_opt last_image_b64]) ])) /\
      (Messages.has_image d = false ->
         d = Messages.mkDict
               (if (App.role turn =? "user")%string then "human" else "ai")
               (Messages.Text (App.content turn))).
Proof.
  cbv zeta. unfold App._history_to_graph_messages.
  split; [apply history_loop_length|].
  intros i turn Hi.
  rewrite history_loop_nth, Hi. simpl.
  eexists. split; [reflexivity|].
  assert (Hlt : (i < List.length history)%nat).
  { apply nth_error_Some. congruence. }
  rewrite graph_message_has_image.
  split; [|split].
  - rewrite !andb_true_iff, String.eqb_eq, Nat.eqb_eq. split.
    + intros (Hr & Hl & Ht). repeat split; auto. lia.
    + intros (Hl & Hr & Ht). repeat split; auto. lia.
  - rewrite !andb_true_iff. intros (Hr & Hl & Ht).
    unfold App.graph_message. now rewrite Hr, Hl, Ht.
  - intros H. unfold App.graph_message.
    destruct (App.role turn =? "user")%string; [|reflexivity].
    simpl in H. now rewrite H.
Qed.

(* ================================================================== *)
(** * Created routes are active *)
(* ================================================================== *)

Lemma in_insert_sorted {A : Type} (le : A -> A -> bool) x y (l : list A) :
  In x (Db.insert_sorted le y l) <-> x = y \/ In x l.
Proof.
  induction l as [|z l IH]; simpl.
  - intuition.
  - destruct (le y z); simpl; [intuition|]. rewrite IH. intuition.
Qed.

Lemma in_order_by {A : Type} (le : A -> A -> bool) x (l : list A) :
  In x (Db.order_by le l) <-> In x l.
Proof.
  unfold Db.order_by. induction l as [|y l IH]; simpl; [tauto|].
  rewrite in_insert_sorted, IH. intuition.
Qed.



(* ================================================================== *)
(** * One deployment per trip *)
(* ================================================================== *)

Lemma max_rowid_upper {A : Type} (key : A -> Z) (l : list A) a :
  In a l -> key a <= Db.max_rowid key l.
Proof.
  unfold Db.max_rowid.
  induction l as [|x l IH]; simpl; intros H; [contradiction|].
  destruct H as [->|H]; [lia|]. specialize (IH H). lia.
Qed.

(** AUTOINCREMENT never hands out a key that is in the table. *)
Lemma next_rowid_fresh {A : Type} (key : A -> Z) (t : Table A) :
  ~ In (Db.next_rowid key t) (map key (rows t)).
Proof.
  intros H. apply in_map_iff in H. destruct H as (a & E & Hin).
  pose proof (max_rowid_upper key _ a Hin). unfold Db.next_rowid in E. lia.
Qed.

Lemma NoDup_snoc {K : Type} (l : list K) (k : K) :
  NoDup l -> ~ In k l -> NoDup (l ++ [k]).
Proof.
  intros ND Hk. apply NoDup_app; auto.
  - constructor; [intros []|constructor].
  - intros x Hx [<-|[]]. contradiction.
Qed.

Lemma keys_set_deployments db (t : Table Deployments.row) :
  Schema.keys db ->
  NoDup (map Deployments.deployment_id (rows t)) ->
  NoDup (map Deployments.trip_id (rows t)) ->
  Schema.keys (Db.set_deployments db t).
Proof. intros [] H1 H2. constructor; simpl; assumption. Qed.

Lemma unique_filter_length {A : Type} (key : A -> Z) (l : list A) k :
  NoDup (map key l) ->
  (List.length (filter (fun a => (key a =? k)%Z) l) <= 1)%nat.
Proof.
  induction l as [|x l IH]; simpl; intros ND; [lia|].
  inversion ND as [|? ? Hnot ND']; subst.
  destruct (key x =? k) eqn:E; [|auto].
  apply Z.eqb_eq in E. subst k. simpl.
  replace (filter (fun a => key a =? key x) l) with (@nil A); [simpl; lia|].
  symmetry. clear IH ND ND'. induction l as [|y l IHl]; simpl; [reflexivity|].
  destruct (key y =? key x) eqn:E.
  - apply Z.eqb_eq in E. elim Hnot. simpl. now left.
  - apply IHl. intros H. apply Hnot. now right.
Qed.

Lemma filter_updated_none (tid id : Z) (v dr : option Z)
    (l : list Deployments.row) :
  ~ In tid (map Deployments.trip_id l) ->
  filter (fun d => Deployments.trip_id d =? tid)
    (map (fun d =>
            if Deployments.deployment_id d =? id
            then Deployments.mk (Deployments.deployment_id d)
                   (Deployments.trip_id d) v dr
            else d) l) = [].
Proof.
  induction l as [|x l IH]; simpl; intros H; [reflexivity|].
  assert (Hx : (Deployments.trip_id x =? tid) = false).
  { apply Z.eqb_neq. intros E. apply H. now left. }
  destruct (Deployments.deployment_id x =? id); simpl; rewrite Hx;
    apply IH; intros Hin; apply H; now right.
Qed.

(** After the UPDATE, the trip's only row is the rewritten one. *)
Lemma filter_updated (e : Deployments.row) (v dr : option Z)
    (l : list Deployments.row) :
  NoDup (map Deployments.trip_id l) -> In e l ->
  filter (fun d => Deployments.trip_id d =? Deployments.trip_id e)
    (map (fun d =>
            if Deployments.deployment_id d =? Deployments.deployment_id e
            then Deployments.mk (Deployments.deployment_id d)
                   (Deployments.trip_id d) v dr
            else d) l)
  = [Deployments.mk (Deployments.deployment_id e) (Deployments.trip_id e)
       v dr].
Proof.
  induction l as [|x l IH]; simpl; intros ND Hin; [contradiction|].
  inversion ND as [|? ? Hnot ND']; subst.
  destruct Hin as [->|Hin].
  - rewrite Z.eqb_refl. simpl. rewrite Z.eqb_refl.
    now rewrite filter_updated_none.
  - assert (Hx : (Deployments.trip_id x =? Deployments.trip_id e) = false).
    { apply Z.eqb_neq. intros E. apply Hnot. rewrite E. now apply in_map. }
    destruct (Deployments.deployment_id x =? Deployments.deployment_id e);
      simpl; rewrite Hx; now apply IH.
Qed.

Lemma map_key_updated {K : Type} (key : Deployments.row -> K) id v dr
    (l : list Deployments.row) :
  (forall d, key (Deployments.mk (Deployments.deployment_id d)
                    (Deployments.trip_id d) v dr) = key d) ->
  map key
    (map (fun d =>
            if Deployments.deployment_id d =? id
            then Deployments.mk (Deployments.deployment_id d)
                   (Deployments.trip_id d) v dr
            else d) l) = map key l.
Proof.
  intros H. rewrite map_map. apply map_ext. intros d.
  destruct (Deployments.deployment_id d =? id); auto.
Qed.

(** What one assignment does when the trip, the vehicle and the driver
    exist: it returns normally, keeps the key constraints, touches only the
    deployments table and leaves the trip with exactly one deployment row,
    which names the vehicle and the driver of the call. *)
Lemma assign_result db trip plate driver t v dr :
  Schema.keys db -> Schema.trip_named db trip t ->
  In v (rows (vehicles db)) -> Vehicles.license_plate v = plate ->
  In dr (rows (drivers db)) -> Drivers.name dr = driver ->
  exists msg db' dep,
    Db.assign_vehicle_and_driver trip plate driver db = Db.Done (msg, db') /\
    Schema.keys db' /\
    daily_trips db' = daily_trips db /\ vehicles db' = vehicles db /\
    drivers db' = drivers db /\
    Schema.deployments_of db' (DailyTrips.trip_id t) = [dep] /\
    Deployments.vehicle_id dep = Some (Vehicles.vehicle_id v) /\
    Deployments.driver_id dep = Some (Drivers.driver_id dr).
Proof.
  intros K [Ht Et] Hv Ev Hd Ed.
  unfold Db.assign_vehicle_and_driver, Db.select_where.
  rewrite !fetchone_filter.
  rewrite (find_unique DailyTrips.display_name _ _ t
             (Schema.trips_name db K) Ht);
    [|now apply String.eqb_eq
     |intros x _ Hx; apply String.eqb_eq in Hx; congruence].
  rewrite (find_unique Vehicles.license_plate _ _ v
             (Schema.vehicles_plate db K) Hv);
    [|now apply String.eqb_eq
     |intros x _ Hx; apply String.eqb_eq in Hx; congruence].
  rewrite (find_unique Drivers.name _ _ dr
             (Schema.drivers_name db K) Hd);
    [|now apply String.eqb_eq
     |intros x _ Hx; apply String.eqb_eq in Hx; congruence].
  cbv beta iota. rewrite fetchone_filter.
  destruct (find _ (rows (deployments db))) as [e|] eqn:F.
  - destruct (find_some _ _ F) as [He Ee]. apply Z.eqb_eq in Ee.
    do 3 eexists. split; [reflexivity|].
    split; [|repeat (split; [reflexivity|])].
    + apply keys_set_deployments; auto; simpl.
      * rewrite map_key_updated by reflexivity.
        exact (Schema.deployments_pk db K).
      * rewrite map_key_updated by reflexivity.
        exact (Schema.deployments_trip db K).
    + unfold Schema.deployments_of. simpl. rewrite <- Ee.
      rewrite (filter_updated e _ _ _ (Schema.deployments_trip db K) He).
      repeat split.
  - pose proof (proj1 (find_none_iff _ _) F) as Hnone.
    assert (Habsent : ~ In (DailyTrips.trip_id t)
                        (map Deployments.trip_id (rows (deployments db)))).
    { intros H. apply in_map_iff in H. destruct H as (x & Ex & Hx).
      specialize (Hnone x Hx). simpl in Hnone.
      apply Z.eqb_neq in Hnone. contradiction. }
    unfold Db.insert_deployment.
    replace (existsb _ (rows (deployments db))) with false.
    2:{ symmetry. apply not_true_is_false. intros H.
        apply existsb_exists in H. destruct H as (x & Hx & Ex).
        rewrite (Hnone x Hx) in Ex. discriminate. }
    simpl. do 3 eexists. split; [reflexivity|].
    split; [|repeat (split; [reflexivity|])].
    + apply keys_set_deployments; auto; simpl; rewrite map_app; simpl.
      * apply NoDup_snoc; [exact (Schema.deployments_pk db K)|].
        apply next_rowid_fresh.
      * apply NoDup_snoc; [exact (Schema.deployments_trip db K)|exact Habsent].
    + unfold Schema.deployments_of. simpl. rewrite filter_app. simpl.
      rewrite Z.eqb_refl.
      replace (filter _ (rows (deployments db))) with (@nil Deployments.row).
      * repeat split.
      * symmetry. destruct (filter _ (rows (deployments db))) as [|x xs] eqn:E;
          [reflexivity|].
        assert (Hx : In x (x :: xs)) by now left. rewrite <- E in Hx.
        apply filter_In in Hx. destruct Hx as [Hx Ex].
        rewrite (Hnone x Hx) in Ex. discriminate.
Qed.

(** C6.  Two successive assignments to the same existing trip, each with
    an existing vehicle and an existing driver, both return normally; after
    each of them no trip has more than one deployment row, and after the
    second the trip has exactly one row, which carries the vehicle and the
    driver of the second call. *)
Theorem assign_twice_last_write_wins
    db trip plate1 driver1 plate2 driver2 t v1 dr1 v2 dr2 :
  Schema.keys db -> Schema.trip_named db trip t ->
  In v1 (rows (vehicles db)) -> Vehicles.license_plate v1 = plate1 ->
  In dr1 (rows (drivers db)) -> Drivers.name dr1 = driver1 ->
  In v2 (rows (vehicles db)) -> Vehicles.license_plate v2 = plate2 ->
  In dr2 (rows (drivers db)) -> Drivers.name dr2 = driver2 ->
  exists m1 db1 m2 db2 dep,
    Db.assign_vehicle_and_driver trip plate1 driver1 db = Db.Done (m1, db1) /\
    Db.assign_vehicle_and_driver trip plate2 driver2 db1 = Db.Done (m2, db2) /\
    (forall tid, (List.length (Schema.deployments_of db1 tid) <= 1)%nat) /\
    (forall tid, (List.length (Schema.deployments_of db2 tid) <= 1)%nat) /\
    Schema.deployments_of db2 (DailyTrips.trip_id t) = [dep] /\
    Deployments.vehicle_id dep = Some (Vehicles.vehicle_id v2) /\
    Deployments.driver_id dep = Some (Drivers.driver_id dr2).
Proof.
  intros K T Hv1 Ev1 Hd1 Ed1 Hv2 Ev2 Hd2 Ed2.
  destruct (assign_result db trip plate1 driver1 t v1 dr1 K T Hv1 Ev1 Hd1 Ed1)
    as (m1 & db1 & dep1 & A1 & K1 & Et & Ev & Ed & _).
  assert (T1 : Schema.trip_named db1 trip t).
  { destruct T as [Ht En]. split; [now rewrite Et|exact En]. }
  rewrite <- Ev in Hv2. rewrite <- Ed in Hd2.
  destruct (assign_result db1 trip plate2 driver2 t v2 dr2 K1 T1
              Hv2 Ev2 Hd2 Ed2)
    as (m2 & db2 & dep2 & A2 & K2 & _ & _ & _ & F2 & V2 & D2).
  exists m1, db1, m2, db2, dep2.
  repeat split; auto.
  - intros tid. apply unique_filter_length.
    exact (Schema.deployments_trip db1 K1).
  - intros tid. apply unique_filter_length.
    exact (Schema.deployments_trip db2 K2).
Qed.

(** 'Bulk - 00:02' of the demo data, first given KA-01-1111 with Amit,
    then KA-05-9999 with Sneha. *)
Lemma assign_twice_last_write_wins_witness :
  exists m1 db1 m2 db2 dep,
    Db.assign_vehicle_and_driver "Bulk - 00:02" "KA-01-1111" "Amit" seed_db
      = Db.Done (m1, db1) /\
    Db.assign_vehicle_and_driver "Bulk - 00:02" "KA-05-9999" "Sneha" db1
      = Db.Done (m2, db2) /\
    Schema.deployments_of db2 2 = [dep] /\
    Deployments.vehicle_id dep = Some 3.
Proof.
  destruct (assign_twice_last_write_wins seed_db "Bulk - 00:02"
              "KA-01-1111" "Amit" "KA-05-9999" "Sneha"
              (DailyTrips.mk 2 1 "Bulk - 00:02" (Some 0.0%Q) (Some "00:02 IN"))
              (Vehicles.mk 1 "KA-01-1111" "Bus" 40)
              (Drivers.mk 1 "Amit" (Some "9999990001"))
              (Vehicles.mk 3 "KA-05-9999" "Cab" 4)
              (Drivers.mk 3 "Sneha" (Some "9999990003"))
              seed_keys)
    as (m1 & db1 & m2 & db2 & dep & A1 & A2 & _ & _ & F & V & _);
    try reflexivity; try (simpl; tauto).
  - split; [simpl; tauto|reflexivity].
  - exists m1, db1, m2, db2, dep. auto.
Defined.

(* ================================================================== *)
(** * Creating stops, paths and routes *)
(* ================================================================== *)

Lemma find_app_some {A : Type} (p : A -> bool) (l l' : list A) a :
  find p l = Some a -> find p (l ++ l') = Some a.
Proof.
  induction l as [|x l IH]; simpl; [discriminate|].
  destruct (p x); auto.
Qed.

Lemma find_app_none {A : Type} (p : A -> bool) (l l' : list A) :
  find p l = None -> find p (l ++ l') = find p l'.
Proof.
  induction l as [|x l IH]; simpl; [reflexivity|].
  destruct (p x); [discriminate|auto].
Qed.

Lemma existsb_find {A : Type} (p : A -> bool) (l : list A) :
  existsb p l = match find p l with Some _ => true | None => false end.
Proof.
  induction l as [|x l IH]; simpl; [reflexivity|].
  destruct (p x); simpl; auto.
Qed.

Lemma filter_unique {A : Type} (key : A -> Z) (l : list A) k a :
  NoDup (map key l) -> find (fun x => key x =? k) l = Some a ->
  filter (fun x => key x =? k) l = [a].
Proof.
  induction l as [|x l IH]; simpl; intros ND F; [discriminate|].
  inversion ND as [|? ? Hnot ND']; subst.
  destruct (key x =? k) eqn:E.
  - injection F as ->. f_equal. apply Z.eqb_eq in E.
    destruct (filter (fun x => key x =? k) l) as [|y ys] eqn:Fl;
      [reflexivity|].
    assert (Hy : In y (y :: ys)) by now left. rewrite <- Fl in Hy.
    apply filter_In in Hy. destruct Hy as [Hy Ey]. apply Z.eqb_eq in Ey.
    elim Hnot. rewrite E, <- Ey. now apply in_map.
  - now apply IH.
Qed.

(** Looking a stop up by name, creating it when missing: the step always
    completes and yields the key of a stop of that name. *)
Lemma resolve_stop db s_name :
  NoDup (map Stops.stop_id (rows (stops db))) ->
  exists sid db1 st extra,
    match Db.fetchone
            (Db.select_where (fun s => (Stops.name s =? s_name)%string)
               (stops db)) with
    | None => Db.insert_stop s_name None None db
    | Some row => Db.Done (Stops.stop_id row, db)
    end = Db.Done (sid, db1) /\
    rows (stops db1) = rows (stops db) ++ extra /\
    NoDup (map Stops.stop_id (rows (stops db1))) /\
    find (fun s => Stops.stop_id s =? sid) (rows (stops db1)) = Some st /\
    Stops.name st = s_name /\
    paths db1 = paths db /\ path_stops db1 = path_stops db /\
    Schema.same_operations db db1.
Proof.
  intros ND. unfold Db.select_where. rewrite fetchone_filter.
  destruct (find _ (rows (stops db))) as [row|] eqn:F.
  - destruct (find_some _ _ F) as [Hin En]. apply String.eqb_eq in En.
    exists (Stops.stop_id row), db, row, []. rewrite app_nil_r.
    repeat split; auto.
    apply (find_unique Stops.stop_id); auto.
    + apply Z.eqb_refl.
    + intros x _ Hx. now apply Z.eqb_eq.
  - unfold Db.insert_stop. rewrite existsb_find, F.
    do 4 eexists. split; [reflexivity|]. simpl.
    split; [reflexivity|]. split; [|split; [|repeat split]].
    + rewrite map_app. apply NoDup_snoc; auto. apply next_rowid_fresh.
    + rewrite find_app_none.
      * simpl. now rewrite Z.eqb_refl.
      * apply find_none_iff. intros x Hx. apply Z.eqb_neq. intros E.
        apply (next_rowid_fresh Stops.stop_id (stops db)).
        rewrite <- E. now apply in_map.
    + reflexivity.
Qed.

(** The loop of [create_path] always completes.  It appends one
    [path_stops] row per item, in order, each with the given path, the
    item's sequence number and a stop of the item's name; it only ever
    appends to [stops]; it leaves every other table alone. *)
Lemma insert_stops_of_path_spec items : forall pid db,
  NoDup (map Stops.stop_id (rows (stops db))) ->
  exists db' added extra,
    Db.insert_stops_of_path pid items db = Db.Done db' /\
    rows (path_stops db') = rows (path_stops db) ++ added /\
    rows (stops db') = rows (stops db) ++ extra /\
    NoDup (map Stops.stop_id (rows (stops db'))) /\
    Forall (fun ps => PathStops.path_id ps = pid) added /\
    map PathStops.seq added = map fst items /\
    map (Schema.stop_name_of db') added = map (fun it => Some (snd it)) items /\
    paths db' = paths db /\ Schema.same_operations db db'.
Proof.
  induction items as [|[seq s_name] rest IH]; intros pid db ND.
  - exists db, [], []. simpl. rewrite !app_nil_r.
    repeat split; auto.
  - destruct (resolve_stop db s_name ND)
      as (sid & db1 & st & e1 & R & Es & ND1 & F & En & Ep & Eps & Eo).
    simpl. rewrite R. simpl.
    set (db2 := Db.set_path_stops db1 _).
    assert (ND2 : NoDup (map Stops.stop_id (rows (stops db2)))) by exact ND1.
    destruct (IH pid db2 ND2)
      as (db' & added & extra & Run & Eps' & Es' & ND' & Hp & Hs & Hn & Ep' & Eo').
    exists db'. eexists (_ :: added). exists (e1 ++ extra).
    split; [exact Run|].
    split; [rewrite Eps'; simpl; rewrite Eps, <- app_assoc; reflexivity|].
    split; [rewrite Es'; simpl; rewrite Es, <- app_assoc; reflexivity|].
    split; [exact ND'|].
    split; [constructor; [reflexivity|exact Hp]|].
    split; [simpl; now rewrite Hs|].
    split.
    + simpl. rewrite Hn. f_equal. unfold Schema.stop_name_of. simpl.
      rewrite Es'. simpl. rewrite (find_app_some _ _ _ _ F). simpl.
      now rewrite En.
    + split; [now rewrite Ep'|].
      destruct Eo as (a1 & a2 & a3 & a4 & a5).
      destruct Eo' as (b1 & b2 & b3 & b4 & b5).
      unfold Schema.same_operations. simpl in *.
      repeat split; congruence.
Qed.

(** Rows numbered by [enumerate] are already in [ORDER BY] order. *)
Lemma order_by_enumerated {A B : Type} (key : A -> Z) (rows : list A) :
  forall (start : Z) (items : list B),
  map key rows = map fst (Db.enumerate start items) ->
  Db.order_by (fun a b => key a <=? key b) rows = rows.
Proof.
  unfold Db.order_by.
  induction rows as [|x rows IH]; intros start items E; [reflexivity|].
  destruct items as [|i items]; [discriminate|].
  simpl in E. injection E as Ex E.
  simpl. rewrite (IH _ _ E).
  destruct rows as [|y rows]; [reflexivity|].
  destruct items as [|j items]; [discriminate|].
  simpl in E. injection E as Ey E.
  simpl. replace (key x <=? key y) with true; [reflexivity|].
  symmetry. apply Z.leb_le. lia.
Qed.

(** Joining rows with the stops they refer to, once every referenced stop
    is known by its primary key. *)
Lemma join_resolved db (added : list PathStops.row) :
  forall names,
  NoDup (map Stops.stop_id (rows (stops db))) ->
  map (Schema.stop_name_of db) added = map Some names ->
  exists joined,
    Db.join_on (fun ps s => Stops.stop_id s =? PathStops.stop_id ps)
      added (rows (stops db)) = joined /\
    map fst joined = added /\
    map (fun r => Stops.name (snd r)) joined = names.
Proof.
  induction added as [|ps added IH]; intros names ND E.
  - destruct names; [|discriminate]. exists []. auto.
  - destruct names as [|n names]; [discriminate|].
    simpl in E. injection E as En E.
    destruct (IH names ND E) as (joined & J & J1 & J2).
    unfold Schema.stop_name_of in En.
    destruct (find _ (rows (stops db))) as [st|] eqn:F; [|discriminate].
    simpl in En. injection En as En.
    exists ((ps, st) :: joined). unfold Db.join_on in *. simpl.
    rewrite (filter_unique Stops.stop_id _ _ st ND F). simpl.
    rewrite J, J1, J2, En. auto.
Qed.

Lemma map_snd_enumerate {A : Type} (items : list A) : forall start,
  map snd (Db.enumerate start items) = items.
Proof.
  induction items as [|x items IH]; intros start; simpl;
    [reflexivity|now rewrite IH].
Qed.

Lemma filter_all {A : Type} (p : A -> bool) (l : list A) :
  Forall (fun a => p a = true) l -> filter p l = l.
Proof.
  induction 1 as [|x l Hx _ IH]; simpl; [reflexivity|].
  now rewrite Hx, IH.
Qed.

Lemma filter_none {A : Type} (p : A -> bool) (l : list A) :
  (forall a, In a l -> p a = false) -> filter p l = [].
Proof.
  induction l as [|x l IH]; simpl; intros H; [reflexivity|].
  rewrite (H x (or_introl eq_refl)). apply IH. intros; apply H; now right.
Qed.

Lemma find_by_name_absent {A : Type} (name : A -> string) (l : list A) n :
  ~ In n (map name l) -> find (fun a => (name a =? n)%string) l = None.
Proof.
  intros H. apply find_none_iff. intros a Ha. apply String.eqb_neq.
  intros E. apply H. rewrite <- E. now apply in_map.
Qed.

Lemma find_by_name_present {A : Type} (name : A -> string) (l : list A) n :
  In n (map name l) ->
  exists a, find (fun a => (name a =? n)%string) l = Some a /\ name a = n.
Proof.
  intros H. apply in_map_iff in H. destruct H as (a & E & Ha).
  destruct (find_in (fun a => (name a =? n)%string) l a Ha)
    as (b & F & _ & Eb); [now apply String.eqb_eq|].
  exists b. split; [exact F|now apply String.eqb_eq].
Qed.

(** Creating a path under a free name with at least one stop succeeds; the
    new path is the last row of [paths], and the stop query on it returns
    the given names in the given order. *)
Lemma create_path_created db path_name stop_names :
  Schema.keys db -> Schema.references db -> stop_names <> [] ->
  ~ In path_name (map Paths.path_name (rows (paths db))) ->
  exists db' pid,
    Db.create_path path_name stop_names db =
      ((Py.fstr ["Created path '"; path_name; "' with stops: "] ++
        Py.join Db.arrow stop_names)%string, db') /\
    rows (paths db') = rows (paths db) ++ [Paths.mk pid path_name] /\
    Db.select_stop_names pid db' = stop_names /\
    Schema.same_operations db db'.
Proof.
  intros K R Hne Hfree.
  unfold Db.create_path.
  destruct stop_names as [|s0 rest] eqn:Es; [contradiction|].
  rewrite <- Es. clear Hne.
  unfold Db.insert_path.
  rewrite existsb_find, (find_by_name_absent _ _ _ Hfree).
  set (pid := Db.next_rowid Paths.path_id (paths db)).
  set (db1 := Db.set_paths db _).
  cbn [Db.bind].
  destruct (insert_stops_of_path_spec (Db.enumerate 1 stop_names) pid db1
              (Schema.stops_pk db K))
    as (db' & added & extra & Run & Eps & Est & ND & Hp & Hs & Hn & Ep & Eo).
  rewrite Run. exists db', pid.
  split; [reflexivity|]. split; [now rewrite Ep|]. split; [|exact Eo].
  unfold Db.select_stop_names. rewrite Eps, filter_app.
  rewrite (filter_none _ (rows (path_stops db1))).
  2:{ intros ps Hps. apply Z.eqb_neq. intros E.
      apply (next_rowid_fresh Paths.path_id (paths db)).
      fold pid. rewrite <- E.
      exact (Schema.path_stops_path db R ps Hps). }
  rewrite (filter_all _ added).
  2:{ eapply Forall_impl; [|exact Hp]. intros ps E. now apply Z.eqb_eq. }
  simpl app.
  assert (Hn' : map (Schema.stop_name_of db') added = map Some stop_names).
  { rewrite Hn.
    transitivity (map Some (map snd (Db.enumerate 1 stop_names))).
    - now rewrite map_map.
    - now rewrite map_snd_enumerate. }
  destruct (join_resolved db' added stop_names ND Hn') as (joined & J & J1 & J2).
  rewrite J.
  rewrite (order_by_enumerated (fun r => PathStops.seq (fst r)) joined
             1 stop_names).
  - exact J2.
  - rewrite <- Hs, <- J1, map_map. reflexivity.
Qed.

Lemma last_cons_default {A : Type} (x : A) (l : list A) (d d' : A) :
  last (x :: l) d = last (x :: l) d'.
Proof.
  revert x. induction l as [|y l IH]; intros x; [reflexivity|].
  change (last (x :: y :: l) d) with (last (y :: l) d).
  change (last (x :: y :: l) d') with (last (y :: l) d').
  apply IH.
Qed.

(** C7.  Creating a path under a free name with a non-empty ordered list
    of stops succeeds; [list_stops_for_path] on the result then returns
    the heading followed by exactly those names, in that order, joined by
    the arrow; and a [create_route] on that path either reports that the
    derived display name is taken, or adds one route whose start point is
    the first and whose end point is the last name of the list. *)
Theorem stop_order_round_trips db path_name stop_names :
  Schema.keys db -> Schema.references db -> stop_names <> [] ->
  ~ In path_name (map Paths.path_name (rows (paths db))) ->
  let created := Db.create_path path_name stop_names db in
  fst created =
    (Py.fstr ["Created path '"; path_name; "' with stops: "] ++
     Py.join Db.arrow stop_names)%string /\
  Db.list_stops_for_path path_name (snd created) =
    (Py.fstr ["Stops on "; path_name; ": "] ++
     Py.join Db.arrow stop_names)%string /\
  forall shift_time direction,
    let out := Db.create_route path_name shift_time direction (snd created) in
    let display := Py.fstr [path_name; " - "; shift_time] in
    (In display (map Routes.route_display_name (rows (routes db))) /\
     out = (Py.fstr ["Route '"; display; "' already exists."], snd created))
    \/
    (~ In display (map Routes.route_display_name (rows (routes db))) /\
     fst out =
       Py.fstr ["Created route '"; display; "' ("; direction; ") from ";
                hd "" stop_names; " to "; last stop_names ""; "."] /\
     exists r,
       rows (routes (snd out)) = rows (routes db) ++ [r] /\
       Routes.route_display_name r = display /\
       Routes.start_point r = hd "" stop_names /\
       Routes.end_point r = last stop_names "").
Proof.
  intros K R Hne Hfree.
  destruct (create_path_created db path_name stop_names K R Hne Hfree)
    as (db' & pid & C & Ep & Sel & Eo).
  cbv zeta. rewrite C. cbn [fst snd].
  split; [reflexivity|].
  assert (Look : Db.fetchone
                   (Db.select_where
                      (fun p => (Paths.path_name p =? path_name)%string)
                      (paths db')) = Some (Paths.mk pid path_name)).
  { unfold Db.select_where. rewrite fetchone_filter, Ep.
    rewrite find_app_none by now apply find_by_name_absent.
    simpl. now rewrite String.eqb_refl. }
  destruct stop_names as [|first rest]; [contradiction|].
  split.
  - unfold Db.list_stops_for_path. rewrite Look. cbn [Paths.path_id].
    rewrite Sel. reflexivity.
  - intros shift_time direction.
    unfold Db.create_route. rewrite Look. cbn [Paths.path_id].
    rewrite Sel.
    unfold Db.insert_route.
    destruct Eo as (Er & _). rewrite Er.
    replace (negb (("active" =? "active")%string
                   || ("active" =? "deactivated")%string)) with false
      by reflexivity.
    rewrite orb_false_r, existsb_find.
    set (display := Py.fstr [path_name; " - "; shift_time]).
    destruct (find _ (rows (routes db))) as [r0|] eqn:F.
    + left. split; [|reflexivity].
      destruct (find_some _ _ F) as [Hin E0]. apply String.eqb_eq in E0.
      rewrite <- E0. now apply in_map.
    + right. split.
      * intros Hin.
        destruct (find_by_name_present Routes.route_display_name _ _ Hin)
          as (a & Fa & _). congruence.
      * assert (L : last rest first = last (first :: rest) "").
        { clear. destruct rest as [|y l]; [reflexivity|].
          exact (last_cons_default y l first ""). }
        rewrite L. cbn [fst snd hd]. split; [reflexivity|].
        eexists. split; [reflexivity|]. cbn. auto.
Qed.

(** A new path over one known and two new stops on the demo data. *)
Lemma stop_order_round_trips_witness :
  let created :=
    Db.create_path "Path-9" ["Airport"; "Temple"; "Harbour"] seed_db in
  Db.list_stops_for_path "Path-9" (snd created) =
    "Stops on Path-9: Airport → Temple → Harbour" /\
  fst (Db.create_route "Path-9" "07:15" "IN" (snd created)) =
    "Created route 'Path-9 - 07:15' (IN) from Airport to Harbour.".
Proof.
  destruct (stop_order_round_trips seed_db "Path-9"
              ["Airport"; "Temple"; "Harbour"] seed_keys seed_references)
    as (_ & L & Rt).
  - discriminate.
  - simpl. intuition discriminate.
  - cbv zeta. split; [exact L|].
    destruct (Rt "07:15" "IN") as [[Hin _]|[_ [E _]]].
    + simpl in Hin. exfalso. intuition discriminate.
    + exact E.
Defined.

(* ================================================================== *)
(** * Creating the same entity twice *)
(* ================================================================== *)

Lemma count_named_present {A : Type} (name : A -> string) n (t : Table A) :
  NoDup (map name (rows t)) -> In n (map name (rows t)) ->
  Schema.count_named name n t = 1%nat.
Proof.
  unfold Schema.count_named.
  induction (rows t) as [|x l IH]; simpl; intros ND Hin; [contradiction|].
  inversion ND as [|? ? Hnot ND']; subst.
  destruct (name x =? n)%string eqn:E.
  - apply String.eqb_eq in E. subst n. simpl.
    rewrite filter_none; [reflexivity|].
    intros a Ha. apply String.eqb_neq. intros Ea. apply Hnot.
    rewrite <- Ea. now apply in_map.
  - apply String.eqb_neq in E. destruct Hin as [Hin|Hin]; [contradiction|].
    now apply IH.
Qed.

Lemma count_named_appended {A : Type} (name : A -> string) n (l : list A)
    (x : A) (seq' : Z) :
  ~ In n (map name l) -> name x = n ->
  Schema.count_named name n (mkTable (l ++ [x]) seq') = 1%nat.
Proof.
  intros Hnot E. unfold Schema.count_named. simpl.
  rewrite filter_app, filter_none.
  - simpl. apply String.eqb_eq in E. now rewrite E.
  - intros a Ha. apply String.eqb_neq. intros Ea. apply Hnot.
    rewrite <- Ea. now apply in_map.
Qed.

Lemma existsb_name {A : Type} (name : A -> string) n (l : list A) :
  existsb (fun a => (name a =? n)%string) l = true <-> In n (map name l).
Proof.
  rewrite existsb_exists, in_map_iff. split.
  - intros (a & Ha & E). apply String.eqb_eq in E. eauto.
  - intros (a & E & Ha). exists a. split; [exact Ha|now apply String.eqb_eq].
Qed.

Lemma name_dec {A : Type} (name : A -> string) n (l : list A) :
  {In n (map name l)} + {~ In n (map name l)}.
Proof. apply in_dec, string_dec. Qed.

(** [create_stop]: afterwards exactly one stop carries the name, and a
    further call is answered with "already exists" and changes nothing. *)
Lemma create_stop_twice db name lat lon lat' lon' :
  Schema.keys db ->
  let db1 := snd (Db.create_stop name lat lon db) in
  let out2 := Db.create_stop name lat' lon' db1 in
  fst out2 = Py.fstr ["Stop '"; name; "' already exists."] /\
  snd out2 = db1 /\
  Schema.count_named Stops.name name (stops db1) = 1%nat.
Proof.
  intros K. cbv zeta.
  assert (Again : forall d, In name (map Stops.name (rows (stops d))) ->
            Db.create_stop name lat' lon' d
            = (Py.fstr ["Stop '"; name; "' already exists."], d)).
  { intros d H. unfold Db.create_stop, Db.insert_stop.
    now rewrite (proj2 (existsb_name Stops.name name _) H). }
  destruct (name_dec Stops.name name (rows (stops db))) as [Hin|Hnot].
  - assert (E : Db.create_stop name lat lon db
                = (Py.fstr ["Stop '"; name; "' already exists."], db)).
    { unfold Db.create_stop, Db.insert_stop.
      now rewrite (proj2 (existsb_name Stops.name name _) Hin). }
    rewrite E. cbn [snd]. rewrite (Again db Hin).
    repeat split. apply count_named_present; auto.
    exact (Schema.stops_name db K).
  - assert (E : Db.create_stop name lat lon db
                = (Py.fstr ["Created new stop '"; name; "'."],
                   Db.set_stops db
                     (Db.append_row (stops db)
                        (Db.next_rowid Stops.stop_id (stops db))
                        (Stops.mk (Db.next_rowid Stops.stop_id (stops db))
                           name lat lon)))).
    { unfold Db.create_stop, Db.insert_stop.
      now rewrite existsb_find, (find_by_name_absent _ _ _ Hnot). }
    rewrite E. cbn [snd]. rewrite Again.
    + repeat split. unfold Db.set_stops, Db.append_row. cbn [stops].
      now apply count_named_appended.
    + simpl. rewrite map_app. apply in_or_app. right. now left.
Qed.

(** [create_path] with a non-empty stop list, whatever the name. *)
Lemma create_path_outcome db path_name stop_names :
  Schema.keys db -> stop_names <> [] ->
  (In path_name (map Paths.path_name (rows (paths db))) /\
   Db.create_path path_name stop_names db =
     (Py.fstr ["Path '"; path_name; "' already exists."], db))
  \/
  (~ In path_name (map Paths.path_name (rows (paths db))) /\
   exists db' pid,
     Db.create_path path_name stop_names db =
       ((Py.fstr ["Created path '"; path_name; "' with stops: "] ++
         Py.join Db.arrow stop_names)%string, db') /\
     rows (paths db') = rows (paths db) ++ [Paths.mk pid path_name] /\
     NoDup (map Stops.stop_id (rows (stops db')))).
Proof.
  intros K Hne. unfold Db.create_path.
  destruct stop_names as [|s0 rest] eqn:Es; [contradiction|].
  rewrite <- Es. clear Hne. unfold Db.insert_path.
  destruct (name_dec Paths.path_name path_name (rows (paths db)))
    as [Hin|Hnot].
  - left. split; [exact Hin|].
    now rewrite (proj2 (existsb_name Paths.path_name path_name _) Hin).
  - right. split; [exact Hnot|].
    rewrite existsb_find, (find_by_name_absent _ _ _ Hnot).
    cbn [Db.bind].
    set (pid := Db.next_rowid Paths.path_id (paths db)).
    set (db1 := Db.set_paths db _).
    destruct (insert_stops_of_path_spec (Db.enumerate 1 stop_names) pid db1
                (Schema.stops_pk db K))
      as (db' & added & extra & Run & _ & _ & ND & _ & _ & _ & Ep & _).
    rewrite Run. exists db', pid. split; [reflexivity|].
    split; [now rewrite Ep|exact ND].
Qed.

Lemma create_path_twice db path_name stop_names stop_names' :
  Schema.keys db -> stop_names <> [] -> stop_names' <> [] ->
  let db1 := snd (Db.create_path path_name stop_names db) in
  let out2 := Db.create_path path_name stop_names' db1 in
  fst out2 = Py.fstr ["Path '"; path_name; "' already exists."] /\
  snd out2 = db1 /\
  Schema.count_named Paths.path_name path_name (paths db1) = 1%nat.
Proof.
  intros K Hne Hne'. cbv zeta.
  assert (Again : forall d, In path_name (map Paths.path_name (rows (paths d))) ->
            Db.create_path path_name stop_names' d
            = (Py.fstr ["Path '"; path_name; "' already exists."], d)).
  { intros d H. unfold Db.create_path, Db.insert_path.
    destruct stop_names'; [contradiction|].
    now rewrite (proj2 (existsb_name Paths.path_name path_name _) H). }
  destruct (create_path_outcome db path_name stop_names K Hne)
    as [[Hin E]|[Hnot (db' & pid & E & Ep & _)]]; rewrite E; cbn [snd].
  - rewrite (Again db Hin). repeat split.
    apply count_named_present; auto. exact (Schema.paths_name db K).
  - rewrite Again.
    + repeat split. unfold Schema.count_named. rewrite Ep.
      now apply (count_named_appended Paths.path_name path_name _ _ 0).
    + rewrite Ep, map_app. apply in_or_app. right. now left.
Qed.

(** [create_route] on paths that exist and have stops, for two requests
    with the same derived display name. *)
Lemma create_route_twice db path_name shift_time direction
    path_name' shift_time' direction' :
  Schema.keys db ->
  Schema.path_with_stops db path_name ->
  Schema.path_with_stops db path_name' ->
  Py.fstr [path_name'; " - "; shift_time'] =
  Py.fstr [path_name; " - "; shift_time] ->
  let display := Py.fstr [path_name; " - "; shift_time] in
  let db1 := snd (Db.create_route path_name shift_time direction db) in
  let out2 := Db.create_route path_name' shift_time' direction' db1 in
  fst out2 = Py.fstr ["Route '"; display; "' already exists."] /\
  snd out2 = db1 /\
  Schema.count_named Routes.route_display_name display (routes db1) = 1%nat.
Proof.
  intros K (p & Lp & Sp) (p' & Lp' & Sp') Ed. cbv zeta.
  set (display := Py.fstr [path_name; " - "; shift_time]) in *.
  assert (Again : forall d,
            paths d = paths db -> path_stops d = path_stops db ->
            stops d = stops db ->
            In display (map Routes.route_display_name (rows (routes d))) ->
            Db.create_route path_name' shift_time' direction' d
            = (Py.fstr ["Route '"; display; "' already exists."], d)).
  { intros d E1 E2 E3 H. unfold Db.create_route. rewrite E1, Lp'.
    replace (Db.select_stop_names (Paths.path_id p') d)
      with (Db.select_stop_names (Paths.path_id p') db)
      by (unfold Db.select_stop_names; now rewrite E2, E3).
    destruct (Db.select_stop_names (Paths.path_id p') db) as [|f l];
      [contradiction|].
    unfold Db.insert_route. rewrite Ed.
    now rewrite (proj2 (existsb_name Routes.route_display_name display _) H). }
  assert (First :
            (In display (map Routes.route_display_name (rows (routes db))) /\
             snd (Db.create_route path_name shift_time direction db) = db)
            \/
            (~ In display (map Routes.route_display_name (rows (routes db))) /\
             exists r,
               Routes.route_display_name r = display /\
               snd (Db.create_route path_name shift_time direction db)
               = Db.set_routes db
                   (Db.append_row (routes db)
                      (Db.next_rowid Routes.route_id (routes db)) r))).
  { unfold Db.create_route. rewrite Lp.
    destruct (Db.select_stop_names (Paths.path_id p) db) as [|f l];
      [contradiction|].
    unfold Db.insert_route. fold display.
    replace (negb (("active" =? "active")%string
                   || ("active" =? "deactivated")%string)) with false
      by reflexivity.
    rewrite orb_false_r.
    destruct (name_dec Routes.route_display_name display (rows (routes db)))
      as [Hin|Hnot].
    - left. split; [exact Hin|].
      now rewrite (proj2 (existsb_name Routes.route_display_name display _)
                     Hin).
    - right. split; [exact Hnot|].
      rewrite existsb_find, (find_by_name_absent _ _ _ Hnot).
      eexists. split; [|reflexivity]. reflexivity. }
  destruct First as [[Hin E]|[Hnot (r & Er & E)]]; rewrite E.
  - rewrite (Again db eq_refl eq_refl eq_refl Hin).
    repeat split. apply count_named_present; auto.
    exact (Schema.routes_name db K).
  - rewrite Again; try reflexivity.
    + repeat split. unfold Db.set_routes, Db.append_row. cbn [routes].
      now apply count_named_appended.
    + simpl. rewrite map_app. apply in_or_app. right. left. exact Er.
Qed.

(** C5 (as amended).  For a database that satisfies its key constraints:
    a second [create_stop] with the same name; a second [create_path] with
    the same name, both calls with a non-empty stop list; a second
    [create_route] with the same derived display name, both calls on a
    path that exists and has stops: each is answered with "already exists",
    changes nothing, and exactly one row carries the name. *)
Theorem creation_is_idempotent db :
  Schema.keys db ->
  (forall name lat lon lat' lon',
     let db1 := snd (Db.create_stop name lat lon db) in
     let out2 := Db.create_stop name lat' lon' db1 in
     fst out2 = Py.fstr ["Stop '"; name; "' already exists."] /\
     snd out2 = db1 /\
     Schema.count_named Stops.name name (stops db1) = 1%nat) /\
  (forall path_name stop_names stop_names',
     stop_names <> [] -> stop_names' <> [] ->
     let db1 := snd (Db.create_path path_name stop_names db) in
     let out2 := Db.create_path path_name stop_names' db1 in
     fst out2 = Py.fstr ["Path '"; path_name; "' already exists."] /\
     snd out2 = db1 /\
     Schema.count_named Paths.path_name path_name (paths db1) = 1%nat) /\
  (forall path_name shift_time direction path_name' shift_time' direction',
     Schema.path_with_stops db path_name ->
     Schema.path_with_stops db path_name' ->
     Py.fstr [path_name'; " - "; shift_time'] =
     Py.fstr [path_name; " - "; shift_time] ->
     let display := Py.fstr [path_name; " - "; shift_time] in
     let db1 := snd (Db.create_route path_name shift_time direction db) in
     let out2 := Db.create_route path_name' shift_time' direction' db1 in
     fst out2 = Py.fstr ["Route '"; display; "' already exists."] /\
     snd out2 = db1 /\
     Schema.count_named Routes.route_display_name display (routes db1)
       = 1%nat).
Proof.
  intros K. split; [|split].
  - intros. now apply create_stop_twice.
  - intros. now apply create_path_twice.
  - intros. now apply create_route_twice.
Qed.

(** Twice the same stop, path and route on the demo data. *)
Lemma creation_is_idempotent_witness :
  fst (Db.create_stop "Airport" None None
         (snd (Db.create_stop "Airport" None None seed_db)))
    = "Stop 'Airport' already exists." /\
  fst (Db.create_path "Path-9" ["Temple"]
         (snd (Db.create_path "Path-9" ["Airport"; "Temple"] seed_db)))
    = "Path 'Path-9' already exists." /\
  fst (Db.create_route "Path-1" "10:00" "OUT"
         (snd (Db.create_route "Path-1" "10:00" "IN" seed_db)))
    = "Route 'Path-1 - 10:00' already exists.".
Proof.
  destruct (creation_is_idempotent seed_db seed_keys) as (S & P & Rt).
  split; [|split].
  - exact (proj1 (S "Airport" None None None None)).
  - refine (proj1 (P "Path-9" ["Airport"; "Temple"] ["Temple"] _ _));
      discriminate.
  - refine (proj1 (Rt "Path-1" "10:00" "IN" "Path-1" "10:00" "OUT" _ _ eq_refl));
      (eexists; split; [reflexivity|discriminate]).
Defined.

(** C5 as stated fails on requests the operations refuse: a repeated
    [create_path] with an empty stop list and a repeated [create_route] on
    a path that does not exist are not answered with "already exists", and
    no row carries the name afterwards. *)
Lemma creation_refused_twice :
  (let db1 := snd (Db.create_path "Path-9" [] seed_db) in
   let out2 := Db.create_path "Path-9" [] db1 in
   fst out2 = "Need at least one stop to create a path." /\
   fst out2 <> "Path 'Path-9' already exists." /\
   Schema.count_named Paths.path_name "Path-9" (paths (snd out2)) = 0%nat) /\
  (let db1 := snd (Db.create_route "Path-9" "07:15" "IN" seed_db) in
   let out2 := Db.create_route "Path-9" "07:15" "IN" db1 in
   fst out2 = "Path 'Path-9' not found, cannot create route." /\
   fst out2 <> "Route 'Path-9 - 07:15' already exists." /\
   Schema.count_named Routes.route_display_name "Path-9 - 07:15"
     (routes (snd out2)) = 0%nat).
Proof.
  split; cbv zeta; (split; [reflexivity|split; [discriminate|reflexivity]]).
Qed.

(* ================================================================== *)
(** * The generic query gate *)
(* ================================================================== *)

Lemma lower_app (a b : string) :
  Py.lower (a ++ b) = (Py.lower a ++ Py.lower b)%string.
Proof. induction a as [|c a IH]; simpl; [reflexivity|now rewrite IH]. Qed.

Lemma prefix_app (n h b : string) :
  String.prefix n h = true -> String.prefix n (h ++ b) = true.
Proof.
  revert h. induction n as [|c n IH]; intros h H;
    [destruct (h ++ b)%string; reflexivity|].
  destruct h as [|d h]; simpl in *; [discriminate|].
  destruct (ascii_dec c d); [now apply IH|discriminate].
Qed.

Lemma contains_app_l (n a h : string) :
  Py.contains n h = true -> Py.contains n (a ++ h) = true.
Proof.
  intros H. induction a as [|c a IH]; [exact H|].
  simpl. rewrite IH. apply orb_true_r.
Qed.

Lemma contains_app_r (n h b : string) :
  Py.contains n h = true -> Py.contains n (h ++ b) = true.
Proof.
  induction h as [|c h IH]; intros H.
  - simpl in H. rewrite orb_false_r in H.
    destruct n; [|discriminate]. destruct b; reflexivity.
  - simpl in H. apply orb_true_iff in H. destruct H as [H|H].
    + change (String c h ++ b)%string with (String c (h ++ b)).
      pose proof (prefix_app n (String c h) b H) as P.
      simpl in P |- *. now rewrite P.
    + simpl. rewrite (IH H). apply orb_true_r.
Qed.

Lemma contains_middle (n a h b : string) :
  Py.contains n h = true -> Py.contains n (a ++ h ++ b) = true.
Proof. intros H. now apply contains_app_l, contains_app_r. Qed.

(** Whitespace is only stripped off the ends: a phrase that neither
    starts nor ends in whitespace survives the stripping of any statement
    that contains it. *)
Lemma lstrip_keeps (pre w : string) :
  Py.lstrip w = w -> exists pre', Py.lstrip (pre ++ w) = (pre' ++ w)%string.
Proof.
  intros H. induction pre as [|c pre IH].
  - exists ""%string. exact H.
  - simpl. destruct (Py.isspace c); [exact IH|].
    now exists (String c pre).
Qed.

Lemma lstrip_app_fixed (w post : string) :
  w <> ""%string -> Py.lstrip w = w -> Py.lstrip (w ++ post) = (w ++ post)%string.
Proof.
  destruct w as [|c w]; [contradiction|]. intros _ H. simpl in *.
  destruct (Py.isspace c); [|reflexivity].
  exfalso. assert (L : forall s, (String.length (Py.lstrip s)
                                  <= String.length s)%nat).
  { induction s as [|d s IHs]; simpl; [lia|].
    destruct (Py.isspace d); simpl; lia. }
  pose proof (L w) as Lw. rewrite H in Lw. simpl in Lw. lia.
Qed.

Lemma rstrip_app (a b : string) :
  Py.rstrip (a ++ b) =
  match Py.rstrip b with
  | EmptyString => Py.rstrip a
  | rb => (a ++ rb)%string
  end.
Proof.
  induction a as [|c a IH].
  - simpl. destruct (Py.rstrip b); reflexivity.
  - change (String c a ++ b)%string with (String c (a ++ b)).
    cbn [Py.rstrip]. rewrite IH.
    destruct (Py.rstrip b) as [|d rb]; [reflexivity|].
    destruct a; reflexivity.
Qed.

Lemma strip_keeps (pre w post : string) :
  w <> ""%string -> Py.lstrip w = w -> Py.rstrip w = w ->
  exists pre' post',
    Py.strip (pre ++ w ++ post) = (pre' ++ w ++ post')%string.
Proof.
  intros Hne Hl Hr. unfold Py.strip.
  destruct (lstrip_keeps pre (w ++ post) (lstrip_app_fixed w post Hne Hl))
    as (pre' & E).
  rewrite E. exists pre', (Py.rstrip post).
  assert (Ew : Py.rstrip (w ++ post) = (w ++ Py.rstrip post)%string).
  { rewrite rstrip_app. destruct (Py.rstrip post); [|reflexivity].
    now rewrite Hr, append_nil_r. }
  rewrite rstrip_app, Ew.
  destruct w as [|c w]; [contradiction|]. reflexivity.
Qed.

Section GateFacts.

Context {Database Value : Type}.
Variable sqlite_execute : string -> Database -> @Db.executed Database Value.
Variable str_value : Value -> string.

Local Notation "'run'" :=
  (Db.dynamic_run_sql_query sqlite_execute str_value).

Lemma blocked_when_banned query mode db :
  (exists b, In b Db.banned /\
     Py.contains b (Py.lower (Py.strip query)) = true) ->
  run query mode db = Db.mkOutcome "Unsafe SQL command blocked." db [].
Proof.
  intros (b & Hb & Hc). unfold Db.dynamic_run_sql_query.
  replace (existsb _ Db.banned) with true; [reflexivity|].
  symmetry. apply existsb_exists. eauto.
Qed.

Lemma blocked_when_phrase pre phrase post mode db :
  phrase <> ""%string -> Py.lstrip phrase = phrase ->
  Py.rstrip phrase = phrase ->
  (exists b, In b Db.banned /\ Py.contains b (Py.lower phrase) = true) ->
  run (pre ++ phrase ++ post) mode db
  = Db.mkOutcome "Unsafe SQL command blocked." db [].
Proof.
  intros Hne Hl Hr (b & Hb & Hc). apply blocked_when_banned.
  exists b. split; [exact Hb|].
  destruct (strip_keeps pre phrase post Hne Hl Hr) as (pre' & post' & E).
  rewrite E, !lower_app. now apply contains_middle.
Qed.

Lemma read_mode_rejects query db :
  Py.startswith (Py.lower (Py.strip query)) "select" = false ->
  Db.executed_statements (run query "read" db) = [] /\
  Db.database (run query "read" db) = db /\
  (Db.message (run query "read" db) = "Unsafe SQL command blocked." \/
   Db.message (run query "read" db)
   = "Only SELECT queries allowed in read mode.").
Proof.
  intros H. unfold Db.dynamic_run_sql_query.
  destruct (existsb _ Db.banned); [simpl; auto|].
  rewrite H. simpl. auto.
Qed.

(** What the gate does guarantee.  (1) A statement whose trimmed,
    lower-cased text contains an entry of the denylist is answered
    "Unsafe SQL command blocked." in every mode, without reaching
    [cur.execute] and with the database as it was; in particular so is
    every statement that contains a phrase, neither starting nor ending in
    white space, which in lower case contains an entry - "drop table
    stops" for one.  (2) In read mode a statement that does not start with
    "select" never reaches [cur.execute] and leaves the database as it
    was; "update vehicles set capacity=0" is answered "Only SELECT queries
    allowed in read mode.".  (3) In write mode that statement is handed to
    [cur.execute]; when the engine completes, its changes are committed
    and the answer reports [cur.rowcount] rows affected. *)
Theorem generic_query_gate :
  (forall query mode db,
     (exists b, In b Db.banned /\
        Py.contains b (Py.lower (Py.strip query)) = true) ->
     run query mode db = Db.mkOutcome "Unsafe SQL command blocked." db []) /\
  (forall pre phrase post mode db,
     phrase <> ""%string -> Py.lstrip phrase = phrase ->
     Py.rstrip phrase = phrase ->
     (exists b, In b Db.banned /\ Py.contains b (Py.lower phrase) = true) ->
     run (pre ++ phrase ++ post) mode db
     = Db.mkOutcome "Unsafe SQL command blocked." db []) /\
  (forall pre post mode db,
     run (pre ++ "drop table stops" ++ post) mode db
     = Db.mkOutcome "Unsafe SQL command blocked." db []) /\
  (forall query db,
     Py.startswith (Py.lower (Py.strip query)) "select" = false ->
     Db.executed_statements (run query "read" db) = [] /\
     Db.database (run query "read" db) = db /\
     (Db.message (run query "read" db) = "Unsafe SQL command blocked." \/
      Db.message (run query "read" db)
      = "Only SELECT queries allowed in read mode.")) /\
  (forall db,
     run "update vehicles set capacity=0" "read" db
     = Db.mkOutcome "Only SELECT queries allowed in read mode." db []) /\
  (forall db,
     Db.executed_statements (run "update vehicles set capacity=0" "write" db)
     = ["update vehicles set capacity=0"] /\
     forall cur db',
       sqlite_execute "update vehicles set capacity=0" db
       = Db.Completed cur db' ->
       run "update vehicles set capacity=0" "write" db
       = Db.mkOutcome
           (Py.fstr ["Query executed successfully (";
                     Py.str_int (Db.rowcount cur); " rows affected)."])
           db' ["update vehicles set capacity=0"]).
Proof.
  split; [exact blocked_when_banned|].
  split; [exact blocked_when_phrase|].
  split.
  { intros pre post mode db. apply blocked_when_phrase; try reflexivity.
    - discriminate.
    - exists "drop "%string. split; [simpl; tauto|reflexivity]. }
  split; [exact read_mode_rejects|].
  split; [reflexivity|].
  intros db. unfold Db.dynamic_run_sql_query. cbn -[Py.fstr Py.str_int].
  destruct (sqlite_execute _ db) as [cur db'|e] eqn:E.
  - split; [reflexivity|]. intros cur0 db0 E0. now injection E0 as -> ->.
  - split; [reflexivity|]. intros cur0 db0 E0. discriminate.
Qed.

End GateFacts.

(** The denylist example against the stand-in engine on the demo data:
    blocked, refused in read mode, executed with three rows affected in
    write mode. *)
Lemma generic_query_gate_on_demo_data :
  Db.dynamic_run_sql_query capacity_engine (fun s => s)
    "  DROP TABLE stops; " "write" seed_db
  = Db.mkOutcome "Unsafe SQL command blocked." seed_db [] /\
  Db.dynamic_run_sql_query capacity_engine (fun s => s)
    "update vehicles set capacity=0" "read" seed_db
  = Db.mkOutcome "Only SELECT queries allowed in read mode." seed_db [] /\
  Db.message
    (Db.dynamic_run_sql_query capacity_engine (fun s => s)
       "update vehicles set capacity=0" "write" seed_db)
  = "Query executed successfully (3 rows affected).".
Proof.
  destruct (generic_query_gate capacity_engine (fun s => s))
    as (A & _ & _ & _ & B & C).
  split; [|split].
  - apply A. exists "drop "%string. split; [simpl; tauto|reflexivity].
  - apply B.
  - destruct (C seed_db) as (_ & Run).
    rewrite (Run _ _ eq_refl). reflexivity.
Qed.

(** C4.  The denylist does not reject every statement that contains a
    denylisted keyword: in write mode the statement DROP, a tab,
    TABLE stops - which contains the keyword "drop" - is not answered
    "Unsafe SQL command blocked." but handed to [cur.execute], and what the
    engine then does to the database is committed. *)
Theorem drop_followed_by_tab_is_executed
    {Database Value : Type}
    (sqlite_execute : string -> Database -> @Db.executed Database Value)
    (str_value : Value -> string) (db : Database) :
  let query := ("drop" ++ String "009"%char "table stops")%string in
  let out := Db.dynamic_run_sql_query sqlite_execute str_value query "write" db in
  Py.contains "drop" (Py.lower (Py.strip query)) = true /\
  Db.executed_statements out = [query] /\
  Db.message out <> "Unsafe SQL command blocked." /\
  forall cur db',
    sqlite_execute query db = Db.Completed cur db' ->
    out = Db.mkOutcome
            (Py.fstr ["Query executed successfully (";
                      Py.str_int (Db.rowcount cur); " rows affected)."])
            db' [query].
Proof.
  cbv zeta. split; [reflexivity|].
  unfold Db.dynamic_run_sql_query. cbn -[Py.fstr Py.str_int].
  destruct (sqlite_execute _ db) as [cur db'|e].
  - split; [reflexivity|]. split; [discriminate|].
    intros cur0 db0 E0. now injection E0 as -> ->.
  - split; [reflexivity|]. split; [discriminate|].
    intros cur0 db0 E0. discriminate.
Qed.

(* ================================================================== *)
(** * The decision loop *)
(* ================================================================== *)

Lemma last_snoc {A : Type} (l : list A) (x d : A) : last (l ++ [x]) d = x.
Proof.
  induction l as [|y l IH]; [reflexivity|].
  simpl. destruct (l ++ [x]) eqn:E; [|exact IH].
  destruct l; discriminate.
Qed.

Lemma last_some_snoc {A : Type} (l : list A) (x : A) :
  last (map Some (l ++ [x])) None = Some x.
Proof. rewrite map_app. apply last_snoc. Qed.

(** The dicts built from a chat history all convert to messages. *)
Lemma history_converts {Args : Type} history img : forall i n,
  exists ms : list (Messages.Message Args),
    Messages.convert_to_messages (App.history_loop i n history img) = Some ms.
Proof.
  induction history as [|turn rest IH]; intros i n; simpl.
  - now exists [].
  - destruct (IH (S i) n) as (ms & E). rewrite E.
    unfold App.graph_message.
    destruct (App.role turn =? "user")%string;
      [destruct (_ && _)|]; simpl; eauto.
Qed.

Section DecisionLoop.

Context {Args World Reasoner : Type}.
Variable llm_invoke :
  Reasoner -> list (Messages.Message Args)
  -> (Messages.Content * list (Messages.ToolCall Args)) * Reasoner.
Variable invoke_tool : string -> Args -> World -> string * World.
Variable _get_db_schema : World -> string.
Variable str_blocks : list Messages.ContentPart -> string.

Local Notation "'graph'" :=
  (MoviAgent.build_movi_graph llm_invoke invoke_tool _get_db_schema).

(** A reasoning capability that asks for the single invocation [call] when
    in state [s0] and gives the final message [final], with no invocation,
    when in the state [s1] it is left in. *)
Variables (s0 s1 s2 : Reasoner) (c0 final : Messages.Content)
          (call : Messages.ToolCall Args).
Hypothesis first_step :
  forall msgs, llm_invoke s0 msgs = ((c0, [call]), s1).
Hypothesis second_step :
  forall msgs, llm_invoke s1 msgs = ((final, []), s2).

Lemma run_step (g : @MoviAgent.StateGraph Args World Reasoner) k n rest
    state env :
  MoviAgent.run g (S k) (n :: rest) state env =
  match MoviAgent.superstep g (n :: rest) state env with
  | None => MoviAgent.NodeError
  | Some (updates, next, env') =>
      MoviAgent.run g k next
        (MoviAgent.mkState
           (Messages.add_messages (MoviAgent.messages state) updates)
           (MoviAgent.current_page state)) env'
  end.
Proof. reflexivity. Qed.

(** Reason, first time: the invocation is requested, the tool node is
    triggered. *)
Lemma superstep_reason_first ms page w log :
  MoviAgent.superstep graph [MoviAgent.agent] (MoviAgent.mkState ms page)
    (MoviAgent.mkEnv w s0 log) =
  Some ([Messages.AIMessage c0 [call]], [MoviAgent.tools],
        MoviAgent.mkEnv w s1 log).
Proof.
  cbn [MoviAgent.superstep MoviAgent.node_fun MoviAgent.build_movi_graph].
  unfold MoviAgent._agent_node.
  cbn [MoviAgent.reasoner MoviAgent.world MoviAgent.dispatched].
  rewrite first_step.
  cbn [fst snd MoviAgent.conditional_edges MoviAgent.edges MoviAgent.route
       MoviAgent.build_movi_graph MoviAgent.messages MoviAgent.current_page].
  unfold MoviAgent.tools_condition, Messages.add_messages.
  cbn [MoviAgent.messages]. rewrite last_some_snoc. reflexivity.
Qed.

(** Act: the one invocation is dispatched, its result is tagged with the
    invocation's identifier, the agent node is triggered. *)
Lemma superstep_act ms page w r log :
  MoviAgent.superstep graph [MoviAgent.tools]
    (MoviAgent.mkState (ms ++ [Messages.AIMessage c0 [call]]) page)
    (MoviAgent.mkEnv w r log) =
  Some ([Messages.ToolMessage
           (fst (invoke_tool (Messages.name call) (Messages.args call) w))
           (Messages.id call)],
        [MoviAgent.agent],
        MoviAgent.mkEnv
          (snd (invoke_tool (Messages.name call) (Messages.args call) w))
          r (log ++ [call])).
Proof.
  cbn [MoviAgent.superstep MoviAgent.node_fun MoviAgent.build_movi_graph].
  unfold MoviAgent.tool_node. cbn [MoviAgent.messages].
  rewrite last_some_snoc.
  cbn [MoviAgent.run_calls]. unfold MoviAgent.run_one.
  cbn [MoviAgent.reasoner MoviAgent.world MoviAgent.dispatched].
  destruct (invoke_tool _ _ w) as [output w']. reflexivity.
Qed.

(** Reason, second time: a final message, nothing is triggered. *)
Lemma superstep_reason_second ms m page w log :
  MoviAgent.superstep graph [MoviAgent.agent]
    (MoviAgent.mkState (ms ++ [m]) page) (MoviAgent.mkEnv w s1 log) =
  Some ([Messages.AIMessage final []], [], MoviAgent.mkEnv w s2 log).
Proof.
  cbn [MoviAgent.superstep MoviAgent.node_fun MoviAgent.build_movi_graph].
  unfold MoviAgent._agent_node.
  cbn [MoviAgent.reasoner MoviAgent.world MoviAgent.dispatched].
  rewrite second_step.
  cbn [fst snd MoviAgent.conditional_edges MoviAgent.edges MoviAgent.route
       MoviAgent.build_movi_graph MoviAgent.messages MoviAgent.current_page].
  unfold MoviAgent.tools_condition, Messages.add_messages.
  cbn [MoviAgent.messages]. rewrite last_some_snoc. reflexivity.
Qed.

(** Three supersteps - reason, act, reason - and the run is over. *)
Lemma run_reason_act_reason k ms page w log :
  MoviAgent.run graph (S (S (S k))) [MoviAgent.agent]
    (MoviAgent.mkState ms page) (MoviAgent.mkEnv w s0 log) =
  MoviAgent.Finished
    (MoviAgent.mkState
       (ms ++ [ Messages.AIMessage c0 [call];
                Messages.ToolMessage
                  (fst (invoke_tool (Messages.name call) (Messages.args call) w))
                  (Messages.id call);
                Messages.AIMessage final [] ])
       page)
    (MoviAgent.mkEnv
       (snd (invoke_tool (Messages.name call) (Messages.args call) w))
       s2 (log ++ [call])).
Proof.
  rewrite run_step, superstep_reason_first.
  cbn [MoviAgent.messages MoviAgent.current_page]. unfold Messages.add_messages.
  rewrite run_step, superstep_act.
  cbn [MoviAgent.messages MoviAgent.current_page]. unfold Messages.add_messages.
  rewrite run_step, superstep_reason_second.
  cbn [MoviAgent.messages MoviAgent.current_page]. unfold Messages.add_messages.
  destruct k; cbn [MoviAgent.run]; rewrite <- !app_assoc; reflexivity.
Qed.

(** C3.  With a reasoning capability that requests exactly one
    invocation on its first Reason step and gives a final message without
    invocations on its second, a submitted input makes the loop run
    reason, act, reason and stop: the graph ends with the three new
    messages (request, tagged result, final message), exactly the one
    invocation has been dispatched, and the chat history has gained the
    user turn and, as new assistant turn, the text of the final message. *)
Theorem decision_loop_dispatches_once
    page user_input image_b64 chat_history w log :
  user_input <> ""%string ->
  let result := invoke_tool (Messages.name call) (Messages.args call) w in
  let env := MoviAgent.mkEnv w s0 log in
  let env' := MoviAgent.mkEnv (snd result) s2 (log ++ [call]) in
  let asked := chat_history ++ [App.mkTurn "user" user_input] in
  (exists ms,
     Messages.convert_to_messages
       (App._history_to_graph_messages asked image_b64) = Some ms /\
     MoviAgent.invoke graph MoviAgent.default_recursion_limit
       (App._history_to_graph_messages asked image_b64) page env
     = MoviAgent.Finished
         (MoviAgent.mkState
            (ms ++ [ Messages.AIMessage c0 [call];
                     Messages.ToolMessage (fst result) (Messages.id call);
                     Messages.AIMessage final [] ])
            (Some page))
         env') /\
  App.submit llm_invoke invoke_tool _get_db_schema str_blocks
    page user_input image_b64 chat_history env
  = Some (asked ++
          [App.mkTurn "assistant"
             match final with
             | Messages.Text s => s
             | Messages.Parts blocks => str_blocks blocks
             end],
          env').
Proof.
  intros Hne. cbv zeta.
  destruct (@history_converts Args
              (chat_history ++ [App.mkTurn "user" user_input]) image_b64 0
              (List.length (chat_history ++ [App.mkTurn "user" user_input])))
    as (ms & Conv).
  fold (App._history_to_graph_messages
          (chat_history ++ [App.mkTurn "user" user_input]) image_b64) in Conv.
  assert (Run :
    MoviAgent.invoke graph MoviAgent.default_recursion_limit
      (App._history_to_graph_messages
         (chat_history ++ [App.mkTurn "user" user_input]) image_b64)
      page (MoviAgent.mkEnv w s0 log)
    = MoviAgent.Finished
        (MoviAgent.mkState
           (ms ++ [ Messages.AIMessage c0 [call];
                    Messages.ToolMessage
                      (fst (invoke_tool (Messages.name call)
                              (Messages.args call) w))
                      (Messages.id call);
                    Messages.AIMessage final [] ])
           (Some page))
        (MoviAgent.mkEnv
           (snd (invoke_tool (Messages.name call) (Messages.args call) w))
           s2 (log ++ [call]))).
  { unfold MoviAgent.invoke. rewrite Conv.
    change MoviAgent.default_recursion_limit with (S (S (S 22))).
    cbn [MoviAgent.start_edges MoviAgent.build_movi_graph].
    apply run_reason_act_reason. }
  split; [exists ms; split; [exact Conv|exact Run]|].
  unfold App.submit.
  rewrite (proj2 (String.eqb_neq user_input "") Hne).
  unfold App.graph. rewrite Run.
  unfold App.last_content. cbn [MoviAgent.messages].
  replace (ms ++ [Messages.AIMessage c0 [call];
                  Messages.ToolMessage
                    (fst (invoke_tool (Messages.name call)
                            (Messages.args call) w))
                    (Messages.id call);
                  Messages.AIMessage final []])
    with ((ms ++ [Messages.AIMessage c0 [call];
                  Messages.ToolMessage
                    (fst (invoke_tool (Messages.name call)
                            (Messages.args call) w))
                    (Messages.id call)])
          ++ [Messages.AIMessage final []])
    by (rewrite <- app_assoc; reflexivity).
  rewrite last_some_snoc. reflexivity.
Qed.

End DecisionLoop.

(** The operator asks for the stops of 'Path-1'; the scripted capability
    first requests the listing operation, then answers. *)
Lemma decision_loop_dispatches_once_witness :
  let call :=
    Messages.mkToolCall "tool_list_stops_for_path" "Path-1" "call_1" in
  let script :=
    [ (Messages.Text "", [call]);
      (Messages.Text "Path-1 runs Gavipuram, Temple, Peenya.", []) ] in
  App.submit Stub.scripted_llm Stub.two_tools (fun _ => "") (fun _ => "")
    "manageRoute" "Which stops are on Path-1?" None []
    (MoviAgent.mkEnv seed_db script [])
  = Some ([ App.mkTurn "user" "Which stops are on Path-1?";
            App.mkTurn "assistant" "Path-1 runs Gavipuram, Temple, Peenya." ],
          MoviAgent.mkEnv seed_db [] [call]).
Proof.
  cbv zeta.
  refine (proj2
            (decision_loop_dispatches_once Stub.scripted_llm Stub.two_tools
               (fun _ => "") (fun _ => "")
               [ (Messages.Text "",
                  [Messages.mkToolCall "tool_list_stops_for_path" "Path-1"
                     "call_1"]);
                 (Messages.Text "Path-1 runs Gavipuram, Temple, Peenya.", []) ]
               [ (Messages.Text "Path-1 runs Gavipuram, Temple, Peenya.", []) ]
               []
               (Messages.Text "")
               (Messages.Text "Path-1 runs Gavipuram, Temple, Peenya.")
               (Messages.mkToolCall "tool_list_stops_for_path" "Path-1"
                  "call_1")
               _ _
               "manageRoute" "Which stops are on Path-1?" None [] seed_db []
               _)).
  - reflexivity.
  - reflexivity.
  - discriminate.
Defined.

(* ================================================================== *)
(** * Assignment and removal: failures and frames *)
(* ================================================================== *)

(** X1.  [assign_vehicle_and_driver] never raises: whatever the database
    and the arguments, it returns a text, and the database it leaves
    differs from the one it found in the deployments table at most. *)
Theorem assign_returns_and_frames db trip plate driver :
  exists msg db',
    Db.assign_vehicle_and_driver trip plate driver db = Db.Done (msg, db') /\
    stops db' = stops db /\ paths db' = paths db /\
    path_stops db' = path_stops db /\ routes db' = routes db /\
    vehicles db' = vehicles db /\ drivers db' = drivers db /\
    daily_trips db' = daily_trips db.
Proof.
  unfold Db.assign_vehicle_and_driver, Db.select_where.
  rewrite !fetchone_filter.
  destruct (find _ (rows (daily_trips db))) as [t|];
    [|do 2 eexists; split; [reflexivity|repeat split]].
  destruct (find _ (rows (vehicles db))) as [v|];
    [|do 2 eexists; split; [reflexivity|repeat split]].
  destruct (find _ (rows (drivers db))) as [dr|];
    [|do 2 eexists; split; [reflexivity|repeat split]].
  rewrite fetchone_filter.
  destruct (find _ (rows (deployments db))) as [e|] eqn:F.
  - do 2 eexists; split; [reflexivity|repeat split].
  - unfold Db.insert_deployment. rewrite existsb_find, F.
    do 2 eexists; split; [reflexivity|repeat split].
Qed.

(** X2.  The three look-ups of [assign_vehicle_and_driver] fail in the
    order trip, vehicle, driver: the text names the first missing entity
    and the database is left as it was. *)
Theorem assign_reports_first_missing db trip plate driver :
  (~ In trip (map DailyTrips.display_name (rows (daily_trips db))) ->
   Db.assign_vehicle_and_driver trip plate driver db
   = Db.Done (Py.fstr ["Trip '"; trip; "' not found."], db)) /\
  (In trip (map DailyTrips.display_name (rows (daily_trips db))) ->
   ~ In plate (map Vehicles.license_plate (rows (vehicles db))) ->
   Db.assign_vehicle_and_driver trip plate driver db
   = Db.Done (Py.fstr ["Vehicle '"; plate; "' not found."], db)) /\
  (In trip (map DailyTrips.display_name (rows (daily_trips db))) ->
   In plate (map Vehicles.license_plate (rows (vehicles db))) ->
   ~ In driver (map Drivers.name (rows (drivers db))) ->
   Db.assign_vehicle_and_driver trip plate driver db
   = Db.Done (Py.fstr ["Driver '"; driver; "' not found."], db)).
Proof.
  unfold Db.assign_vehicle_and_driver, Db.select_where.
  rewrite !fetchone_filter.
  split; [|split].
  - intros H. now rewrite (find_by_name_absent _ _ _ H).
  - intros Ht Hv.
    destruct (find_by_name_present DailyTrips.display_name _ _ Ht)
      as (t & Ft & _).
    now rewrite Ft, (find_by_name_absent _ _ _ Hv).
  - intros Ht Hv Hd.
    destruct (find_by_name_present DailyTrips.display_name _ _ Ht)
      as (t & Ft & _).
    destruct (find_by_name_present Vehicles.license_plate _ _ Hv)
      as (v & Fv & _).
    now rewrite Ft, Fv, (find_by_name_absent _ _ _ Hd).
Qed.

(** A driver that does not exist, on the demo data. *)
Lemma assign_reports_first_missing_witness :
  Db.assign_vehicle_and_driver "Bulk - 00:02" "KA-05-9999" "Nobody" seed_db
  = Db.Done ("Driver 'Nobody' not found.", seed_db).
Proof.
  refine (proj2 (proj2 (assign_reports_first_missing seed_db "Bulk - 00:02"
                          "KA-05-9999" "Nobody")) _ _ _).
  - simpl; tauto.
  - simpl; tauto.
  - simpl. intuition discriminate.
Defined.

Lemma filter_incl_rows {A : Type} (p : A -> bool) (l : list A) :
  incl (filter p l) l.
Proof. intros x H. apply filter_In in H. tauto. Qed.

Section RemovalFrames.

Variable float_repr : Q -> string.

(** X3.  [remove_vehicle_from_trip] can only delete deployment rows:
    whatever the database, the name and the flag, every other table is
    left as it was, no deployment row is added or altered, and the
    AUTOINCREMENT counter of the table is untouched. *)
Theorem remove_only_deletes_deployments db n force :
  let db' := snd (Db.remove_vehicle_from_trip float_repr n force db) in
  stops db' = stops db /\ paths db' = paths db /\
  path_stops db' = path_stops db /\ routes db' = routes db /\
  vehicles db' = vehicles db /\ drivers db' = drivers db /\
  daily_trips db' = daily_trips db /\
  incl (rows (deployments db')) (rows (deployments db)) /\
  sqlite_sequence (deployments db') = sqlite_sequence (deployments db).
Proof.
  cbv zeta. unfold Db.remove_vehicle_from_trip.
  destruct (Db.fetchone (Db.select_trip n db)) as [[t r]|];
    [|cbn [snd]; repeat split; apply incl_refl].
  destruct (Db.fetchone (Db.select_deployment _ db)) as [[[i p] dn]|];
    [|cbn [snd]; repeat split; apply incl_refl].
  destruct (_ && _); cbn [snd]; repeat split;
    try apply incl_refl.
  simpl. apply filter_incl_rows.
Qed.

(** X4.  The two refusals of [remove_vehicle_from_trip]: a name no trip
    carries is answered "not found"; a trip without a deployment is
    answered "No vehicle is currently assigned"; in both cases the
    database is left as it was, with or without [force]. *)
Theorem remove_refusals db n force :
  (~ In n (map DailyTrips.display_name (rows (daily_trips db))) ->
   Db.remove_vehicle_from_trip float_repr n force db
   = (Py.fstr ["Trip '"; n; "' not found."], db)) /\
  (forall t,
     Schema.keys db -> Schema.references db -> Schema.trip_named db n t ->
     Schema.deployments_of db (DailyTrips.trip_id t) = [] ->
     Db.remove_vehicle_from_trip float_repr n force db
     = (Py.fstr ["No vehicle is currently assigned to trip '"; n; "'."],
        db)).
Proof.
  split.
  - intros H. unfold Db.remove_vehicle_from_trip, Db.select_trip.
    rewrite filter_none; [reflexivity|].
    intros [t r] Hin. apply String.eqb_neq. intros E. apply H.
    unfold Db.join_on in Hin. apply in_flat_map in Hin.
    destruct Hin as (t' & Ht' & Hpair). apply in_map_iff in Hpair.
    destruct Hpair as (r' & Epair & _). injection Epair as <- <-.
    simpl in E. rewrite <- E. now apply in_map.
  - intros t K R T Hnone.
    destruct (select_trip_found db n t K R T) as (r & F & _).
    unfold Db.remove_vehicle_from_trip. rewrite F.
    rewrite select_deployment_first.
    unfold Schema.deployments_of in Hnone.
    rewrite <- fetchone_filter, Hnone. reflexivity.
Qed.

End RemovalFrames.

(** 'Bulk - 00:02' of the demo data has no deployment. *)
Lemma remove_refusals_witness :
  Db.remove_vehicle_from_trip (fun _ => "0.0") "Bulk - 00:02" true seed_db
  = ("No vehicle is currently assigned to trip 'Bulk - 00:02'.", seed_db) /\
  Db.remove_vehicle_from_trip (fun _ => "0.0") "Nowhere" true seed_db
  = ("Trip 'Nowhere' not found.", seed_db).
Proof.
  destruct (remove_refusals (fun _ => "0.0") seed_db "Bulk - 00:02" true)
    as (_ & B).
  destruct (remove_refusals (fun _ => "0.0") seed_db "Nowhere" true)
    as (A & _).
  split.
  - apply (B (DailyTrips.mk 2 1 "Bulk - 00:02" (Some 0.0%Q) (Some "00:02 IN"))
             seed_keys seed_references).
    + split; [simpl; tauto|reflexivity].
    + reflexivity.
  - apply A. simpl. intuition discriminate.
Defined.

(* ================================================================== *)
(** * The named operations keep the schema constraints *)
(* ================================================================== *)

Lemma find_none_absent {A : Type} (name : A -> string) (l : list A) n :
  find (fun a => (name a =? n)%string) l = None -> ~ In n (map name l).
Proof.
  intros F H. destruct (find_by_name_present name l n H) as (a & Fa & _).
  congruence.
Qed.

(** The loop of [create_path] keeps every property of the database that
    is kept by inserting a stop under a name not yet in use and by
    inserting a [path_stops] row that refers to an existing stop. *)
Lemma insert_stops_of_path_preserves (P : DB -> Prop) (pid : Z) :
  (forall db name,
     P db -> ~ In name (map Stops.name (rows (stops db))) ->
     P (Db.set_stops db
          (Db.append_row (stops db) (Db.next_rowid Stops.stop_id (stops db))
             (Stops.mk (Db.next_rowid Stops.stop_id (stops db)) name
                None None)))) ->
  (forall db sid seq,
     P db -> In sid (map Stops.stop_id (rows (stops db))) ->
     P (Db.set_path_stops db
          (Db.append_row (path_stops db)
             (Db.next_rowid PathStops.id (path_stops db))
             (PathStops.mk (Db.next_rowid PathStops.id (path_stops db))
                pid sid seq)))) ->
  forall items db, P db ->
  exists db', Db.insert_stops_of_path pid items db = Db.Done db' /\ P db'.
Proof.
  intros Hstop Hrow. induction items as [|[seq s_name] rest IH]; intros db HP.
  - exists db. split; [reflexivity|exact HP].
  - cbn [Db.insert_stops_of_path]. unfold Db.select_where.
    rewrite fetchone_filter.
    destruct (find _ (rows (stops db))) as [row|] eqn:F.
    + destruct (find_some _ _ F) as [Hin _].
      cbn [Db.bind]. unfold Db.insert_path_stop. cbn [Db.bind].
      apply IH. apply Hrow; [exact HP|]. now apply in_map.
    + unfold Db.insert_stop. rewrite existsb_find, F.
      cbn [Db.bind]. unfold Db.insert_path_stop. cbn [Db.bind].
      apply IH. apply Hrow.
      * apply Hstop; [exact HP|]. now apply find_none_absent.
      * simpl. rewrite map_app. apply in_or_app. right. now left.
Qed.

Lemma keys_set_stops db (t : Table Stops.row) :
  Schema.keys db -> NoDup (map Stops.stop_id (rows t)) ->
  NoDup (map Stops.name (rows t)) -> Schema.keys (Db.set_stops db t).
Proof. intros [] H1 H2. constructor; simpl; assumption. Qed.

Lemma keys_set_paths db (t : Table Paths.row) :
  Schema.keys db -> NoDup (map Paths.path_id (rows t)) ->
  NoDup (map Paths.path_name (rows t)) -> Schema.keys (Db.set_paths db t).
Proof. intros [] H1 H2. constructor; simpl; assumption. Qed.

Lemma keys_set_path_stops db (t : Table PathStops.row) :
  Schema.keys db -> Schema.keys (Db.set_path_stops db t).
Proof. intros []. constructor; simpl; assumption. Qed.

Lemma keys_set_routes db (t : Table Routes.row) :
  Schema.keys db -> NoDup (map Routes.route_id (rows t)) ->
  NoDup (map Routes.route_display_name (rows t)) ->
  Schema.keys (Db.set_routes db t).
Proof. intros [] H1 H2. constructor; simpl; assumption. Qed.

Lemma NoDup_map_filter {A K : Type} (key : A -> K) (p : A -> bool)
    (l : list A) :
  NoDup (map key l) -> NoDup (map key (filter p l)).
Proof.
  induction l as [|x l IH]; simpl; intros ND; [constructor|].
  inversion ND as [|? ? Hnot ND']; subst.
  destruct (p x); simpl; auto.
  constructor; auto. intros H. apply Hnot.
  apply in_map_iff in H. destruct H as (y & E & Hy).
  apply filter_In in Hy. rewrite <- E. apply in_map. tauto.
Qed.

Lemma keys_after_create_stop db name lat lon :
  Schema.keys db -> Schema.keys (snd (Db.create_stop name lat lon db)).
Proof.
  intros K. unfold Db.create_stop, Db.insert_stop. rewrite existsb_find.
  destruct (find _ (rows (stops db))) eqn:F; [exact K|].
  cbn [snd]. apply keys_set_stops; auto; simpl; rewrite map_app; simpl.
  - apply NoDup_snoc; [exact (Schema.stops_pk db K)|apply next_rowid_fresh].
  - apply NoDup_snoc; [exact (Schema.stops_name db K)|].
    now apply find_none_absent.
Qed.

Lemma keys_after_create_path db path_name stop_names :
  Schema.keys db -> Schema.keys (snd (Db.create_path path_name stop_names db)).
Proof.
  intros K. unfold Db.create_path.
  destruct stop_names as [|s0 rest]; [exact K|].
  unfold Db.insert_path. rewrite existsb_find.
  destruct (find _ (rows (paths db))) eqn:F; [exact K|].
  cbn [Db.bind].
  destruct (insert_stops_of_path_preserves Schema.keys
              (Db.next_rowid Paths.path_id (paths db)))
    with (items := Db.enumerate 1 (s0 :: rest))
         (db := Db.set_paths db
                  (Db.append_row (paths db)
                     (Db.next_rowid Paths.path_id (paths db))
                     (Paths.mk (Db.next_rowid Paths.path_id (paths db))
                        path_name)))
    as (db' & Run & K').
  - intros d name Kd Hn. apply keys_set_stops; auto; simpl; rewrite map_app;
      simpl.
    + apply NoDup_snoc; [exact (Schema.stops_pk d Kd)|apply next_rowid_fresh].
    + apply NoDup_snoc; [exact (Schema.stops_name d Kd)|exact Hn].
  - intros d sid seq Kd _. now apply keys_set_path_stops.
  - apply keys_set_paths; auto; simpl; rewrite map_app; simpl.
    + apply NoDup_snoc; [exact (Schema.paths_pk db K)|apply next_rowid_fresh].
    + apply NoDup_snoc; [exact (Schema.paths_name db K)|].
      now apply find_none_absent.
  - rewrite Run. exact K'.
Qed.

Lemma keys_after_create_route db path_name shift_time direction :
  Schema.keys db ->
  Schema.keys (snd (Db.create_route path_name shift_time direction db)).
Proof.
  intros K. unfold Db.create_route.
  destruct (Db.fetchone _) as [p|]; [|exact K].
  destruct (Db.select_stop_names _ db) as [|first names]; [exact K|].
  unfold Db.insert_route.
  replace (negb (("active" =? "active")%string
                 || ("active" =? "deactivated")%string)) with false
    by reflexivity.
  rewrite orb_false_r, existsb_find.
  destruct (find _ (rows (routes db))) eqn:F; [exact K|].
  cbn [snd]. apply keys_set_routes; auto; simpl; rewrite map_app; simpl.
  - apply NoDup_snoc; [exact (Schema.routes_pk db K)|apply next_rowid_fresh].
  - apply NoDup_snoc; [exact (Schema.routes_name db K)|].
    now apply find_none_absent.
Qed.

Lemma keys_after_assign db trip plate driver msg db' :
  Schema.keys db ->
  Db.assign_vehicle_and_driver trip plate driver db = Db.Done (msg, db') ->
  Schema.keys db'.
Proof.
  intros K. unfold Db.assign_vehicle_and_driver, Db.select_where.
  rewrite !fetchone_filter.
  destruct (find _ (rows (daily_trips db))) as [t|];
    [|intros E; injection E as _ <-; exact K].
  destruct (find _ (rows (vehicles db))) as [v|];
    [|intros E; injection E as _ <-; exact K].
  destruct (find _ (rows (drivers db))) as [dr|];
    [|intros E; injection E as _ <-; exact K].
  rewrite fetchone_filter.
  destruct (find _ (rows (deployments db))) as [e|] eqn:F.
  - intros E; injection E as _ <-.
    apply keys_set_deployments; auto; simpl;
      rewrite map_key_updated by reflexivity.
    + exact (Schema.deployments_pk db K).
    + exact (Schema.deployments_trip db K).
  - unfold Db.insert_deployment. rewrite existsb_find, F. cbn [Db.bind].
    intros E; injection E as _ <-.
    apply keys_set_deployments; auto; simpl; rewrite map_app; simpl.
    + apply NoDup_snoc; [exact (Schema.deployments_pk db K)|].
      apply next_rowid_fresh.
    + apply NoDup_snoc; [exact (Schema.deployments_trip db K)|].
      intros H. apply in_map_iff in H. destruct H as (x & Ex & Hx).
      pose proof (proj1 (find_none_iff _ _) F x Hx) as Hf.
      simpl in Hf. apply Z.eqb_neq in Hf. contradiction.
Qed.

Lemma keys_after_remove float_repr db n force :
  Schema.keys db ->
  Schema.keys (snd (Db.remove_vehicle_from_trip float_repr n force db)).
Proof.
  intros K. unfold Db.remove_vehicle_from_trip.
  destruct (Db.fetchone (Db.select_trip n db)) as [[t r]|]; [|exact K].
  destruct (Db.fetchone (Db.select_deployment _ db)) as [[[i p] dn]|];
    [|exact K].
  destruct (_ && _); [exact K|]. cbn [snd].
  apply keys_set_deployments; auto; simpl; apply NoDup_map_filter.
  - exact (Schema.deployments_pk db K).
  - exact (Schema.deployments_trip db K).
Qed.



(* ================================================================== *)
(** * The named operations keep the foreign keys *)
(* ================================================================== *)

Lemma references_set_stops db (t : Table Stops.row) :
  Schema.references db ->
  incl (map Stops.stop_id (rows (stops db))) (map Stops.stop_id (rows t)) ->
  Schema.references (Db.set_stops db t).
Proof.
  intros [] H. constructor; simpl; auto.
Qed.

Lemma references_set_paths db (t : Table Paths.row) :
  Schema.references db ->
  incl (map Paths.path_id (rows (paths db))) (map Paths.path_id (rows t)) ->
  Schema.references (Db.set_paths db t).
Proof.
  intros [] H. constructor; simpl; auto.
Qed.

Lemma references_set_path_stops db (t : Table PathStops.row) :
  Schema.references db ->
  (forall ps, In ps (rows t) ->
     In (PathStops.path_id ps) (map Paths.path_id (rows (paths db))) /\
     In (PathStops.stop_id ps) (map Stops.stop_id (rows (stops db)))) ->
  Schema.references (Db.set_path_stops db t).
Proof.
  intros [] H. constructor; simpl; auto; intros ps Hps; now apply H.
Qed.

Lemma references_set_routes db (t : Table Routes.row) :
  Schema.references db ->
  incl (map Routes.route_id (rows (routes db))) (map Routes.route_id (rows t)) ->
  (forall r, In r (rows t) ->
     In (Routes.path_id r) (map Paths.path_id (rows (paths db)))) ->
  Schema.references (Db.set_routes db t).
Proof.
  intros [] H1 H2. constructor; simpl; auto.
Qed.

Lemma references_set_deployments db (t : Table Deployments.row) :
  Schema.references db ->
  (forall d, In d (rows t) ->
     In (Deployments.trip_id d)
        (map DailyTrips.trip_id (rows (daily_trips db)))) ->
  Schema.references (Db.set_deployments db t).
Proof.
  intros [] H. constructor; simpl; auto.
Qed.

Lemma incl_map_snoc {A K : Type} (key : A -> K) (l : list A) (x : A) :
  incl (map key l) (map key (l ++ [x])).
Proof. intros k H. rewrite map_app. apply in_or_app. now left. Qed.

Lemma references_after_create_stop db name lat lon :
  Schema.references db ->
  Schema.references (snd (Db.create_stop name lat lon db)).
Proof.
  intros R. unfold Db.create_stop, Db.insert_stop.
  destruct (existsb _ _); [exact R|]. cbn [snd].
  apply references_set_stops; [exact R|apply incl_map_snoc].
Qed.

Lemma references_after_create_path db path_name stop_names :
  Schema.references db ->
  Schema.references (snd (Db.create_path path_name stop_names db)).
Proof.
  intros R. unfold Db.create_path.
  destruct stop_names as [|s0 rest]; [exact R|].
  unfold Db.insert_path.
  destruct (existsb _ _); [exact R|]. cbn [Db.bind].
  set (pid := Db.next_rowid Paths.path_id (paths db)).
  destruct (insert_stops_of_path_preserves
              (fun d => Schema.references d /\
                        In pid (map Paths.path_id (rows (paths d))))
              pid)
    with (items := Db.enumerate 1 (s0 :: rest))
         (db := Db.set_paths db
                  (Db.append_row (paths db) pid (Paths.mk pid path_name)))
    as (db' & Run & R' & _).
  - intros d name [Rd Hp] _. split; [|exact Hp].
    apply references_set_stops; [exact Rd|apply incl_map_snoc].
  - intros d sid seq [Rd Hp] Hs. split; [|exact Hp].
    apply references_set_path_stops; [exact Rd|].
    intros ps Hps. simpl in Hps. apply in_app_or in Hps.
    destruct Hps as [Hps|[<-|[]]].
    + split; [exact (Schema.path_stops_path d Rd ps Hps)
             |exact (Schema.path_stops_stop d Rd ps Hps)].
    + split; [exact Hp|exact Hs].
  - split.
    + apply references_set_paths; [exact R|apply incl_map_snoc].
    + simpl. rewrite map_app. apply in_or_app. right. now left.
  - rewrite Run. exact R'.
Qed.

Lemma references_after_create_route db path_name shift_time direction :
  Schema.references db ->
  Schema.references (snd (Db.create_route path_name shift_time direction db)).
Proof.
  intros R. unfold Db.create_route, Db.select_where.
  rewrite fetchone_filter.
  destruct (find _ (rows (paths db))) as [p|] eqn:F; [|exact R].
  destruct (Db.select_stop_names _ db) as [|first names]; [exact R|].
  unfold Db.insert_route.
  destruct (existsb _ _ || _); [exact R|]. cbn [snd].
  apply references_set_routes; [exact R|apply incl_map_snoc|].
  intros r Hr. simpl in Hr. apply in_app_or in Hr.
  destruct Hr as [Hr|[<-|[]]].
  - exact (Schema.routes_path db R r Hr).
  - simpl. destruct (find_some _ _ F) as [Hin _]. now apply in_map.
Qed.

Lemma references_after_assign db trip plate driver msg db' :
  Schema.references db ->
  Db.assign_vehicle_and_driver trip plate driver db = Db.Done (msg, db') ->
  Schema.references db'.
Proof.
  intros R. unfold Db.assign_vehicle_and_driver, Db.select_where.
  rewrite !fetchone_filter.
  destruct (find _ (rows (daily_trips db))) as [t|] eqn:Ft;
    [|intros E; injection E as _ <-; exact R].
  destruct (find _ (rows (vehicles db))) as [v|];
    [|intros E; injection E as _ <-; exact R].
  destruct (find _ (rows (drivers db))) as [dr|];
    [|intros E; injection E as _ <-; exact R].
  rewrite fetchone_filter.
  destruct (find _ (rows (deployments db))) as [e|] eqn:F.
  - intros E; injection E as _ <-.
    apply references_set_deployments; [exact R|].
    intros d Hd. simpl in Hd. apply in_map_iff in Hd.
    destruct Hd as (x & Ex & Hx).
    assert (Et : Deployments.trip_id d = Deployments.trip_id x).
    { rewrite <- Ex. destruct (_ =? _); reflexivity. }
    rewrite Et. exact (Schema.deployments_trip_ref db R x Hx).
  - unfold Db.insert_deployment. destruct (existsb _ _); [discriminate|].
    cbn [Db.bind]. intros E; injection E as _ <-.
    apply references_set_deployments; [exact R|].
    intros d Hd. simpl in Hd. apply in_app_or in Hd.
    destruct Hd as [Hd|[<-|[]]].
    + exact (Schema.deployments_trip_ref db R d Hd).
    + simpl. destruct (find_some _ _ Ft) as [Hin _]. now apply in_map.
Qed.

Lemma references_after_remove float_repr db n force :
  Schema.references db ->
  Schema.references (snd (Db.remove_vehicle_from_trip float_repr n force db)).
Proof.
  intros R. unfold Db.remove_vehicle_from_trip.
  destruct (Db.fetchone (Db.select_trip n db)) as [[t r]|]; [|exact R].
  destruct (Db.fetchone (Db.select_deployment _ db)) as [[[i p] dn]|];
    [|exact R].
  destruct (_ && _); [exact R|]. cbn [snd].
  apply references_set_deployments; [exact R|].
  intros d Hd. simpl in Hd. apply filter_In in Hd.
  exact (Schema.deployments_trip_ref db R d (proj1 Hd)).
Qed.



(* ================================================================== *)
(** * Keys are never handed out twice *)
(* ================================================================== *)

Lemma high_water_append {A : Type} (key : A -> Z) (t : Table A) (r : A) :
  key r = Db.next_rowid key t ->
  Counters.high_water key (Db.append_row t (Db.next_rowid key t) r).
Proof.
  intros E x Hx. simpl in *. apply in_app_or in Hx.
  destruct Hx as [Hx|[<-|[]]]; [|lia].
  pose proof (max_rowid_upper key _ x Hx). unfold Db.next_rowid. lia.
Qed.

Lemma consistent_set_stops db (t : Table Stops.row) :
  Counters.consistent db -> Counters.high_water Stops.stop_id t ->
  Counters.consistent (Db.set_stops db t).
Proof. intros [] H. constructor; simpl; assumption. Qed.

Lemma consistent_set_paths db (t : Table Paths.row) :
  Counters.consistent db -> Counters.high_water Paths.path_id t ->
  Counters.consistent (Db.set_paths db t).
Proof. intros [] H. constructor; simpl; assumption. Qed.

Lemma consistent_set_path_stops db (t : Table PathStops.row) :
  Counters.consistent db -> Counters.high_water PathStops.id t ->
  Counters.consistent (Db.set_path_stops db t).
Proof. intros [] H. constructor; simpl; assumption. Qed.

Lemma consistent_set_routes db (t : Table Routes.row) :
  Counters.consistent db -> Counters.high_water Routes.route_id t ->
  Counters.consistent (Db.set_routes db t).
Proof. intros [] H. constructor; simpl; assumption. Qed.

Lemma consistent_set_deployments db (t : Table Deployments.row) :
  Counters.consistent db -> Counters.high_water Deployments.deployment_id t ->
  Counters.consistent (Db.set_deployments db t).
Proof. intros [] H. constructor; simpl; assumption. Qed.

Lemma consistent_after_create_stop db name lat lon :
  Counters.consistent db ->
  Counters.consistent (snd (Db.create_stop name lat lon db)).
Proof.
  intros C. unfold Db.create_stop, Db.insert_stop.
  destruct (existsb _ _); [exact C|]. cbn [snd].
  apply consistent_set_stops; [exact C|now apply high_water_append].
Qed.

Lemma consistent_after_create_path db path_name stop_names :
  Counters.consistent db ->
  Counters.consistent (snd (Db.create_path path_name stop_names db)).
Proof.
  intros C. unfold Db.create_path.
  destruct stop_names as [|s0 rest]; [exact C|].
  unfold Db.insert_path.
  destruct (existsb _ _); [exact C|]. cbn [Db.bind].
  destruct (insert_stops_of_path_preserves Counters.consistent
              (Db.next_rowid Paths.path_id (paths db)))
    with (items := Db.enumerate 1 (s0 :: rest))
         (db := Db.set_paths db
                  (Db.append_row (paths db)
                     (Db.next_rowid Paths.path_id (paths db))
                     (Paths.mk (Db.next_rowid Paths.path_id (paths db))
                        path_name)))
    as (db' & Run & C').
  - intros d name Cd _.
    apply consistent_set_stops; [exact Cd|now apply high_water_append].
  - intros d sid seq Cd _.
    apply consistent_set_path_stops; [exact Cd|now apply high_water_append].
  - apply consistent_set_paths; [exact C|now apply high_water_append].
  - rewrite Run. exact C'.
Qed.

Lemma consistent_after_create_route db path_name shift_time direction :
  Counters.consistent db ->
  Counters.consistent
    (snd (Db.create_route path_name shift_time direction db)).
Proof.
  intros C. unfold Db.create_route.
  destruct (Db.fetchone _) as [p|]; [|exact C].
  destruct (Db.select_stop_names _ db) as [|first names]; [exact C|].
  unfold Db.insert_route.
  destruct (existsb _ _ || _); [exact C|]. cbn [snd].
  apply consistent_set_routes; [exact C|now apply high_water_append].
Qed.

Lemma consistent_after_assign db trip plate driver msg db' :
  Counters.consistent db ->
  Db.assign_vehicle_and_driver trip plate driver db = Db.Done (msg, db') ->
  Counters.consistent db'.
Proof.
  intros C. unfold Db.assign_vehicle_and_driver.
  destruct (Db.fetchone _) as [t|];
    [|intros E; injection E as _ <-; exact C].
  destruct (Db.fetchone _) as [v|];
    [|intros E; injection E as _ <-; exact C].
  destruct (Db.fetchone _) as [dr|];
    [|intros E; injection E as _ <-; exact C].
  destruct (Db.fetchone _) as [e|].
  - intros E; injection E as _ <-.
    apply consistent_set_deployments; [exact C|].
    intros x Hx. simpl in *. apply in_map_iff in Hx.
    destruct Hx as (y & Ey & Hy).
    assert (Ei : Deployments.deployment_id x = Deployments.deployment_id y).
    { rewrite <- Ey. destruct (_ =? _); reflexivity. }
    rewrite Ei. exact (Counters.deployments_mark db C y Hy).
  - unfold Db.insert_deployment. destruct (existsb _ _); [discriminate|].
    cbn [Db.bind]. intros E; injection E as _ <-.
    apply consistent_set_deployments; [exact C|now apply high_water_append].
Qed.

Lemma consistent_after_remove float_repr db n force :
  Counters.consistent db ->
  Counters.consistent
    (snd (Db.remove_vehicle_from_trip float_repr n force db)).
Proof.
  intros C. unfold Db.remove_vehicle_from_trip.
  destruct (Db.fetchone (Db.select_trip n db)) as [[t r]|]; [|exact C].
  destruct (Db.fetchone (Db.select_deployment _ db)) as [[[i p] dn]|];
    [|exact C].
  destruct (_ && _); [exact C|]. cbn [snd].
  apply consistent_set_deployments; [exact C|].
  intros x Hx. simpl in *. apply filter_In in Hx.
  exact (Counters.deployments_mark db C x (proj1 Hx)).
Qed.

(** X7.  The AUTOINCREMENT counters stay ahead of the keys: if in every
    table written by the operations no key exceeds the table's counter,
    the same holds after any of the five mutating operations - also after
    a removal, which deletes a row but leaves the counter alone. *)
Theorem operations_keep_counters db :
  Counters.consistent db ->
  (forall name lat lon,
     Counters.consistent (snd (Db.create_stop name lat lon db))) /\
  (forall path_name stop_names,
     Counters.consistent (snd (Db.create_path path_name stop_names db))) /\
  (forall path_name shift_time direction,
     Counters.consistent
       (snd (Db.create_route path_name shift_time direction db))) /\
  (forall trip plate driver msg db',
     Db.assign_vehicle_and_driver trip plate driver db = Db.Done (msg, db') ->
     Counters.consistent db') /\
  (forall float_repr n force,
     Counters.consistent
       (snd (Db.remove_vehicle_from_trip float_repr n force db))).
Proof.
  intros C. split; [|split; [|split; [|split]]]; intros.
  - now apply consistent_after_create_stop.
  - now apply consistent_after_create_path.
  - now apply consistent_after_create_route.
  - eapply consistent_after_assign; eauto.
  - now apply consistent_after_remove.
Qed.

Lemma seed_consistent : Counters.consistent seed_db.
Proof.
  constructor; intros r H; simpl in H;
    repeat (destruct H as [<-|H]; [simpl; lia|]); contradiction.
Qed.

(** The demo data after the forced removal of a deployment. *)
Lemma operations_keep_counters_witness :
  Counters.consistent
    (snd (Db.remove_vehicle_from_trip (fun _ => "25.0") "Bulk - 00:01" true
            seed_db)).
Proof.
  exact (proj2 (proj2 (proj2 (proj2 (operations_keep_counters seed_db
                                       seed_consistent))))
           (fun _ => "25.0") "Bulk - 00:01" true).
Defined.

(** An assignment to a trip without deployment inserts one row, with a key
    taken from the counter. *)
Lemma assign_inserts db trip plate driver t v dr :
  Schema.keys db -> Schema.trip_named db trip t ->
  In v (rows (vehicles db)) -> Vehicles.license_plate v = plate ->
  In dr (rows (drivers db)) -> Drivers.name dr = driver ->
  Schema.deployments_of db (DailyTrips.trip_id t) = [] ->
  Db.assign_vehicle_and_driver trip plate driver db =
  Db.Done
    (Py.fstr ["Assigned vehicle "; plate; " and driver "; driver;
              " to trip '"; trip; "'."],
     Db.set_deployments db
       (Db.append_row (deployments db)
          (Db.next_rowid Deployments.deployment_id (deployments db))
          (Deployments.mk
             (Db.next_rowid Deployments.deployment_id (deployments db))
             (DailyTrips.trip_id t) (Some (Vehicles.vehicle_id v))
             (Some (Drivers.driver_id dr))))).
Proof.
  intros K [Ht Et] Hv Ev Hd Ed Hnone.
  unfold Db.assign_vehicle_and_driver, Db.select_where.
  rewrite !fetchone_filter.
  rewrite (find_unique DailyTrips.display_name _ _ t
             (Schema.trips_name db K) Ht);
    [|now apply String.eqb_eq
     |intros x _ Hx; apply String.eqb_eq in Hx; congruence].
  rewrite (find_unique Vehicles.license_plate _ _ v
             (Schema.vehicles_plate db K) Hv);
    [|now apply String.eqb_eq
     |intros x _ Hx; apply String.eqb_eq in Hx; congruence].
  rewrite (find_unique Drivers.name _ _ dr
             (Schema.drivers_name db K) Hd);
    [|now apply String.eqb_eq
     |intros x _ Hx; apply String.eqb_eq in Hx; congruence].
  cbv beta iota.
  unfold Schema.deployments_of in Hnone.
  assert (F : find (fun d => Deployments.trip_id d =? DailyTrips.trip_id t)
                (rows (deployments db)) = None).
  { rewrite <- fetchone_filter, Hnone. reflexivity. }
  rewrite Hnone. cbn [Db.fetchone hd_error].
  unfold Db.insert_deployment. rewrite existsb_find, F. reflexivity.
Qed.

Section RemoveThenAssign.

Variable float_repr : Q -> string.

Lemma forced_removal db n t d :
  Schema.keys db -> Schema.references db -> Schema.trip_named db n t ->
  In d (rows (deployments db)) ->
  Deployments.trip_id d = DailyTrips.trip_id t ->
  Db.remove_vehicle_from_trip float_repr n true db =
  (Py.fstr ["Removed vehicle '"; Py.str_opt (Schema.plate_of db d);
            "' and driver '"; Py.str_opt (Schema.driver_of db d);
            "' from trip '"; n; "'."],
   Db.delete_deployment (Deployments.deployment_id d) db).
Proof.
  intros K R T Hd Et.
  destruct (remove_vehicle_from_trip_found float_repr db n true t d K R T Hd Et)
    as (r & _ & _ & E).
  cbv zeta in E. now rewrite andb_false_r in E.
Qed.


(** X9.  Assigning and then force-removing restores the deployments: for
    a trip without deployment, an assignment of an existing vehicle and
    driver followed by a forced removal returns the confirmation naming
    that vehicle and driver and leaves the rows of the deployments table
    exactly as they were before the assignment. *)
Theorem assign_then_remove_restores db n t plate driver v dr :
  Schema.keys db -> Schema.references db -> Schema.trip_named db n t ->
  Schema.deployments_of db (DailyTrips.trip_id t) = [] ->
  In v (rows (vehicles db)) -> Vehicles.license_plate v = plate ->
  In dr (rows (drivers db)) -> Drivers.name dr = driver ->
  exists msg db1,
    Db.assign_vehicle_and_driver n plate driver db = Db.Done (msg, db1) /\
    let out := Db.remove_vehicle_from_trip float_repr n true db1 in
    fst out = Py.fstr ["Removed vehicle '"; plate; "' and driver '"; driver;
                       "' from trip '"; n; "'."] /\
    rows (deployments (snd out)) = rows (deployments db).
Proof.
  intros K R T Hnone Hv Ev Hdr Edr.
  pose proof (assign_inserts db n plate driver t v dr K T Hv Ev Hdr Edr Hnone)
    as A.
  do 2 eexists. split; [exact A|].
  set (new := Deployments.mk _ _ _ _) in *.
  set (db1 := Db.set_deployments db _) in *.
  assert (K1 : Schema.keys db1) by (eapply keys_after_assign; eauto).
  assert (R1 : Schema.references db1) by (eapply references_after_assign; eauto).
  assert (Hnew : In new (rows (deployments db1))).
  { simpl. apply in_or_app. right. now left. }
  cbv zeta.
  rewrite (forced_removal db1 n t new K1 R1 T Hnew eq_refl). cbn [fst snd].
  split.
  - unfold Schema.plate_of, Schema.driver_of. cbn [vehicles drivers db1
      Db.set_deployments Deployments.vehicle_id Deployments.driver_id new].
    rewrite (find_unique Vehicles.vehicle_id _ _ v
               (Schema.vehicles_pk db K) Hv);
      [|apply Z.eqb_refl|intros x _ Hx; now apply Z.eqb_eq in Hx].
    rewrite (find_unique Drivers.driver_id _ _ dr
               (Schema.drivers_pk db K) Hdr);
      [|apply Z.eqb_refl|intros x _ Hx; now apply Z.eqb_eq in Hx].
    simpl. now rewrite Ev, Edr.
  - simpl. rewrite filter_app. simpl. rewrite Z.eqb_refl. simpl.
    rewrite app_nil_r. apply filter_all. apply Forall_forall.
    intros x Hx. apply negb_true_iff, Z.eqb_neq. intros E.
    apply (next_rowid_fresh Deployments.deployment_id (deployments db)).
    rewrite <- E. now apply in_map.
Qed.

End RemoveThenAssign.


(** 'Bulk - 00:02' of the demo data is assigned and released again. *)
Lemma assign_then_remove_restores_witness :
  exists msg db1,
    Db.assign_vehicle_and_driver "Bulk - 00:02" "KA-05-9999" "Sneha" seed_db
    = Db.Done (msg, db1) /\
    rows (deployments
            (snd (Db.remove_vehicle_from_trip (fun _ => "0.0") "Bulk - 00:02"
                    true db1)))
    = rows (deployments seed_db).
Proof.
  destruct (assign_then_remove_restores (fun _ => "0.0") seed_db
              "Bulk - 00:02"
              (DailyTrips.mk 2 1 "Bulk - 00:02" (Some 0.0%Q) (Some "00:02 IN"))
              "KA-05-9999" "Sneha"
              (Vehicles.mk 3 "KA-05-9999" "Cab" 4)
              (Drivers.mk 3 "Sneha" (Some "9999990003"))
              seed_keys seed_references)
    as (msg & db1 & A & _ & E);
    try reflexivity; try (simpl; tauto).
  - split; [simpl; tauto|reflexivity].
  - exists msg, db1. split; [exact A|exact E].
Defined.

(* ================================================================== *)
(** * Looking a trip up *)
(* ================================================================== *)

Lemma in_join_fst {A B : Type} (on : A -> B -> bool) l r (x : A * B) :
  In x (Db.join_on on l r) -> In (fst x) l.
Proof.
  unfold Db.join_on. intros H. apply in_flat_map in H.
  destruct H as (a & Ha & Hx). apply in_map_iff in Hx.
  destruct Hx as (b & <- & _). exact Ha.
Qed.

Lemma in_left_join_fst {A B : Type} (on : A -> B -> bool) l r
    (x : A * option B) :
  In x (Db.left_join_on on l r) -> In (fst x) l.
Proof.
  unfold Db.left_join_on. intros H. apply in_flat_map in H.
  destruct H as (a & Ha & Hx). now rewrite (partners_left on r a x Hx).
Qed.

Lemma in_trip_rows db x :
  In x (Db.trip_rows db) -> In (Db.trip_of x) (rows (daily_trips db)).
Proof.
  unfold Db.trip_rows, Db.trip_of. intros H.
  apply in_left_join_fst, in_left_join_fst, in_left_join_fst, in_join_fst in H.
  exact H.
Qed.

(** The row the trip query returns for a trip: the trip, its route, its
    first deployment if any, and the vehicle and driver that one names. *)
Lemma trip_row_found db n t :
  Schema.keys db -> Schema.references db -> Schema.trip_named db n t ->
  exists r,
    In r (rows (routes db)) /\ Routes.route_id r = DailyTrips.route_id t /\
    Db.fetchone
      (filter (fun x => (DailyTrips.display_name (Db.trip_of x) =? n)%string)
         (Db.trip_rows db)) =
    let dep := find (fun d => Deployments.trip_id d =? DailyTrips.trip_id t)
                 (rows (deployments db)) in
    let veh := find (fun v =>
                       match dep with
                       | Some d => Db.eq_nullable (Vehicles.vehicle_id v)
                                     (Deployments.vehicle_id d)
                       | None => false
                       end) (rows (vehicles db)) in
    let drv := find (fun x =>
                       match dep with
                       | Some d => Db.eq_nullable (Drivers.driver_id x)
                                     (Deployments.driver_id d)
                       | None => false
                       end) (rows (drivers db)) in
    Some (t, r, dep, veh, drv).
Proof.
  intros K R T.
  destruct (select_trip_found db n t K R T) as (r & F & Hr & Er).
  exists r. split; [exact Hr|]. split; [exact Er|].
  unfold Db.trip_rows, Db.trip_of, Db.TripRow.
  rewrite (fetchone_left_join _
             (fun y : DailyTrips.row * Routes.row * option Deployments.row
                      * option Vehicles.row =>
                (DailyTrips.display_name (fst (fst (fst y))) =? n)%string)).
  rewrite <- fetchone_filter.
  rewrite (fetchone_left_join _
             (fun y : DailyTrips.row * Routes.row * option Deployments.row =>
                (DailyTrips.display_name (fst (fst y)) =? n)%string)).
  rewrite <- fetchone_filter.
  rewrite (fetchone_left_join _
             (fun y : DailyTrips.row * Routes.row =>
                (DailyTrips.display_name (fst y) =? n)%string)).
  rewrite <- fetchone_filter.
  unfold Db.select_trip in F. rewrite F. reflexivity.
Qed.

Section TripStatusFacts.

Variable float_repr : Q -> string.

(** X10.  An assignment can be read back: after a successful
    [assign_vehicle_and_driver] of a vehicle whose plate is not the empty
    string, [get_trip_status] of the trip ends with
    "Vehicle <plate> with driver <driver>." *)
Theorem status_after_assign db n t plate driver v dr :
  Schema.keys db -> Schema.references db -> Schema.trip_named db n t ->
  In v (rows (vehicles db)) -> Vehicles.license_plate v = plate ->
  In dr (rows (drivers db)) -> Drivers.name dr = driver ->
  plate <> ""%string ->
  exists msg db1 r,
    Db.assign_vehicle_and_driver n plate driver db = Db.Done (msg, db1) /\
    In r (rows (routes db)) /\ Routes.route_id r = DailyTrips.route_id t /\
    Db.get_trip_status float_repr n db1 =
    Py.fstr ["Trip '"; n; "' is on route '"; Routes.route_display_name r;
             "', booking status ~";
             Db.real_str float_repr (DailyTrips.booking_status_percentage t);
             "%, live status '"; Py.str_opt (DailyTrips.live_status t);
             "'. ";
             Py.fstr ["Vehicle "; plate; " with driver "; driver]; "."].
Proof.
  intros K R T Hv Ev Hd Ed Hne.
  destruct (assign_result db n plate driver t v dr K T Hv Ev Hd Ed)
    as (msg & db1 & dep & A & K1 & Et & Evs & Eds & F & V & D).
  pose proof (references_after_assign db n plate driver msg db1 R A) as R1.
  assert (T1 : Schema.trip_named db1 n t).
  { destruct T as [Ht En]. split; [now rewrite Et|exact En]. }
  destruct (trip_row_found db1 n t K1 R1 T1) as (r & Hr & Er & Row).
  assert (Routes1 : routes db1 = routes db).
  { destruct (assign_returns_and_frames db n plate driver)
      as (m' & d' & A' & _ & _ & _ & Rt & _).
    rewrite A in A'. injection A' as _ <-. exact Rt. }
  exists msg, db1, r. split; [exact A|].
  split; [now rewrite <- Routes1|]. split; [exact Er|].
  unfold Db.get_trip_status. rewrite Row. cbv zeta.
  unfold Schema.deployments_of in F.
  assert (Fd : find (fun d => Deployments.trip_id d =? DailyTrips.trip_id t)
                 (rows (deployments db1)) = Some dep).
  { rewrite <- fetchone_filter, F. reflexivity. }
  rewrite Fd, V, D, Evs, Eds. cbn [Db.eq_nullable].
  rewrite (find_unique Vehicles.vehicle_id _ _ v
             (Schema.vehicles_pk db K) Hv);
    [|apply Z.eqb_refl|intros x _ Hx; now apply Z.eqb_eq in Hx].
  rewrite (find_unique Drivers.driver_id _ _ dr
             (Schema.drivers_pk db K) Hd);
    [|apply Z.eqb_refl|intros x _ Hx; now apply Z.eqb_eq in Hx].
  unfold Db.license_plate_of, Db.driver_name_of, Db.trip_of, Db.route_of.
  cbn [fst snd option_map Py.truthy Py.str_opt].
  rewrite Ev, Ed, (proj2 (String.eqb_neq plate "") Hne).
  destruct T as [_ En]. rewrite En. reflexivity.
Qed.

(** X11.  [get_trip_status] on a name no trip carries answers "not
    found"; on a trip without deployment it ends with
    "No vehicle/driver assigned." *)
Theorem status_without_assignment db n :
  (~ In n (map DailyTrips.display_name (rows (daily_trips db))) ->
   Db.get_trip_status float_repr n db
   = Py.fstr ["Trip '"; n; "' not found."]) /\
  (forall t,
     Schema.keys db -> Schema.references db -> Schema.trip_named db n t ->
     Schema.deployments_of db (DailyTrips.trip_id t) = [] ->
     exists r,
       In r (rows (routes db)) /\ Routes.route_id r = DailyTrips.route_id t /\
       Db.get_trip_status float_repr n db =
       Py.fstr ["Trip '"; n; "' is on route '"; Routes.route_display_name r;
                "', booking status ~";
                Db.real_str float_repr
                  (DailyTrips.booking_status_percentage t);
                "%, live status '"; Py.str_opt (DailyTrips.live_status t);
                "'. "; "No vehicle/driver assigned"; "."]).
Proof.
  split.
  - intros H. unfold Db.get_trip_status.
    rewrite filter_none; [reflexivity|].
    intros x Hx. apply String.eqb_neq. intros E. apply H.
    rewrite <- E. apply in_map. now apply in_trip_rows.
  - intros t K R T Hnone.
    destruct (trip_row_found db n t K R T) as (r & Hr & Er & Row).
    exists r. split; [exact Hr|]. split; [exact Er|].
    unfold Db.get_trip_status. rewrite Row. cbv zeta.
    unfold Schema.deployments_of in Hnone.
    assert (Fd : find (fun d => Deployments.trip_id d =? DailyTrips.trip_id t)
                   (rows (deployments db)) = None).
    { rewrite <- fetchone_filter, Hnone. reflexivity. }
    rewrite Fd.
    assert (Fv : find (fun _ : Vehicles.row => false) (rows (vehicles db))
                 = None).
    { apply find_none_iff. reflexivity. }
    rewrite Fv.
    unfold Db.license_plate_of, Db.driver_name_of, Db.trip_of, Db.route_of.
    cbn [fst snd option_map Py.truthy].
    destruct T as [_ En]. rewrite En. reflexivity.
Qed.

End TripStatusFacts.

(** The cab and Sneha on 'Bulk - 00:02' of the demo data. *)
Lemma status_after_assign_witness :
  exists msg db1,
    Db.assign_vehicle_and_driver "Bulk - 00:02" "KA-05-9999" "Sneha" seed_db
    = Db.Done (msg, db1) /\
    Db.get_trip_status (fun _ => "0.0") "Bulk - 00:02" db1 =
    "Trip 'Bulk - 00:02' is on route 'Path-1 - 08:30', booking status ~0.0%, live status '00:02 IN'. Vehicle KA-05-9999 with driver Sneha.".
Proof.
  destruct (status_after_assign (fun _ => "0.0") seed_db "Bulk - 00:02"
              (DailyTrips.mk 2 1 "Bulk - 00:02" (Some 0.0%Q) (Some "00:02 IN"))
              "KA-05-9999" "Sneha"
              (Vehicles.mk 3 "KA-05-9999" "Cab" 4)
              (Drivers.mk 3 "Sneha" (Some "9999990003"))
              seed_keys seed_references)
    as (msg & db1 & r & A & Hr & Er & S);
    try reflexivity; try (simpl; tauto); try discriminate.
  - split; [simpl; tauto|reflexivity].
  - exists msg, db1. split; [exact A|]. rewrite S.
    simpl in Hr, Er.
    destruct Hr as [<-|[<-|[<-|[]]]]; try discriminate; reflexivity.
Defined.

(** 'Bulk - 00:02' of the demo data as seeded. *)
Lemma status_without_assignment_witness :
  Db.get_trip_status (fun _ => "0.0") "Bulk - 00:02" seed_db =
  "Trip 'Bulk - 00:02' is on route 'Path-1 - 08:30', booking status ~0.0%, live status '00:02 IN'. No vehicle/driver assigned.".
Proof.
  destruct (proj2 (status_without_assignment (fun _ => "0.0") seed_db
                     "Bulk - 00:02")
              (DailyTrips.mk 2 1 "Bulk - 00:02" (Some 0.0%Q) (Some "00:02 IN"))
              seed_keys seed_references)
    as (r & Hr & Er & S).
  - split; [simpl; tauto|reflexivity].
  - reflexivity.
  - rewrite S. simpl in Hr, Er.
    destruct Hr as [<-|[<-|[<-|[]]]]; try discriminate; reflexivity.
Defined.

(* ================================================================== *)
(** * Paths: stops created on the fly, routes listed, unknown paths *)
(* ================================================================== *)

(** What the loop of [create_path] does to the stops table: it appends a
    stop, without coordinates, for exactly those names of the list that no
    stop carried, and afterwards every name of the list is a stop. *)
Lemma insert_stops_of_path_stops items : forall pid db,
  exists db' extra,
    Db.insert_stops_of_path pid items db = Db.Done db' /\
    rows (stops db') = rows (stops db) ++ extra /\
    Forall (fun s =>
              Stops.latitude s = None /\ Stops.longitude s = None /\
              In (Stops.name s) (map snd items) /\
              ~ In (Stops.name s) (map Stops.name (rows (stops db))))
      extra /\
    (forall n, In n (map snd items) ->
               In n (map Stops.name (rows (stops db')))).
Proof.
  induction items as [|[seq s_name] rest IH]; intros pid db.
  - exists db, []. rewrite app_nil_r. repeat split; auto.
    intros n [].
  - cbn [Db.insert_stops_of_path]. unfold Db.select_where.
    rewrite fetchone_filter.
    destruct (find _ (rows (stops db))) as [row|] eqn:F.
    + cbn [Db.bind]. unfold Db.insert_path_stop. cbn [Db.bind].
      set (db2 := Db.set_path_stops db _).
      destruct (IH pid db2) as (db' & extra & Run & Es & Hx & Hall).
      exists db', extra. split; [exact Run|]. split; [exact Es|]. split.
      * eapply Forall_impl; [|exact Hx]. intros s (A & B & C & D).
        split; [exact A|split; [exact B|split; [now right|exact D]]].
      * intros n Hn. simpl in Hn. destruct Hn as [<-|Hn]; [|now apply Hall].
        rewrite Es. rewrite map_app. apply in_or_app. left.
        destruct (find_some _ _ F) as [Hin En].
        apply String.eqb_eq in En. rewrite <- En. now apply in_map.
    + unfold Db.insert_stop. rewrite existsb_find, F.
      cbn [Db.bind]. unfold Db.insert_path_stop. cbn [Db.bind].
      set (new := Stops.mk _ s_name None None).
      set (db2 := Db.set_path_stops _ _).
      destruct (IH pid db2) as (db' & extra & Run & Es & Hx & Hall).
      assert (Es2 : rows (stops db2) = rows (stops db) ++ [new])
        by reflexivity.
      exists db', (new :: extra). split; [exact Run|].
      split; [rewrite Es, Es2, <- app_assoc; reflexivity|]. split.
      * constructor.
        -- split; [reflexivity|split; [reflexivity|split; [now left|]]].
           now apply find_none_absent.
        -- eapply Forall_impl; [|exact Hx]. intros s (A & B & C & D).
           split; [exact A|split; [exact B|split; [now right|]]].
           intros H. apply D. rewrite Es2, map_app. apply in_or_app.
           now left.
      * intros n Hn. simpl in Hn. destruct Hn as [<-|Hn]; [|now apply Hall].
        rewrite Es, Es2, !map_app. apply in_or_app. left.
        apply in_or_app. right. now left.
Qed.

(** X12.  When [create_path] answers that it created the path, the stops
    table has only grown: the stops that were there are untouched, each
    added stop has NULL coordinates and carries a name of the list that no
    stop carried before, and afterwards every name of the list is the name
    of a stop. *)
Theorem create_path_adds_missing_stops db path_name stop_names :
  let out := Db.create_path path_name stop_names db in
  Py.startswith (fst out) "Created path" = true ->
  exists extra,
    rows (stops (snd out)) = rows (stops db) ++ extra /\
    (forall s, In s extra ->
       Stops.latitude s = None /\ Stops.longitude s = None /\
       In (Stops.name s) stop_names /\
       ~ In (Stops.name s) (map Stops.name (rows (stops db)))) /\
    (forall n, In n stop_names ->
       In n (map Stops.name (rows (stops (snd out))))).
Proof.
  cbv zeta. unfold Db.create_path.
  destruct stop_names as [|s0 rest] eqn:Es; [simpl; discriminate|].
  rewrite <- Es. unfold Db.insert_path.
  destruct (existsb _ _); [simpl; discriminate|]. cbn [Db.bind].
  set (db1 := Db.set_paths db _).
  destruct (insert_stops_of_path_stops (Db.enumerate 1 stop_names)
              (Db.next_rowid Paths.path_id (paths db)) db1)
    as (db' & extra & Run & Est & Hx & Hall).
  rewrite Run. intros _. cbn [snd]. rewrite map_snd_enumerate in *.
  exists extra. split; [exact Est|]. split; [|exact Hall].
  intros s Hs. exact (proj1 (Forall_forall _ _) Hx s Hs).
Qed.

(** One known and two new stops on the demo data. *)
Lemma create_path_adds_missing_stops_witness :
  exists extra,
    rows (stops (snd (Db.create_path "Path-9"
                        ["Airport"; "Temple"; "Harbour"] seed_db)))
    = rows (stops seed_db) ++ extra /\
    List.length extra = 2%nat.
Proof.
  destruct (create_path_adds_missing_stops seed_db "Path-9"
              ["Airport"; "Temple"; "Harbour"] eq_refl)
    as (extra & E & _).
  exists extra. split; [exact E|].
  apply (f_equal (@List.length Stops.row)) in E.
  rewrite length_app in E. simpl in E. lia.
Defined.

(** X13.  A path name no path carries is reported as such by every
    operation that takes one: [list_stops_for_path] and
    [list_routes_for_path] answer "not found", and [create_route] answers
    "not found, cannot create route" and leaves the database as it was. *)
Theorem unknown_path_is_reported db path_name :
  ~ In path_name (map Paths.path_name (rows (paths db))) ->
  Db.list_stops_for_path path_name db
  = Py.fstr ["Path '"; path_name; "' not found."] /\
  Db.list_routes_for_path path_name db
  = Py.fstr ["Path '"; path_name; "' not found."] /\
  forall shift_time direction,
    Db.create_route path_name shift_time direction db
    = (Py.fstr ["Path '"; path_name; "' not found, cannot create route."],
       db).
Proof.
  intros H.
  unfold Db.list_stops_for_path, Db.list_routes_for_path, Db.create_route,
    Db.select_where.
  rewrite !fetchone_filter, (find_by_name_absent _ _ _ H). auto.
Qed.

Lemma unknown_path_is_reported_witness :
  Db.list_routes_for_path "Path-7" seed_db = "Path 'Path-7' not found.".
Proof.
  refine (proj1 (proj2 (unknown_path_is_reported seed_db "Path-7" _))).
  simpl. intuition discriminate.
Defined.

(** X14.  A created route is listed under its path: when [create_route]
    answers that it created a route, [list_routes_for_path] of that path
    returns right afterwards the heading and one line per listed route;
    the new route is among them, its line ends in "active", and every
    listed route belongs to the path of the new one. *)
Theorem created_route_is_listed_for_path db path_name shift_time direction :
  let out := Db.create_route path_name shift_time direction db in
  Py.startswith (fst out) "Created route" = true ->
  exists r listed,
    rows (routes (snd out)) = rows (routes db) ++ [r] /\
    In r listed /\
    (forall x, In x listed ->
       In x (rows (routes (snd out))) /\
       Routes.path_id x = Routes.path_id r) /\
    Db.path_route_line r =
      Py.fstr ["- "; Py.fstr [path_name; " - "; shift_time]; " (";
               direction; " @ "; shift_time; ", "; "active"; ")"] /\
    Db.list_routes_for_path path_name (snd out) =
      (Py.fstr ["Routes using path '"; path_name; "':"] ++ Db.newline ++
       Py.join Db.newline (map Db.path_route_line listed))%string.
Proof.
  cbv zeta. unfold Db.create_route.
  destruct (Db.fetchone _) as [p|] eqn:Look; [|simpl; discriminate].
  destruct (Db.select_stop_names _ db) as [|first names];
    [simpl; discriminate|].
  unfold Db.insert_route.
  destruct (existsb _ _ || _); [simpl; discriminate|].
  intros _. cbn [fst snd].
  set (new := Routes.mk _ _ _ _ _ _ _ _).
  set (db1 := Db.set_routes db _).
  unfold Db.list_routes_for_path.
  change (paths db1) with (paths db). rewrite Look.
  set (sorted := Db.order_by _ _).
  assert (Hin : In new sorted).
  { apply in_order_by. apply filter_In. split.
    - cbn. apply in_or_app. right. now left.
    - apply Z.eqb_refl. }
  exists new, sorted. split; [reflexivity|]. split; [exact Hin|].
  split; [|split; [reflexivity|]].
  - intros x Hx. apply in_order_by in Hx. apply filter_In in Hx.
    destruct Hx as [Hx Ex]. split; [exact Hx|]. now apply Z.eqb_eq in Ex.
  - destruct sorted; [contradiction|reflexivity].
Qed.

Lemma created_route_is_listed_for_path_witness :
  exists r listed,
    In r listed /\
    Db.path_route_line r = "- Path-2 - 06:00 (OUT @ 06:00, active)" /\
    Db.list_routes_for_path "Path-2"
      (snd (Db.create_route "Path-2" "06:00" "OUT" seed_db)) =
    ("Routes using path 'Path-2':" ++ Db.newline ++
     Py.join Db.newline (map Db.path_route_line listed))%string.
Proof.
  destruct (created_route_is_listed_for_path seed_db "Path-2" "06:00" "OUT"
              eq_refl) as (r & listed & _ & Hin & _ & L & E).
  exists r, listed. split; [exact Hin|]. split; [exact L|exact E].
Defined.

(* ================================================================== *)
(** * The generic query operation: what it never does *)
(* ================================================================== *)

Section QueryFrames.

Context {Database Value : Type}.
Variable sqlite_execute : string -> Database -> @Db.executed Database Value.
Variable str_value : Value -> string.

Local Notation "'run'" :=
  (Db.dynamic_run_sql_query sqlite_execute str_value).



End QueryFrames.



(* ================================================================== *)
(** * ORDER BY *)
(* ================================================================== *)

Lemma insert_sorted_perm {A : Type} (le : A -> A -> bool) x (l : list A) :
  Permutation (Db.insert_sorted le x l) (x :: l).
Proof.
  induction l as [|y l IH]; simpl; [apply Permutation_refl|].
  destruct (le x y); [apply Permutation_refl|].
  eapply Permutation_trans; [apply perm_skip, IH|apply perm_swap].
Qed.

Lemma order_by_perm {A : Type} (le : A -> A -> bool) (l : list A) :
  Permutation (Db.order_by le l) l.
Proof.
  unfold Db.order_by. induction l as [|x l IH]; simpl; [constructor|].
  eapply Permutation_trans; [apply insert_sorted_perm|now apply perm_skip].
Qed.

Lemma insert_sorted_sorted {A : Type} (le : A -> A -> bool) x (l : list A) :
  (forall a b, le a b = true \/ le b a = true) ->
  Sorted (fun a b => le a b = true) l ->
  Sorted (fun a b => le a b = true) (Db.insert_sorted le x l).
Proof.
  intros Total. induction l as [|y l IH]; intros S; simpl.
  - constructor; constructor.
  - destruct (le x y) eqn:E.
    + constructor; [exact S|]. constructor. exact E.
    + inversion S as [|? ? Sl Hd]; subst.
      constructor; [now apply IH|].
      destruct l as [|z l]; simpl.
      * constructor. destruct (Total x y); congruence.
      * inversion Hd; subst. destruct (le x z); constructor; auto.
        destruct (Total x y); congruence.
Qed.

Lemma order_by_sorted {A : Type} (le : A -> A -> bool) (l : list A) :
  (forall a b, le a b = true \/ le b a = true) ->
  Sorted (fun a b => le a b = true) (Db.order_by le l).
Proof.
  intros Total. unfold Db.order_by.
  induction l as [|x l IH]; simpl; [constructor|].
  now apply insert_sorted_sorted.
Qed.

Lemma sorted_map {A B : Type} (f : A -> B) (R : B -> B -> Prop) (l : list A) :
  Sorted (fun a b => R (f a) (f b)) l -> Sorted R (map f l).
Proof.
  induction 1 as [|x l S IH Hd]; simpl; constructor; auto.
  destruct Hd; simpl; constructor; auto.
Qed.

(* ================================================================== *)
(** * Unassigned vehicles and drivers *)
(* ================================================================== *)

(** X17.  After a successful assignment the vehicle and the driver of the
    call no longer count as unassigned: neither is among the rows
    [count_unassigned_vehicles] counts or [list_unassigned_drivers]
    lists. *)
Theorem assigned_pair_is_not_unassigned db n t plate driver v dr :
  Schema.keys db -> Schema.trip_named db n t ->
  In v (rows (vehicles db)) -> Vehicles.license_plate v = plate ->
  In dr (rows (drivers db)) -> Drivers.name dr = driver ->
  exists msg db1,
    Db.assign_vehicle_and_driver n plate driver db = Db.Done (msg, db1) /\
    ~ In v (Db.select_unassigned_vehicles db1) /\
    ~ In dr (Db.select_unassigned_drivers db1).
Proof.
  intros K T Hv Ev Hd Ed.
  destruct (assign_result db n plate driver t v dr K T Hv Ev Hd Ed)
    as (msg & db1 & dep & A & _ & _ & _ & _ & F & V & D).
  exists msg, db1. split; [exact A|].
  assert (Hdep : In dep (rows (deployments db1))).
  { unfold Schema.deployments_of in F.
    assert (H : In dep [dep]) by now left.
    rewrite <- F in H. apply filter_In in H. tauto. }
  split; intros H; apply filter_In in H; destruct H as [_ H];
    apply negb_true_iff in H;
    rewrite existsb_find in H;
    destruct (find _ (rows (deployments db1))) eqn:Fd; try discriminate;
    pose proof (proj1 (find_none_iff _ _) Fd dep Hdep) as Hf;
    simpl in Hf.
  - rewrite V in Hf. simpl in Hf. now rewrite Z.eqb_refl in Hf.
  - rewrite D in Hf. simpl in Hf. now rewrite Z.eqb_refl in Hf.
Qed.

Lemma assigned_pair_is_not_unassigned_witness :
  exists msg db1,
    Db.assign_vehicle_and_driver "Bulk - 00:02" "KA-05-9999" "Sneha" seed_db
    = Db.Done (msg, db1) /\
    ~ In (Vehicles.mk 3 "KA-05-9999" "Cab" 4)
        (Db.select_unassigned_vehicles db1).
Proof.
  destruct (assigned_pair_is_not_unassigned seed_db "Bulk - 00:02"
              (DailyTrips.mk 2 1 "Bulk - 00:02" (Some 0.0%Q) (Some "00:02 IN"))
              "KA-05-9999" "Sneha"
              (Vehicles.mk 3 "KA-05-9999" "Cab" 4)
              (Drivers.mk 3 "Sneha" (Some "9999990003"))
              seed_keys)
    as (msg & db1 & A & Hv & _);
    try reflexivity; try (simpl; tauto).
  - split; [simpl; tauto|reflexivity].
  - exists msg, db1. split; [exact A|exact Hv].
Defined.

(** X18.  [list_unassigned_drivers] answers "All drivers are currently
    assigned." exactly when every driver is named by some deployment;
    otherwise it prints the count and the names, where the count is the
    number of names, the names are those of the drivers no deployment
    names (each once per such driver), and they come in ascending
    order. *)
Theorem unassigned_drivers_listing db :
  (Db.select_unassigned_drivers db = [] /\
   Db.list_unassigned_drivers db = "All drivers are currently assigned.")
  \/
  (exists names,
     names <> [] /\
     Permutation names (map Drivers.name (Db.select_unassigned_drivers db)) /\
     Sorted (fun a b => String.leb a b = true) names /\
     Db.list_unassigned_drivers db =
     (Py.fstr ["Unassigned drivers (";
               Py.str_int (Z.of_nat (List.length names)); "): "] ++
      Py.join ", " names)%string).
Proof.
  unfold Db.list_unassigned_drivers.
  set (le := fun a b : Drivers.row =>
               String.leb (Drivers.name a) (Drivers.name b)).
  pose proof (order_by_perm le (Db.select_unassigned_drivers db)) as P.
  pose proof (order_by_sorted le (Db.select_unassigned_drivers db)
                (fun a b => String.leb_total _ _)) as S.
  destruct (Db.select_unassigned_drivers db) as [|d0 l] eqn:E.
  - left. split; reflexivity.
  - right. exists (map Drivers.name (Db.order_by le (d0 :: l))).
    assert (Hlen : List.length (map Drivers.name (Db.order_by le (d0 :: l)))
                   = List.length (d0 :: l)).
    { rewrite length_map. now apply Permutation_length. }
    split; [|split; [|split]].
    + intros H. rewrite H in Hlen. discriminate.
    + now apply Permutation_map.
    + now apply sorted_map.
    + rewrite Hlen.
      destruct (map Drivers.name (Db.order_by le (d0 :: l))) eqn:M;
        [discriminate|reflexivity].
Qed.

(* ================================================================== *)
(** * The dashboard queries *)
(* ================================================================== *)

Lemma join_single {A B : Type} (on : A -> B -> bool) (l : list A) (r : list B) :
  (forall a, In a l -> exists b, filter (on a) r = [b]) ->
  map fst (Db.join_on on l r) = l.
Proof.
  unfold Db.join_on. induction l as [|a l IH]; intros H; [reflexivity|].
  simpl. destruct (H a (or_introl eq_refl)) as (b & E). rewrite E.
  simpl. f_equal. apply IH. intros; apply H; now right.
Qed.

Lemma left_join_single {A B : Type} (on : A -> B -> bool) (l : list A)
    (r : list B) :
  (forall a, In a l -> (List.length (filter (on a) r) <= 1)%nat) ->
  map fst (Db.left_join_on on l r) = l.
Proof.
  unfold Db.left_join_on.
  induction l as [|a l IH]; intros H; [reflexivity|].
  simpl. rewrite map_app, IH by (intros; apply H; now right).
  pose proof (H a (or_introl eq_refl)) as Ha.
  unfold Db.partners.
  destruct (filter (on a) r) as [|b [|c bs]]; simpl in *; try reflexivity.
  lia.
Qed.

Lemma nullable_filter_length {A : Type} (key : A -> Z) (l : list A)
    (k : option Z) :
  NoDup (map key l) ->
  (List.length (filter (fun a => Db.eq_nullable (key a) k) l) <= 1)%nat.
Proof.
  intros ND. destruct k as [k|]; simpl.
  - now apply unique_filter_length.
  - rewrite filter_none; [simpl; lia|reflexivity].
Qed.

(** With the schema constraints, the trip query has exactly one row per
    trip, in the order of the trips table. *)
Lemma trip_rows_one_per_trip db :
  Schema.keys db -> Schema.references db ->
  map Db.trip_of (Db.trip_rows db) = rows (daily_trips db).
Proof.
  intros K R. unfold Db.trip_rows.
  transitivity
    (map fst (map fst (map fst (map fst
       (Db.left_join_on
          (fun (x : DailyTrips.row * Routes.row * option Deployments.row
                    * option Vehicles.row) (d : Drivers.row) =>
             match snd (fst x) with
             | Some dep => Db.eq_nullable (Drivers.driver_id d)
                             (Deployments.driver_id dep)
             | None => false
             end)
          (Db.left_join_on
             (fun (x : DailyTrips.row * Routes.row * option Deployments.row)
                  (v : Vehicles.row) =>
                match snd x with
                | Some dep => Db.eq_nullable (Vehicles.vehicle_id v)
                                (Deployments.vehicle_id dep)
                | None => false
                end)
             (Db.left_join_on
                (fun (tr : DailyTrips.row * Routes.row)
                     (dep : Deployments.row) =>
                   Deployments.trip_id dep =? DailyTrips.trip_id (fst tr))
                (Db.join_on
                   (fun t r => Routes.route_id r =? DailyTrips.route_id t)
                   (rows (daily_trips db)) (rows (routes db)))
                (rows (deployments db)))
             (rows (vehicles db)))
          (rows (drivers db))))))).
  { rewrite !map_map. reflexivity. }
  rewrite left_join_single.
  2:{ intros x _. destruct (snd (fst x)) as [dep|].
      - apply nullable_filter_length. exact (Schema.drivers_pk db K).
      - rewrite filter_none; [simpl; lia|reflexivity]. }
  rewrite left_join_single.
  2:{ intros x _. destruct (snd x) as [dep|].
      - apply nullable_filter_length. exact (Schema.vehicles_pk db K).
      - rewrite filter_none; [simpl; lia|reflexivity]. }
  rewrite left_join_single.
  2:{ intros x _. apply unique_filter_length.
      exact (Schema.deployments_trip db K). }
  apply join_single. intros t Ht.
  destruct (in_map_key _ _ _ (Schema.trips_route db R t Ht)) as (r & Hr & Er).
  destruct (find_in (fun r0 => Routes.route_id r0 =? DailyTrips.route_id t)
              _ r Hr) as (r' & F & _); [now apply Z.eqb_eq|].
  exists r'. apply (filter_unique Routes.route_id); auto.
  exact (Schema.routes_pk db K).
Qed.

(** X19.  On a database that satisfies the schema constraints the
    dashboard shows every trip exactly once, with or without a deployment:
    the trips of the rows returned by [fetch_bus_dashboard_data] are the
    rows of the trips table, rearranged in ascending order of display
    name, and each row carries the route of its trip. *)
Theorem dashboard_shows_each_trip_once db :
  Schema.keys db -> Schema.references db ->
  let shown := Db.fetch_bus_dashboard_data db in
  Permutation (map Db.trip_of shown) (rows (daily_trips db)) /\
  Sorted (fun a b => String.leb a b = true)
    (map (fun x => DailyTrips.display_name (Db.trip_of x)) shown) /\
  forall x, In x shown ->
    Routes.route_id (Db.route_of x) = DailyTrips.route_id (Db.trip_of x).
Proof.
  intros K R. cbv zeta. unfold Db.fetch_bus_dashboard_data.
  set (le := fun a b : Db.TripRow =>
               String.leb (DailyTrips.display_name (Db.trip_of a))
                          (DailyTrips.display_name (Db.trip_of b))).
  split; [|split].
  - rewrite <- (trip_rows_one_per_trip db K R).
    apply Permutation_map, order_by_perm.
  - apply (sorted_map (fun x => DailyTrips.display_name (Db.trip_of x))).
    apply (order_by_sorted le). intros a b. apply String.leb_total.
  - intros x Hx. apply in_order_by in Hx.
    unfold Db.trip_rows in Hx.
    apply in_left_join_fst, in_left_join_fst, in_left_join_fst in Hx.
    unfold Db.join_on in Hx. apply in_flat_map in Hx.
    destruct Hx as (t & _ & Hx). apply in_map_iff in Hx.
    destruct Hx as (r & E & Hr). apply filter_In in Hr.
    destruct Hr as [_ Hr]. apply Z.eqb_eq in Hr.
    unfold Db.route_of, Db.trip_of. rewrite <- E. exact Hr.
Qed.

Lemma dashboard_shows_each_trip_once_witness :
  map (fun x => DailyTrips.display_name (Db.trip_of x))
    (Db.fetch_bus_dashboard_data seed_db)
  = ["Bulk - 00:01"; "Bulk - 00:02"; "Path Path - 00:02"] /\
  Permutation (map Db.trip_of (Db.fetch_bus_dashboard_data seed_db))
    (rows (daily_trips seed_db)).
Proof.
  split; [reflexivity|].
  exact (proj1 (dashboard_shows_each_trip_once seed_db seed_keys
                  seed_references)).
Defined.

(** X20.  On a database that satisfies the schema constraints
    [fetch_routes_data] returns every route exactly once, each paired with
    the path it belongs to. *)
Theorem routes_data_shows_each_route_once db :
  Schema.keys db -> Schema.references db ->
  let shown := Db.fetch_routes_data db in
  Permutation (map fst shown) (rows (routes db)) /\
  forall x, In x shown ->
    In (snd x) (rows (paths db)) /\
    Paths.path_id (snd x) = Routes.path_id (fst x).
Proof.
  intros K R. cbv zeta. unfold Db.fetch_routes_data. split.
  - eapply Permutation_trans; [apply Permutation_map, order_by_perm|].
    rewrite join_single; [apply Permutation_refl|].
    intros r Hr.
    destruct (in_map_key _ _ _ (Schema.routes_path db R r Hr))
      as (p & Hp & Ep).
    destruct (find_in (fun p0 => Paths.path_id p0 =? Routes.path_id r)
                _ p Hp) as (p' & F & _); [now apply Z.eqb_eq|].
    exists p'. apply (filter_unique Paths.path_id); auto.
    exact (Schema.paths_pk db K).
  - intros x Hx. apply in_order_by in Hx.
    unfold Db.join_on in Hx. apply in_flat_map in Hx.
    destruct Hx as (r & _ & Hx). apply in_map_iff in Hx.
    destruct Hx as (p & E & Hp). apply filter_In in Hp.
    destruct Hp as [Hp Ep]. apply Z.eqb_eq in Ep.
    rewrite <- E. simpl. auto.
Qed.

Lemma routes_data_shows_each_route_once_witness :
  Permutation (map fst (Db.fetch_routes_data seed_db)) (rows (routes seed_db)).
Proof.
  exact (proj1 (routes_data_shows_each_route_once seed_db seed_keys
                  seed_references)).
Defined.

(* ================================================================== *)
(** * The decision loop, whatever the reasoner answers *)
(* ================================================================== *)

Section LoopBounds.

Context {Args World Reasoner : Type}.
Variable llm_invoke :
  Reasoner -> list (Messages.Message Args)
  -> (Messages.Content * list (Messages.ToolCall Args)) * Reasoner.
Variable invoke_tool : string -> Args -> World -> string * World.
Variable _get_db_schema : World -> string.
Variable str_blocks : list Messages.ContentPart -> string.

Local Notation "'graph'" :=
  (MoviAgent.build_movi_graph llm_invoke invoke_tool _get_db_schema).

Local Notation "'prompt'" :=
  (fun (w : World) (page : option string) =>
     Messages.SystemMessage (Args := Args)
       (MoviAgent._build_system_prompt (_get_db_schema w)
          (match page with Some p => p | None => "unknown" end))).

(** The agent node alone in a superstep: the reasoner's message is the
    update; the tool node is triggered exactly when it requests
    invocations. *)
Lemma superstep_agent ms page env :
  MoviAgent.superstep graph [MoviAgent.agent] (MoviAgent.mkState ms page) env =
  let r := llm_invoke (MoviAgent.reasoner env)
             (prompt (MoviAgent.world env) page :: ms) in
  Some ([Messages.AIMessage (fst (fst r)) (snd (fst r))],
        match snd (fst r) with [] => [] | _ :: _ => [MoviAgent.tools] end,
        MoviAgent.mkEnv (MoviAgent.world env) (snd r)
          (MoviAgent.dispatched env)).
Proof.
  cbn [MoviAgent.superstep MoviAgent.node_fun MoviAgent.build_movi_graph].
  unfold MoviAgent._agent_node.
  cbn [MoviAgent.messages MoviAgent.current_page].
  destruct (llm_invoke _ _) as [[c calls] s'].
  cbn [fst snd MoviAgent.conditional_edges MoviAgent.edges MoviAgent.route
       MoviAgent.build_movi_graph MoviAgent.messages MoviAgent.current_page].
  unfold MoviAgent.tools_condition, Messages.add_messages.
  cbn [MoviAgent.messages]. rewrite last_some_snoc.
  destruct calls; reflexivity.
Qed.

(** The tool node alone in a superstep, after a message of the reasoner:
    its invocations are run, the agent node is triggered. *)
Lemma superstep_tools ms c calls page env :
  MoviAgent.superstep graph [MoviAgent.tools]
    (MoviAgent.mkState (ms ++ [Messages.AIMessage c calls]) page) env =
  Some (fst (MoviAgent.run_calls invoke_tool calls env), [MoviAgent.agent],
        snd (MoviAgent.run_calls invoke_tool calls env)).
Proof.
  cbn [MoviAgent.superstep MoviAgent.node_fun MoviAgent.build_movi_graph].
  unfold MoviAgent.tool_node. cbn [MoviAgent.messages].
  rewrite last_some_snoc.
  destruct (MoviAgent.run_calls invoke_tool calls env) as [out env'].
  cbn [fst snd MoviAgent.conditional_edges MoviAgent.edges MoviAgent.route
       MoviAgent.build_movi_graph].
  rewrite app_nil_r. reflexivity.
Qed.

(** X21.  When the reasoner answers the first Reason step without
    requesting an invocation, the loop stops after that one step: no
    operation is dispatched, the world is left as it was, and the chat
    history gains the user turn and the answer as assistant turn. *)
Theorem direct_answer_dispatches_nothing
    (s0 s1 : Reasoner) (final : Messages.Content)
    page user_input image_b64 chat_history w log :
  (forall msgs, llm_invoke s0 msgs = ((final, []), s1)) ->
  user_input <> ""%string ->
  App.submit llm_invoke invoke_tool _get_db_schema str_blocks
    page user_input image_b64 chat_history (MoviAgent.mkEnv w s0 log)
  = Some (chat_history ++
          [App.mkTurn "user" user_input;
           App.mkTurn "assistant"
             match final with
             | Messages.Text s => s
             | Messages.Parts blocks => str_blocks blocks
             end],
          MoviAgent.mkEnv w s1 log).
Proof.
  intros Step Hne.
  destruct (@history_converts Args
              (chat_history ++ [App.mkTurn "user" user_input]) image_b64 0
              (List.length (chat_history ++ [App.mkTurn "user" user_input])))
    as (ms & Conv).
  fold (App._history_to_graph_messages
          (chat_history ++ [App.mkTurn "user" user_input]) image_b64) in Conv.
  unfold App.submit.
  rewrite (proj2 (String.eqb_neq user_input "") Hne).
  unfold App.graph, MoviAgent.invoke. rewrite Conv.
  change MoviAgent.default_recursion_limit with (S 24).
  cbn [MoviAgent.start_edges MoviAgent.build_movi_graph].
  rewrite run_step, superstep_agent. cbv zeta.
  cbn [MoviAgent.reasoner MoviAgent.world MoviAgent.dispatched].
  rewrite Step. cbn [fst snd MoviAgent.run].
  unfold App.last_content, Messages.add_messages.
  cbn [MoviAgent.messages]. rewrite last_some_snoc.
  rewrite <- app_assoc. reflexivity.
Qed.

(** A reasoner that requests invocations whatever it is shown. *)
Hypothesis insists :
  forall s msgs, snd (fst (llm_invoke s msgs)) <> [].

Lemma insistent_run k :
  (forall ms page env,
     MoviAgent.run graph k [MoviAgent.agent] (MoviAgent.mkState ms page) env
     = MoviAgent.GraphRecursionError) /\
  (forall ms c calls page env,
     MoviAgent.run graph k [MoviAgent.tools]
       (MoviAgent.mkState (ms ++ [Messages.AIMessage c calls]) page) env
     = MoviAgent.GraphRecursionError).
Proof.
  induction k as [|k [IHa IHt]]; [split; reflexivity|]. split.
  - intros ms page env. rewrite run_step, superstep_agent. cbv zeta.
    pose proof (insists (MoviAgent.reasoner env)
                  (prompt (MoviAgent.world env) page :: ms)) as I.
    destruct (llm_invoke _ _) as [[c calls] s']. cbn [fst snd] in *.
    destruct calls as [|call calls]; [contradiction|].
    cbn [MoviAgent.messages MoviAgent.current_page].
    unfold Messages.add_messages. apply IHt.
  - intros ms c calls page env. rewrite run_step, superstep_tools.
    cbn [MoviAgent.messages MoviAgent.current_page]. apply IHa.
Qed.

(** X22.  The loop has no bound of its own: with a reasoner that requests
    an invocation at every Reason step, a run reaches any bound on the
    number of supersteps, so [graph.invoke] ends in the recursion error
    and the submitted input gets no assistant turn. *)
Theorem insistent_reasoner_exhausts_any_bound
    limit page user_input image_b64 chat_history env :
  user_input <> ""%string ->
  MoviAgent.invoke graph limit
    (App._history_to_graph_messages
       (chat_history ++ [App.mkTurn "user" user_input]) image_b64) page env
  = MoviAgent.GraphRecursionError /\
  App.submit llm_invoke invoke_tool _get_db_schema str_blocks
    page user_input image_b64 chat_history env
  = None.
Proof.
  intros Hne.
  destruct (@history_converts Args
              (chat_history ++ [App.mkTurn "user" user_input]) image_b64 0
              (List.length (chat_history ++ [App.mkTurn "user" user_input])))
    as (ms & Conv).
  fold (App._history_to_graph_messages
          (chat_history ++ [App.mkTurn "user" user_input]) image_b64) in Conv.
  assert (R : forall k,
    MoviAgent.invoke graph k
      (App._history_to_graph_messages
         (chat_history ++ [App.mkTurn "user" user_input]) image_b64) page env
    = MoviAgent.GraphRecursionError).
  { intros k. unfold MoviAgent.invoke. rewrite Conv.
    cbn [MoviAgent.start_edges MoviAgent.build_movi_graph].
    apply (proj1 (insistent_run k)). }
  split; [apply R|].
  unfold App.submit.
  rewrite (proj2 (String.eqb_neq user_input "") Hne).
  unfold App.graph. rewrite R. reflexivity.
Qed.

End LoopBounds.

Lemma direct_answer_dispatches_nothing_witness :
  App.submit Stub.scripted_llm Stub.two_tools (fun _ => "") (fun _ => "")
    "busDashboard" "Hello" None []
    (MoviAgent.mkEnv seed_db [(Messages.Text "Hi, Movi here.", [])] [])
  = Some ([ App.mkTurn "user" "Hello";
            App.mkTurn "assistant" "Hi, Movi here." ],
          MoviAgent.mkEnv seed_db [] []).
Proof.
  apply (direct_answer_dispatches_nothing Stub.scripted_llm Stub.two_tools
           (fun _ => "") (fun _ => "")
           [(Messages.Text "Hi, Movi here.", [])] []
           (Messages.Text "Hi, Movi here.")
           "busDashboard" "Hello" None [] seed_db []).
  - reflexivity.
  - discriminate.
Defined.

(** A reasoner that asks for the list of active routes again and again. *)
Lemma insistent_reasoner_exhausts_any_bound_witness :
  App.submit
    (fun (s : unit) (_ : list (Messages.Message string)) =>
       ((Messages.Text "",
         [Messages.mkToolCall "tool_list_active_routes" "" "call_1"]), s))
    Stub.two_tools (fun _ => "") (fun _ => "")
    "manageRoute" "Which routes are active?" None []
    (MoviAgent.mkEnv seed_db tt [])
  = None.
Proof.
  refine (proj2 (insistent_reasoner_exhausts_any_bound
                   (fun (s : unit) (_ : list (Messages.Message string)) =>
                      ((Messages.Text "",
                        [Messages.mkToolCall "tool_list_active_routes" ""
                           "call_1"]), s))
                   Stub.two_tools (fun _ => "") (fun _ => "") _
                   MoviAgent.default_recursion_limit
                   "manageRoute" "Which routes are active?" None []
                   (MoviAgent.mkEnv seed_db tt []) _)).
  - intros s msgs. discriminate.
  - discriminate.
Defined.

(* ================================================================== *)
(** * Voice input and output *)
(* ================================================================== *)

Lemma lstrip_length (s : string) :
  (String.length (Py.lstrip s) <= String.length s)%nat.
Proof.
  induction s as [|c s IH]; simpl; [lia|].
  destruct (Py.isspace c); simpl; lia.
Qed.

Lemma lstrip_idempotent (s : string) : Py.lstrip (Py.lstrip s) = Py.lstrip s.
Proof.
  induction s as [|c s IH]; [reflexivity|]. simpl.
  destruct (Py.isspace c) eqn:E; [exact IH|]. simpl. now rewrite E.
Qed.

Lemma rstrip_idempotent (s : string) : Py.rstrip (Py.rstrip s) = Py.rstrip s.
Proof.
  induction s as [|c s IH]; [reflexivity|]. cbn [Py.rstrip].
  destruct (Py.rstrip s) as [|d r'] eqn:E.
  - destruct (Py.isspace c) eqn:Ec; [reflexivity|].
    cbn [Py.rstrip]. now rewrite Ec.
  - cbn [Py.rstrip] in *. rewrite IH. reflexivity.
Qed.

(** Stripping on the right keeps a first character that is not blank. *)
Lemma lstrip_fixed_rstrip (s : string) :
  Py.lstrip s = s -> Py.lstrip (Py.rstrip s) = Py.rstrip s.
Proof.
  destruct s as [|c r]; [reflexivity|]. intros H.
  assert (Ec : Py.isspace c = false).
  { destruct (Py.isspace c) eqn:E; [|reflexivity]. exfalso.
    simpl in H. rewrite E in H.
    pose proof (lstrip_length r) as L. rewrite H in L. simpl in L. lia. }
  cbn [Py.rstrip]. rewrite Ec.
  destruct (Py.rstrip r); simpl; now rewrite Ec.
Qed.

Lemma strip_idempotent (s : string) : Py.strip (Py.strip s) = Py.strip s.
Proof.
  unfold Py.strip.
  rewrite (lstrip_fixed_rstrip (Py.lstrip s) (lstrip_idempotent s)).
  apply rstrip_idempotent.
Qed.





(* ================================================================== *)
(** * Counting the vehicles left *)
(* ================================================================== *)

Lemma filter_split_length {A : Type} (p : A -> bool) (l : list A) :
  (List.length (filter p l) + List.length (filter (fun x => negb (p x)) l)
   = List.length l)%nat.
Proof.
  induction l as [|x l IH]; simpl; [reflexivity|].
  destruct (p x); simpl; lia.
Qed.

Lemma filter_out_one {A : Type} (key : A -> Z) (l : list A) a :
  NoDup (map key l) -> In a l ->
  (List.length (filter (fun x => negb (key x =? key a)%Z) l) + 1
   = List.length l)%nat.
Proof.
  intros ND Hin.
  destruct (find_in (fun x => key x =? key a) l a Hin (Z.eqb_refl _))
    as (b & F & _).
  pose proof (filter_split_length (fun x => key x =? key a) l) as L.
  rewrite (filter_unique key l (key a) b ND F) in L. simpl in L. lia.
Qed.

Lemma filter_filter {A : Type} (p q : A -> bool) (l : list A) :
  filter q (filter p l) = filter (fun x => p x && q x) l.
Proof.
  induction l as [|x l IH]; simpl; [reflexivity|].
  destruct (p x); simpl; [destruct (q x)|]; now rewrite IH.
Qed.

(** X25.  Assigning a vehicle that no deployment names to a trip without
    deployment lowers the number [count_unassigned_vehicles] reports by
    exactly one. *)
Theorem assigning_a_free_vehicle_lowers_the_count
    db n t plate driver v dr :
  Schema.keys db -> Schema.trip_named db n t ->
  In v (rows (vehicles db)) -> Vehicles.license_plate v = plate ->
  In dr (rows (drivers db)) -> Drivers.name dr = driver ->
  Schema.deployments_of db (DailyTrips.trip_id t) = [] ->
  In v (Db.select_unassigned_vehicles db) ->
  exists msg db1 c,
    Db.assign_vehicle_and_driver n plate driver db = Db.Done (msg, db1) /\
    Db.count_unassigned_vehicles db =
      Py.fstr ["There are "; Py.str_int (c + 1);
               " vehicles not assigned to any trip right now."] /\
    Db.count_unassigned_vehicles db1 =
      Py.fstr ["There are "; Py.str_int c;
               " vehicles not assigned to any trip right now."].
Proof.
  intros K T Hv Ev Hd Ed Hnone Hfree.
  eexists _, _,
    (Z.of_nat
       (List.length
          (filter (fun x => negb (Vehicles.vehicle_id x =? Vehicles.vehicle_id v))
             (Db.select_unassigned_vehicles db)))).
  split; [exact (assign_inserts db n plate driver t v dr K T Hv Ev Hd Ed Hnone)|].
  unfold Db.count_unassigned_vehicles. cbv zeta. split.
  - pose proof (filter_out_one Vehicles.vehicle_id
                  (Db.select_unassigned_vehicles db) v
                  (NoDup_map_filter _ _ _ (Schema.vehicles_pk db K)) Hfree)
      as L.
    replace (Z.of_nat (List.length (Db.select_unassigned_vehicles db)))
      with (Z.of_nat
              (List.length
                 (filter (fun x => negb (Vehicles.vehicle_id x
                                         =? Vehicles.vehicle_id v))
                    (Db.select_unassigned_vehicles db))) + 1) by lia.
    reflexivity.
  - match goal with
    | |- context [Db.select_unassigned_vehicles ?d] =>
        assert (E : Db.select_unassigned_vehicles d =
                    filter (fun x => negb (Vehicles.vehicle_id x
                                           =? Vehicles.vehicle_id v))
                      (Db.select_unassigned_vehicles db))
    end.
    { unfold Db.select_unassigned_vehicles. rewrite filter_filter.
      apply filter_ext. intros x.
      unfold Db.set_deployments, Db.append_row. simpl.
      rewrite existsb_app. simpl. rewrite orb_false_r, negb_orb.
      reflexivity. }
    rewrite E. reflexivity.
Qed.

Lemma assigning_a_free_vehicle_lowers_the_count_witness :
  Db.count_unassigned_vehicles seed_db
  = "There are 1 vehicles not assigned to any trip right now."%string /\
  exists msg db1,
    Db.assign_vehicle_and_driver "Bulk - 00:02" "KA-05-9999" "Sneha" seed_db
    = Db.Done (msg, db1) /\
    Db.count_unassigned_vehicles db1
    = "There are 0 vehicles not assigned to any trip right now."%string.
Proof.
  split; [reflexivity|].
  destruct (assigning_a_free_vehicle_lowers_the_count seed_db "Bulk - 00:02"
              (DailyTrips.mk 2 1 "Bulk - 00:02" (Some 0.0%Q) (Some "00:02 IN"))
              "KA-05-9999" "Sneha"
              (Vehicles.mk 3 "KA-05-9999" "Cab" 4)
              (Drivers.mk 3 "Sneha" (Some "9999990003"))
              seed_keys)
    as (msg & db1 & c & A & _ & _);
    try reflexivity; try (simpl; tauto).
  - split; [simpl; tauto|reflexivity].
  - exists msg, db1. split; [exact A|].
    injection A as _ <-. reflexivity.
Defined.
